(** * LLM_Project: a command-line book recommender

    A shallow embedding of the helper functions of the recommender
    (tools.py, vectorDB.py, LLM_Aditional.py) and of the control flow of
    main.py, with the properties its specification states about them.

    Conventions of the embedding:
    - a Python [str] is the list of its code points ([N]);
    - a Python object is a [value]; operations that can raise return a
      [result], whose [Raise] carries the exception class;
    - a Python [dict] is an association list in insertion order;
    - the library functions [json.loads] and [repr] are members of the
      class [Python]: the functions of the repository are defined, and
      their properties proved, for every implementation of them. *)

From Stdlib Require Import String Ascii.
From Stdlib Require Import List NArith ZArith Bool Lia.
From Stdlib Require Floats.SpecFloat.
Import ListNotations.

Set Implicit Arguments.

(** ** Strings *)

Definition char := N.
Definition str := list char.

(** The code points of an ASCII literal. *)
Definition py (s : string) : str := map N_of_ascii (list_ascii_of_string s).

Definition str_eqb (a b : str) : bool :=
  if list_eq_dec N.eq_dec a b then true else false.

Definition nl : str := [10%N].

Fixpoint drop_while (p : char -> bool) (s : str) : str :=
  match s with
  | [] => []
  | c :: t => if p c then drop_while p t else s
  end.

Definition lstrip_by (p : char -> bool) (s : str) : str := drop_while p s.
Definition rstrip_by (p : char -> bool) (s : str) : str :=
  rev (drop_while p (rev s)).

(** [s.strip(chars)]: the characters of the set are removed at both ends. *)
Definition strip_by (p : char -> bool) (s : str) : str :=
  rstrip_by p (lstrip_by p s).

(** [str.isspace] of one character. *)
Definition isspace (c : char) : bool :=
  ((9 <=? c) && (c <=? 13) || (28 <=? c) && (c <=? 32)
   || (c =? 133) || (c =? 160) || (c =? 5760)
   || (8192 <=? c) && (c <=? 8202)
   || (c =? 8232) || (c =? 8233) || (c =? 8239) || (c =? 8287)
   || (c =? 12288))%N.

(** [s.strip()] *)
Definition strip (s : str) : str := strip_by isspace s.

(** [sep.join(parts)] for parts that are strings. *)
Fixpoint join (sep : str) (parts : list str) : str :=
  match parts with
  | [] => []
  | [p] => p
  | p :: rest => p ++ sep ++ join sep rest
  end.

(** ** LLM_Aditional.py *)

Module Slug.

(** The class [[a-zA-Z0-9_-]] of the pattern. *)
Definition keep (c : char) : bool :=
  ((97 <=? c) && (c <=? 122) || (65 <=? c) && (c <=? 90)
   || (48 <=? c) && (c <=? 57) || (c =? 95) || (c =? 45))%N.

Definition underscore : char := 95%N.
Definition is_underscore (c : char) : bool := (c =? underscore)%N.

(** [re.sub(r"[^a-zA-Z0-9_-]+", "_", s)]: every maximal run of characters
    outside the class becomes one underscore.  [in_run] tells that the
    previous character was outside the class. *)
Fixpoint sub_from (in_run : bool) (s : str) : str :=
  match s with
  | [] => []
  | c :: t =>
      if keep c then c :: sub_from false t
      else if in_run then sub_from true t
      else underscore :: sub_from true t
  end.

Definition re_sub (s : str) : str := sub_from false s.

(** [x or "output"] on strings. *)
Definition or_output (x : str) : str :=
  match x with
  | [] => py "output"
  | _ => x
  end.

(** def _safe_slug(s):
      return re.sub(r"[^a-zA-Z0-9_-]+", "_", s).strip("_")[:60] or "output" *)
Definition _safe_slug (s : str) : str :=
  or_output (firstn 60 (strip_by is_underscore (re_sub s))).

(** The character is kept by the pattern. *)
Definition kept (c : char) : Prop := keep c = true.

(** The part of [_safe_slug] before the fallback. *)
Definition cut (s : str) : str :=
  firstn 60 (strip_by is_underscore (re_sub s)).

End Slug.

(** ** Python objects *)

Definition float : Type := SpecFloat.spec_float.

(** The objects [json.loads] builds: None, bool, int, float (an IEEE
    double, carried exactly), str, list, and dict with string keys in
    insertion order. *)
#[warnings="-register-all"] Inductive value : Type :=
| VNone
| VBool (b : bool)
| VInt (z : Z)
| VFloat (f : float)
| VStr (s : str)
| VList (l : list value)
| VDict (d : list (str * value)).

(** The exception classes the modelled code can raise; [ServiceError]
    stands for whatever a client of a hosted service raises. *)
Inductive exn : Type :=
| AttributeError
| TypeError
| KeyError
| IndexError
| OSError
| ServiceError.

Inductive result (A : Type) : Type :=
| Ok (a : A)
| Raise (e : exn).

Arguments Ok {A} a.
Arguments Raise {A} e.

Definition bind {A B : Type} (m : result A) (k : A -> result B) : result B :=
  match m with
  | Ok a => k a
  | Raise e => Raise e
  end.

Declare Scope py_scope.
Delimit Scope py_scope with py.
Notation "x <- m ;; k" := (bind m (fun x => k))
  (at level 61, m at next level, right associativity) : py_scope.
Open Scope py_scope.

(** [t or default] on strings. *)
Definition str_or (t default : str) : str :=
  match t with
  | [] => default
  | _ => t
  end.

(** [bool(v)] *)
Definition truthy (v : value) : bool :=
  match v with
  | VNone => false
  | VBool b => b
  | VInt z => negb (z =? 0)%Z
  | VFloat (SpecFloat.S754_zero _) => false
  | VFloat _ => true
  | VStr [] => false
  | VStr _ => true
  | VList [] => false
  | VList _ => true
  | VDict [] => false
  | VDict _ => true
  end.

(** [a or b] *)
Definition py_or (a b : value) : value := if truthy a then a else b.

(** Objects with a [__hash__]: lists and dicts have none. *)
Definition hashable (v : value) : bool :=
  match v with
  | VList _ | VDict _ => false
  | _ => true
  end.

(** The number a bool, int or float stands for: [m * 2^e], an infinity
    or the NaN object of the json module. *)
Inductive num : Type :=
| Finite (m e : Z)
| Inf (neg : bool)
| NaN.

Definition num_of (v : value) : option num :=
  match v with
  | VBool b => Some (Finite (if b then 1 else 0) 0)
  | VInt z => Some (Finite z 0)
  | VFloat f =>
      Some match f with
           | SpecFloat.S754_zero _ => Finite 0 0
           | SpecFloat.S754_infinity s => Inf s
           | SpecFloat.S754_nan => NaN
           | SpecFloat.S754_finite s m e =>
               Finite (if s then Z.neg m else Z.pos m) e
           end
  | _ => None
  end.

Definition num_eqb (a b : num) : bool :=
  match a, b with
  | Finite m1 e1, Finite m2 e2 =>
      let e := Z.min e1 e2 in
      (m1 * 2 ^ (e1 - e) =? m2 * 2 ^ (e2 - e))%Z
  | Inf s1, Inf s2 => Bool.eqb s1 s2
  | NaN, NaN => true
  | _, _ => false
  end.

(** When two hashable objects are the same dict key: [a is b or a == b]
    with equal hashes.  Numbers compare by value across bool, int and
    float. *)
Definition key_eqb (a b : value) : bool :=
  match a, b with
  | VNone, VNone => true
  | VStr s, VStr t => str_eqb s t
  | _, _ =>
      match num_of a, num_of b with
      | Some x, Some y => num_eqb x y
      | _, _ => false
      end
  end.

(** *** dicts with string keys *)

Fixpoint dict_get (d : list (str * value)) (k : str) : option value :=
  match d with
  | [] => None
  | (k', v) :: rest => if str_eqb k' k then Some v else dict_get rest k
  end.

(** [obj.get(k, default)]: only a dict has the method. *)
Definition py_get (obj : value) (k : str) (default : value) : result value :=
  match obj with
  | VDict d =>
      Ok match dict_get d k with
         | Some v => v
         | None => default
         end
  | _ => Raise AttributeError
  end.

(** *** The library functions *)

(** [json_loads s] is [json.loads(s)], [None] standing for
    [json.JSONDecodeError]; [repr v] is [repr(v)].  The limits of the
    interpreter (recursion depth, digits of an int) are not part of the
    model. *)
Class Python : Type := {
  json_loads : str -> option value;
  repr : value -> str
}.

Section Program.

Context {P : Python}.

(** [str(v)] *)
Definition str_of (v : value) : str :=
  match v with
  | VStr s => s
  | _ => repr v
  end.

(** ** tools.py *)

(** A catalog entry [(summary_short, themes)]. *)
Definition entry : Type := value * list value.

(** [BooksDict]: the catalog, a dict from title to entry, in insertion
    order. *)
Definition BooksDict : Type := list (value * entry).

Fixpoint books_get (books : BooksDict) (k : value) : option entry :=
  match books with
  | [] => None
  | (k', e) :: rest => if key_eqb k' k then Some e else books_get rest k
  end.

(** [books[k] = e] on a hashable key: an existing key keeps its place
    and its key object, a new one goes last. *)
Fixpoint books_set (books : BooksDict) (k : value) (e : entry) : BooksDict :=
  match books with
  | [] => [(k, e)]
  | (k', e') :: rest =>
      if key_eqb k' k then (k', e) :: rest
      else (k', e') :: books_set rest k e
  end.

Definition books_setitem (books : BooksDict) (k : value) (e : entry)
  : result BooksDict :=
  if hashable k then Ok (books_set books k e) else Raise TypeError.

(** The lines of a text file as [for line in f] yields them: each ends
    with its newline, except possibly the last. *)
Fixpoint lines_from (cur : str) (text : str) : list str :=
  match text with
  | [] => match cur with [] => [] | _ => [rev cur] end
  | c :: t =>
      if (c =? 10)%N then rev (c :: cur) :: lines_from [] t
      else lines_from (c :: cur) t
  end.

Definition readlines (text : str) : list str := lines_from [] text.

Definition blank (line : str) : bool :=
  match strip line with [] => true | _ => false end.

(** The themes of a row: [row.get("themes") or []], wrapped in a list
    when it is not one. *)
Definition themes_of (raw : value) : list value :=
  match py_or raw (VList []) with
  | VList l => l
  | v => [VStr (str_of v)]
  end.

(** The body of the loop of [parse_json], from [json.loads] on. *)
Definition parse_row (books : BooksDict) (row : value) : result BooksDict :=
  title <- py_get row (py "title") VNone ;;
  if negb (truthy title) then Ok books
  else
    summary <- py_get row (py "summary_short") VNone ;;
    raw <- py_get row (py "themes") VNone ;;
    books_setitem books title (summary, themes_of raw).

Fixpoint parse_lines (lines : list str) (books : BooksDict)
  : result BooksDict :=
  match lines with
  | [] => Ok books
  | line :: rest =>
      if blank line then parse_lines rest books
      else
        match json_loads line with
        | None => parse_lines rest books
        | Some row =>
            books' <- parse_row books row ;;
            parse_lines rest books'
        end
  end.

(** def parse_json(path): the argument is the text of the file at
    [path], as the text mode of [open] hands it over (decoded, every
    end of line a newline). *)
Definition parse_json (text : str) : result BooksDict :=
  parse_lines (readlines text) [].

(** def make_get_summary_tool(books): the closure it returns,
    [get_summary_by_title]. *)
Definition make_get_summary_tool (books : BooksDict) (title : value)
  : result value :=
  if hashable title then
    Ok match books_get books title with
       | Some (summary, _) => py_or summary (VStr [])
       | None => VStr []
       end
  else Raise TypeError.

(** ** vectorDB.py *)

(** The items of a list of [str], as [sep.join] needs them. *)
Fixpoint strs_of (items : list value) : result (list str) :=
  match items with
  | [] => Ok []
  | VStr s :: rest => ss <- strs_of rest ;; Ok (s :: ss)
  | _ :: _ => Raise TypeError
  end.

(** [sep.join(items)] *)
Definition str_join (sep : str) (items : list value) : result str :=
  ss <- strs_of items ;; Ok (join sep ss).

(** The metadata dict [{"title": title, "themes": themes}]. *)
Definition meta_of (title : value) (themes : str) : value :=
  VDict [(py "title", title); (py "themes", VStr themes)].

(** The loop of [build_chroma_payload] over [books.items()], the three
    lists growing by [append]. *)
Fixpoint payload_loop (items : BooksDict)
  (ids docs metas : list value)
  : result (list value * list value * list value) :=
  match items with
  | [] => Ok (ids, docs, metas)
  | (title, (summary, themes)) :: rest =>
      joined <- str_join (py ", ") themes ;;
      payload_loop rest
        (ids ++ [title])
        (docs ++ [py_or summary (VStr [])])
        (metas ++ [meta_of title joined])
  end.

(** def build_chroma_payload(books) *)
Definition build_chroma_payload (books : BooksDict)
  : result (list value * list value * list value) :=
  payload_loop books [] [] [].

(** [v[0]] *)
Definition py_item0 (v : value) : result value :=
  match v with
  | VList (x :: _) => Ok x
  | VStr (c :: _) => Ok (VStr [c])
  | VList [] | VStr [] => Raise IndexError
  | VDict _ => Raise KeyError
  | _ => Raise TypeError
  end.

(** The items [iter(v)] yields: those of a list, the characters of a
    str, the keys of a dict. *)
Definition py_iter (v : value) : result (list value) :=
  match v with
  | VList l => Ok l
  | VStr s => Ok (map (fun c => VStr [c]) s)
  | VDict d => Ok (map (fun kv => VStr (fst kv)) d)
  | _ => Raise TypeError
  end.

(** [l[:k]] on a list: a negative [k] counts from the end. *)
Definition slice_to {A : Type} (k : Z) (l : list A) : list A :=
  if (0 <=? k)%Z then firstn (Z.to_nat k) l
  else firstn (length l - Z.to_nat (- k)) l.

(** f"Title: {title}\nSummary: {d}" *)
Definition stanza (title d : value) : str :=
  py "Title: " ++ str_of title ++ nl ++ py "Summary: " ++ str_of d.

(** The loop of [build_context_from_results] over the retained pairs. *)
Fixpoint stanzas (pairs : list (value * value)) (parts : list str)
  : result (list str) :=
  match pairs with
  | [] => Ok parts
  | (d, m) :: rest =>
      title <- py_get m (py "title") (VStr (py "Unknown")) ;;
      stanzas rest (parts ++ [stanza title d])
  end.

(** [(results.get(key) or [[]])[0]] *)
Definition first_list (results : value) (key : str) : result value :=
  x <- py_get results key VNone ;;
  py_item0 (py_or x (VList [VList []])).

(** def build_context_from_results(results, k=1) *)
Definition build_context_from_results (results : value) (k : Z)
  : result str :=
  docs <- first_list results (py "documents") ;;
  metas <- first_list results (py "metadatas") ;;
  ds <- py_iter docs ;;
  ms <- py_iter metas ;;
  parts <- stanzas (slice_to k (combine ds ms)) [] ;;
  Ok (join (nl ++ nl) parts).

(** ** main.py *)

Definition TOP_K : Z := 1.

(** SUMMARY_TOOL["name"] *)
Definition SUMMARY_TOOL_name : str := py "get_summary_by_title".

(** What a run does to the outside, in order. *)
Inductive event : Type :=
| Print (text : str)
| Ask (prompt : str)
| CollectionAdd (ids docs metas : list value)
| Query (text : str) (n_results : Z)
| ModelCall (user_content : str)
| ToolOutput (call_id output : value)
| ImageCall (title blurb : value)
| SpeechCall (title text : value).

(** A computation that acts on the outside and may raise: the events
    up to its end, or up to the exception. *)
Definition io (A : Type) : Type := list event * result A.

Definition io_ret {A : Type} (a : A) : io A := ([], Ok a).

Definition io_bind {A B : Type} (m : io A) (k : A -> io B) : io B :=
  match m with
  | (t, Ok a) => let (t', r) := k a in (t ++ t', r)
  | (t, Raise e) => (t, Raise e)
  end.

Definition lift {A : Type} (r : result A) : io A := ([], r).
Definition emit (e : event) : io unit := ([e], Ok tt).

Notation "x <~ m ;; k" := (io_bind m (fun x => k))
  (at level 61, m at next level, right associativity) : py_scope.
Notation "m ;;; k" := (io_bind m (fun _ => k))
  (at level 61, right associativity) : py_scope.

(** [print(a, b, ...)]: the arguments, a space between them, a newline. *)
Definition print_text (args : list value) : str :=
  join (py " ") (map str_of args) ++ nl.

Definition print (args : list value) : io unit :=
  emit (Print (print_text args)).

(** [v == "lit"] *)
Definition eq_str (v : value) (lit : str) : bool :=
  match v with
  | VStr s => str_eqb s lit
  | _ => false
  end.

(** [k in books] *)
Definition books_contains (books : BooksDict) (k : value) : result bool :=
  if hashable k then
    Ok match books_get books k with Some _ => true | None => false end
  else Raise TypeError.

(** ["lit" + v] *)
Definition str_add (lit : str) (v : value) : result str :=
  match v with
  | VStr s => Ok (lit ++ s)
  | _ => Raise TypeError
  end.

Definition no_match_line : str :=
  nl ++ py "Bot> I couldn't match anything in the context.".

Definition refuse_line : str :=
  nl ++ py "Bot> I can" ++ [8217%N] ++ py "t help with that request.".

Definition Bot : value := VStr (nl ++ py "Bot>").

(** The summary part of the ["ok"] branch of [print_result]. *)
Definition print_summary (title : value) (books : BooksDict) : io unit :=
  if truthy title then
    known <~ lift (books_contains books title) ;;
    if known : bool then
      let summary :=
        match books_get books title with
        | Some (s, _) => py_or s (VStr [])
        | None => VStr []
        end in
      if truthy summary then
        text <~ lift (str_add (nl ++ py "[Summary]" ++ nl) summary) ;;
        print [VStr text]
      else io_ret tt
    else io_ret tt
  else io_ret tt.

(** def print_result(data, books) *)
Definition print_result (data : value) (books : BooksDict) : io unit :=
  status <~ lift (py_get data (py "status") VNone) ;;
  if eq_str status (py "ok") then
    verbal <~ lift (py_get data (py "verbal") VNone) ;;
    blurb <~ lift (py_get data (py "blurb") (VStr [])) ;;
    print [Bot; py_or verbal blurb] ;;;
    title <~ lift (py_get data (py "title") VNone) ;;
    print_summary title books
  else if eq_str status (py "no_match") then
    print [VStr no_match_line]
  else if eq_str status (py "refuse") then
    print [VStr refuse_line]
  else
    verbal <~ lift (py_get data (py "verbal") (VStr [])) ;;
    print [Bot; verbal].

(** A reply of the model: [id], [output_text] and [model_dump()]. *)
Record response : Type := {
  resp_id : value;
  output_text : str;
  model_dump : value
}.

(** What the outside answers in one run: the catalog file, the lines
    typed at the prompts, and the outcome of each call to a service. *)
Record world : Type := {
  w_client : result unit;
  w_catalog : result str;
  w_collection : result unit;
  w_query : str;
  w_results : result value;
  w_first : result response;
  w_final : result response;
  w_yn_img : str;
  w_yn_tts : str;
  w_image : result str;
  w_speech : result str;
  w_exn_text : exn -> str
}.

(** [add(v)] on a set, kept in insertion order. *)
Definition set_add (s : list value) (v : value) : result (list value) :=
  if hashable v then
    Ok (if existsb (fun x => key_eqb x v) s then s else s ++ [v])
  else Raise TypeError.

(** {m.get("title") for m in metas_list if m.get("title")} *)
Fixpoint valid_titles (metas_list : list value) (acc : list value)
  : result (list value) :=
  match metas_list with
  | [] => Ok acc
  | m :: rest =>
      t <- py_get m (py "title") VNone ;;
      if truthy t then
        acc' <- set_add acc t ;;
        valid_titles rest acc'
      else valid_titles rest acc
  end.

(** Lines 115-117: the single title of the retrieved metadata, or None. *)
Definition only_title_of (results : value) : result value :=
  metas <- first_list results (py "metadatas") ;;
  metas_list <- py_iter metas ;;
  titles <- valid_titles metas_list [] ;;
  Ok match titles with
     | [t] => t
     | _ => VNone
     end.

(** Lines 137-144: the first reply taken as the final answer. *)
Definition direct_answer (text : str) : option value :=
  match text with
  | [] => None
  | _ =>
      match json_loads text with
      | Some (VDict d) =>
          match dict_get d (py "status") with
          | Some st => if truthy st then Some (VDict d) else None
          | None => None
          end
      | _ => None
      end
  end.

Definition truthy_opt (call : option value) : bool :=
  match call with
  | Some c => truthy c
  | None => false
  end.

(** The inner loop of lines 155-158 over the parts of a message. *)
Fixpoint find_in_parts (parts : list value) (call : option value)
  : result (option value) :=
  match parts with
  | [] => Ok call
  | part :: rest =>
      ty <- py_get part (py "type") VNone ;;
      if eq_str ty (py "function_call") then Ok (Some part)
      else find_in_parts rest call
  end.

(** The loop of lines 150-160 over [dump.get("output", [])]. *)
Fixpoint find_call (items : list value) (call : option value)
  : result (option value) :=
  match items with
  | [] => Ok call
  | item :: rest =>
      ty <- py_get item (py "type") VNone ;;
      if eq_str ty (py "function_call") then Ok (Some item)
      else if eq_str ty (py "message") then
        content <- py_get item (py "content") (VList []) ;;
        parts <- py_iter content ;;
        call' <- find_in_parts parts call ;;
        if truthy_opt call' then Ok call' else find_call rest call'
      else find_call rest call
  end.

Definition extract_call (dump : value) : result (option value) :=
  output <- py_get dump (py "output") (VList []) ;;
  items <- py_iter output ;;
  find_call items None.

(** [json.loads(v)] with [except json.JSONDecodeError: {}] around it. *)
Definition loads_or_empty (v : value) : result value :=
  match v with
  | VStr s => Ok match json_loads s with Some a => a | None => VDict [] end
  | _ => Raise TypeError
  end.

(** [v.strip()] *)
Definition py_strip (v : value) : result value :=
  match v with
  | VStr s => Ok (VStr (strip s))
  | _ => Raise AttributeError
  end.

(** Lines 177-179: the title the tool is called with. *)
Definition title_argument (args only_title : value) : result value :=
  t <- py_get args (py "title") VNone ;;
  title_arg <- py_strip (py_or t (VStr [])) ;;
  Ok (if negb (truthy title_arg) && truthy only_title then only_title
      else title_arg).

(** Lines 181-183. *)
Definition run_tool (books : BooksDict) (fn_name title_arg : value)
  : result value :=
  if eq_str fn_name SUMMARY_TOOL_name then
    r <- make_get_summary_tool books title_arg ;;
    Ok (py_or r (VStr []))
  else Ok (VStr []).

(** Lines 168-183: from the tool call to the call identifier and the
    output of the tool. *)
Definition resolve_tool_call (books : BooksDict) (only_title call : value)
  : result (value * value) :=
  cid <- py_get call (py "call_id") VNone ;;
  id <- py_get call (py "id") VNone ;;
  let call_id := py_or cid id in
  fn_name <- py_get call (py "name") VNone ;;
  a <- py_get call (py "arguments") VNone ;;
  args <- loads_or_empty (py_or a (VStr (py "{}"))) ;;
  title_arg <- title_argument args only_title ;;
  tool_result <- run_tool books fn_name title_arg ;;
  Ok (call_id, tool_result).

(** [input(prompt).strip().lower().startswith("y")] *)
Definition says_yes (answer : str) : bool :=
  match strip answer with
  | c :: _ => (c =? 121)%N || (c =? 89)%N
  | [] => false
  end.

Definition image_prompt : str :=
  nl ++ py "Generate a cover-style image for this recommendation? (Y/N): ".

Definition tts_prompt : str :=
  py "Speak the recommendation as audio (TTS)? (Y/N): ".

(** [books.get(title, ("", []))[0] or ""] *)
Definition stored_summary (books : BooksDict) (title : value)
  : result value :=
  if hashable title then
    Ok match books_get books title with
       | Some (summary, _) => py_or summary (VStr [])
       | None => py_or (VStr []) (VStr [])
       end
  else Raise TypeError.

(** Lines 207-228: the optional image and audio.  The two media
    functions are calls to hosted services followed by a file write:
    the path they return, or the exception they raise, is the
    world's. *)
Definition media (w : world) (final_data : value) (books : BooksDict)
  : io unit :=
  status <~ lift (if truthy final_data
                  then py_get final_data (py "status") VNone
                  else Ok VNone) ;;
  if truthy final_data && eq_str status (py "ok") then
    title <~ lift (py_get final_data (py "title") VNone) ;;
    if truthy title then
      blurb <~ lift (py_get final_data (py "blurb") VNone) ;;
      summary <~ lift (if truthy blurb then Ok VNone
                       else stored_summary books title) ;;
      let blurb_or_summary := py_or blurb summary in
      verbal <~ lift (py_get final_data (py "verbal") VNone) ;;
      let verbal_text :=
        py_or verbal
          (py_or blurb (VStr (py "Recommendation: " ++ str_of title))) in
      emit (Ask image_prompt) ;;;
      (if says_yes (w_yn_img w) then
         emit (ImageCall title blurb_or_summary) ;;;
         match w_image w with
         | Ok path => print [VStr (py "[image saved] " ++ path)]
         | Raise e => print [VStr (py "[image error] " ++ w_exn_text w e)]
         end
       else io_ret tt) ;;;
      emit (Ask tts_prompt) ;;;
      (if says_yes (w_yn_tts w) then
         emit (SpeechCall title verbal_text) ;;;
         match w_speech w with
         | Ok path => print [VStr (py "[audio saved] " ++ path)]
         | Raise e => print [VStr (py "[tts error] " ++ w_exn_text w e)]
         end
       else io_ret tt)
    else io_ret tt
  else io_ret tt.

Definition raw_line : value := VStr (nl ++ py "Raw response:" ++ nl).

(** Lines 203-228: report, then the optional media. *)
Definition report (w : world) (final_data : value) (books : BooksDict)
  : io unit :=
  print_result final_data books ;;;
  media w final_data books.

(** Lines 166-201: run the tool, send its output, read the final reply.
    [None] is the early [return] after the raw text. *)
Definition finalize (w : world) (books : BooksDict) (only_title call : value)
  : io (option value) :=
  r <~ lift (resolve_tool_call books only_title call) ;;
  let (call_id, tool_result) := r : value * value in
  emit (ToolOutput call_id tool_result) ;;;
  final <~ lift (w_final w) ;;
  match json_loads (str_or (output_text final) (py "{}")) with
  | Some final_data => io_ret (Some final_data)
  | None =>
      print [raw_line; VStr (output_text final)] ;;;
      io_ret None
  end.

Definition query_prompt : str :=
  nl ++ py "Tell me what you're interested in so I can recommend a book:"
     ++ nl.

Definition user_content (user_q context : str) : str :=
  py "USER_QUERY:" ++ nl ++ user_q ++ nl ++ nl
  ++ py "CONTEXT (use only this):" ++ nl ++ py "---" ++ nl
  ++ context ++ nl ++ py "---".

(** Lines 77-201 of [main]: from the start to the final answer, with the
    catalog.  [None] is an early [return] after the raw text. *)
Definition resolve (w : world) : io (option (BooksDict * value)) :=
  lift (w_client w) ;;;
  text <~ lift (w_catalog w) ;;
  books <~ lift (parse_json text) ;;
  print [VStr (py "[load] Books: "
               ++ str_of (VInt (Z.of_nat (length books))))] ;;;
  lift (w_collection w) ;;;
  payload <~ lift (build_chroma_payload books) ;;
  let '(ids, docs, metas) := payload in
  emit (CollectionAdd ids docs metas) ;;;
  emit (Ask query_prompt) ;;;
  let user_q := w_query w in
  emit (Query user_q TOP_K) ;;;
  results <~ lift (w_results w) ;;
  context <~ lift (build_context_from_results results TOP_K) ;;
  print [VStr (nl ++ py "Context:" ++ nl ++ py "---" ++ nl
               ++ context ++ nl ++ py "---")] ;;;
  only_title <~ lift (only_title_of results) ;;
  emit (ModelCall (user_content user_q context)) ;;;
  first <~ lift (w_first w) ;;
  match direct_answer (output_text first) with
  | Some final_data => io_ret (Some (books, final_data))
  | None =>
      call <~ lift (extract_call (model_dump first)) ;;
      match call with
      | None =>
          print [raw_line;
                 VStr (str_or (output_text first)
                         (py "(no text and no tool call)"))] ;;;
          io_ret None
      | Some c =>
          final_data <~ finalize w books only_title c ;;
          io_ret match final_data with
                 | Some fd => Some (books, fd)
                 | None => None
                 end
      end
  end.

(** def main() *)
Definition main (w : world) : io unit :=
  r <~ resolve w ;;
  match r with
  | Some (books, final_data) => report w final_data books
  | None => io_ret tt
  end.

(** The events of the optional media step: its two questions and its
    two calls. *)
Definition is_media (e : event) : bool :=
  match e with
  | Ask p => str_eqb p image_prompt || str_eqb p tts_prompt
  | ImageCall _ _ | SpeechCall _ _ => true
  | _ => false
  end.

(** ** The annotated types *)

Definition is_str (v : value) : bool :=
  match v with VStr _ => true | _ => false end.

Definition is_dict (v : value) : bool :=
  match v with VDict _ => true | _ => false end.

(** Optional[str] *)
Definition is_opt_str (v : value) : bool :=
  match v with VNone | VStr _ => true | _ => false end.

(** An item of Dict[str, Tuple[Optional[str], List[str]]]. *)
Definition typed_entry (kv : value * entry) : bool :=
  let '(title, (summary, themes)) := kv in
  is_str title && is_opt_str summary && forallb is_str themes.

(** The catalog has the type its annotation [BooksDict] gives it. *)
Definition is_BooksDict (books : BooksDict) : bool :=
  forallb typed_entry books.

(** The first list under [key] of a reply of the vector store:
    [documents] and [metadatas] are lists of lists, one per query text,
    or None when not included. *)
Definition hit_list (r : list (str * value)) (key : str)
  : option (list value) :=
  match dict_get r key with
  | Some (VList (VList l :: _)) => Some l
  | Some (VList []) | Some VNone | None => Some []
  | _ => None
  end.

(** The reply with these documents and metadata for the one query. *)
Definition query_result (ds ms : list value) : value :=
  VDict [(py "documents", VList [VList ds]);
         (py "metadatas", VList [VList ms])].

(** ** Vocabulary of the properties *)

(** The entry has a non-empty title. *)
Definition titled (kv : value * entry) : Prop := truthy (fst kv) = true.

Definition nonblank (lines : list str) : list str :=
  filter (fun l => negb (blank l)) lines.

(** A line that is blank, does not decode, or decodes to a record
    without a title. *)
Definition skipped (line : str) : Prop :=
  blank line = true \/ json_loads line = None \/
  exists d, json_loads line = Some (VDict d) /\
            match dict_get d (py "title") with
            | Some t => truthy t = false
            | None => True
            end.

(** A line [parse_json] survives: skipped, or a record whose title can
    be a dict key. *)
Definition harmless (line : str) : Prop :=
  skipped line \/
  exists d t, json_loads line = Some (VDict d) /\
              dict_get d (py "title") = Some t /\ hashable t = true.

(** [data.get(key, default)] and [data.get(key)] on a dict. *)
Definition field_or (d : list (str * value)) (key : str) (default : value)
  : value :=
  match dict_get d key with
  | Some v => v
  | None => default
  end.

Definition field (d : list (str * value)) (key : str) : value :=
  field_or d key VNone.

(** The document of an entry: its summary, or the empty string. *)
Definition doc_of (summary : value) : value :=
  match summary with
  | VNone => VStr []
  | _ => summary
  end.

(** The themes of an entry as the strings they are. *)
Definition tags_of (themes : list value) : list str :=
  flat_map (fun v => match v with VStr s => [s] | _ => [] end) themes.

Definition id_at (kv : value * entry) : value := fst kv.
Definition doc_at (kv : value * entry) : value := doc_of (fst (snd kv)).
Definition meta_at (kv : value * entry) : value :=
  meta_of (fst kv) (join (py ", ") (tags_of (snd (snd kv)))).

(** The title a stanza shows for a metadata record. *)
Definition shown_title (m : value) : value :=
  match m with
  | VDict md => field_or md (py "title") (VStr (py "Unknown"))
  | _ => VNone
  end.

(** The stanza of a retrieved pair (document, metadata). *)
Definition render (pair : value * value) : str :=
  stanza (shown_title (snd pair)) (fst pair).

(** The metadata of every pair is a record. *)
Definition records (pairs : list (value * value)) : Prop :=
  Forall (fun pair => is_dict (snd pair) = true) pairs.



(** The non-empty string title of a metadata record, if it has one. *)
Definition title_str (m : value) : list str :=
  match m with
  | VDict md =>
      match dict_get md (py "title") with
      | Some (VStr (c :: s)) => [c :: s]
      | _ => []
      end
  | _ => []
  end.

(** The non-empty string titles of the metadata records. *)
Definition titles_in (ms : list value) : list str := flat_map title_str ms.

(** A metadata record whose title, when it has one, is a string. *)
Definition str_titled (m : value) : bool :=
  match m with
  | VDict md =>
      match dict_get md (py "title") with
      | Some t => is_str t
      | None => true
      end
  | _ => false
  end.

Definition add_title (acc : list value) (t : str) : list value :=
  if existsb (fun x => key_eqb x (VStr t)) acc then acc else acc ++ [VStr t].

(** The title the tool is called with, for the title argument [t] as a
    string and the remembered fallback. *)
Definition resolved_title (t : str) (only_title : value) : value :=
  match strip t with
  | [] => if truthy only_title then only_title else VStr []
  | _ => VStr (strip t)
  end.

(** No event of the computation satisfies [p]. *)
Definition silent {A : Type} (p : event -> bool) (m : io A) : Prop :=
  existsb p (fst m) = false.

(** A predicate on events that no [Print] satisfies. *)
Definition skips_prints (p : event -> bool) : Prop :=
  forall text, p (Print text) = false.

(** The second call to the model, with the output of the tool. *)
Definition is_tool_output (e : event) : bool :=
  match e with
  | ToolOutput _ _ => true
  | _ => false
  end.

(** The final answer recommends a title: its status is ["ok"] and its
    title is not empty. *)
Definition has_ok_title (fd : value) : Prop :=
  exists d title,
    fd = VDict d /\
    eq_str (field d (py "status")) (py "ok") = true /\
    dict_get d (py "title") = Some title /\
    truthy title = true.

(** The run ends with [e] as its last event and [r] as its outcome,
    if it made the second call to the model. *)
Definition ends_with {A : Type} (e : event) (r : result A) (m : io A)
  : Prop :=
  existsb is_tool_output (fst m) = true ->
  exists pre, fst m = pre ++ [e] /\ snd m = r.

End Program.

(** ** A reference implementation of the library functions

    [json.loads] after the decoder of CPython (strict mode, the
    constants [NaN], [Infinity] and [-Infinity] accepted), and [repr].
    It is the instance at which the examples are evaluated. *)

Module Ref.

Definition is_ws (c : char) : bool :=
  ((c =? 32) || (c =? 9) || (c =? 10) || (c =? 13))%N.

Definition skip_ws (s : str) : str := drop_while is_ws s.

Definition is_digit (c : char) : bool := ((48 <=? c) && (c <=? 57))%N.

Definition hex_digit (c : char) : option N :=
  if is_digit c then Some (c - 48)%N
  else if ((97 <=? c) && (c <=? 102))%N then Some (c - 87)%N
  else if ((65 <=? c) && (c <=? 70))%N then Some (c - 55)%N
  else None.

(** The four hexadecimal digits of a [\uXXXX] escape. *)
Definition hex4 (s : str) : option (N * str) :=
  match s with
  | a :: b :: c :: d :: rest =>
      match hex_digit a, hex_digit b, hex_digit c, hex_digit d with
      | Some x, Some y, Some z, Some t =>
          Some (((x * 16 + y) * 16 + z) * 16 + t, rest)%N
      | _, _, _, _ => None
      end
  | _ => None
  end.

Definition high_surrogate (u : N) : bool := ((55296 <=? u) && (u <=? 56319))%N.
Definition low_surrogate (u : N) : bool := ((56320 <=? u) && (u <=? 57343))%N.

Definition join_surrogates (hi lo : N) : N :=
  (65536 + (hi - 55296) * 1024 + (lo - 56320))%N.

Definition simple_escape (c : char) : option char :=
  if (c =? 34)%N then Some 34%N
  else if (c =? 92)%N then Some 92%N
  else if (c =? 47)%N then Some 47%N
  else if (c =? 98)%N then Some 8%N
  else if (c =? 102)%N then Some 12%N
  else if (c =? 110)%N then Some 10%N
  else if (c =? 114)%N then Some 13%N
  else if (c =? 116)%N then Some 9%N
  else None.

(** The characters of a string literal after its opening quote, and what
    follows the closing quote. *)
Fixpoint scan_string (fuel : nat) (s : str) (acc : str) : option (str * str) :=
  match fuel with
  | O => None
  | S fuel' =>
      match s with
      | [] => None
      | c :: rest =>
          if (c =? 34)%N then Some (rev acc, rest)
          else if (c =? 92)%N then
            match rest with
            | [] => None
            | e :: rest1 =>
                if (e =? 117)%N then
                  match hex4 rest1 with
                  | None => None
                  | Some (u, rest2) =>
                      if high_surrogate u then
                        match rest2 with
                        | 92%N :: 117%N :: rest3 =>
                            match hex4 rest3 with
                            | None => None
                            | Some (u2, rest4) =>
                                if low_surrogate u2
                                then scan_string fuel' rest4
                                       (join_surrogates u u2 :: acc)
                                else scan_string fuel' rest2 (u :: acc)
                            end
                        | _ => scan_string fuel' rest2 (u :: acc)
                        end
                      else scan_string fuel' rest2 (u :: acc)
                  end
                else
                  match simple_escape e with
                  | Some x => scan_string fuel' rest1 (x :: acc)
                  | None => None
                  end
            end
          else if (c <? 32)%N then None
          else scan_string fuel' rest (c :: acc)
      end
  end.

(** *** Numbers *)

Fixpoint span_digits (s : str) : list N * str :=
  match s with
  | c :: rest =>
      if is_digit c then
        let (ds, r) := span_digits rest in ((c - 48)%N :: ds, r)
      else ([], s)
  | [] => ([], [])
  end.

Definition Z_of_digits (ds : list N) : Z :=
  fold_left (fun a d => (a * 10 + Z.of_N d)%Z) ds 0%Z.

(** The double nearest to [digits * 10^exp10], ties to even. *)
Definition float_of_decimal (neg : bool) (digits exp10 : Z) : float :=
  if (digits <=? 0)%Z then SpecFloat.S754_zero neg
  else
    let n := (if 0 <=? exp10 then digits * 10 ^ exp10 else digits)%Z in
    let d := (if 0 <=? exp10 then 1 else 10 ^ (- exp10))%Z in
    (* q0 = floor(n / (d * 2^e)) *)
    let quot (e : Z) : Z :=
      (if 0 <=? e then n / (d * 2 ^ e) else (n * 2 ^ (- e)) / d)%Z in
    let e0 := (Z.log2 n - Z.log2 d - 52)%Z in
    let e1 := (if 2 ^ 53 <=? quot e0 then e0 + 1
               else if quot e0 <? 2 ^ 52 then e0 - 1 else e0)%Z in
    let e := Z.max e1 (-1074) in
    let num := (if 0 <=? e then n else n * 2 ^ (- e))%Z in
    let den := (if 0 <=? e then d * 2 ^ e else d)%Z in
    let q := (num / den)%Z in
    let r := (num mod den)%Z in
    let up := ((den <? 2 * r) || ((den =? 2 * r) && Z.odd q))%Z in
    let q' := (if up then q + 1 else q)%Z in
    let (m, e') := (if q' =? 2 ^ 53 then (2 ^ 52, e + 1) else (q', e))%Z in
    if (971 <? e')%Z then SpecFloat.S754_infinity neg
    else
      match m with
      | Z.pos p => SpecFloat.S754_finite neg p e'
      | _ => SpecFloat.S754_zero neg
      end.

Definition scan_exponent (s : str) : option (Z * str) :=
  match s with
  | c :: rest =>
      if ((c =? 101) || (c =? 69))%N then
        let (neg, rest1) :=
          match rest with
          | 45%N :: r => (true, r)
          | 43%N :: r => (false, r)
          | _ => (false, rest)
          end in
        match span_digits rest1 with
        | ([], _) => None
        | (ds, r) => Some (if neg then (- Z_of_digits ds)%Z else Z_of_digits ds, r)
        end
      else None
  | [] => None
  end.

Definition scan_fraction (s : str) : option (list N * str) :=
  match s with
  | 46%N :: rest =>
      match span_digits rest with
      | ([], _) => None
      | (ds, r) => Some (ds, r)
      end
  | _ => None
  end.

(** A number: an optional minus sign, then 0 or digits that do not
    begin with 0, then optionally a point and digits, then optionally an
    exponent.  An int without fraction and exponent, a float otherwise. *)
Definition scan_number (s : str) : option (value * str) :=
  let (neg, s1) := match s with 45%N :: r => (true, r) | _ => (false, s) end in
  let int_part :=
    match s1 with
    | 48%N :: r => Some ([0%N], r)
    | _ => match span_digits s1 with
           | ([], _) => None
           | (ds, r) => Some (ds, r)
           end
    end in
  match int_part with
  | None => None
  | Some (ids, r1) =>
      let (fds, r2) :=
        match scan_fraction r1 with
        | Some (ds, r) => (Some ds, r)
        | None => (None, r1)
        end in
      let (ex, r3) :=
        match scan_exponent r2 with
        | Some (x, r) => (Some x, r)
        | None => (None, r2)
        end in
      match fds, ex with
      | None, None =>
          Some (VInt (if neg then - Z_of_digits ids else Z_of_digits ids), r3)
      | _, _ =>
          let fd := match fds with Some ds => ds | None => [] end in
          let x := match ex with Some x => x | None => 0%Z end in
          Some (VFloat (float_of_decimal neg (Z_of_digits (ids ++ fd))
                          (x - Z.of_nat (length fd))), r3)
      end
  end.

(** [s] begins with the characters of [lit]: what follows them. *)
Fixpoint after (lit : str) (s : str) : option str :=
  match lit, s with
  | [], _ => Some s
  | a :: lit', b :: s' => if (a =? b)%N then after lit' s' else None
  | _ :: _, [] => None
  end.

(** [d[k] = v] on a dict with string keys. *)
Fixpoint dict_put (d : list (str * value)) (k : str) (v : value)
  : list (str * value) :=
  match d with
  | [] => [(k, v)]
  | (k', v') :: rest =>
      if str_eqb k' k then (k', v) :: rest else (k', v') :: dict_put rest k v
  end.

Definition constant (s : str) : option (value * str) :=
  match after (py "null") s with
  | Some r => Some (VNone, r)
  | None =>
  match after (py "true") s with
  | Some r => Some (VBool true, r)
  | None =>
  match after (py "false") s with
  | Some r => Some (VBool false, r)
  | None =>
  match scan_number s with
  | Some x => Some x
  | None =>
  match after (py "NaN") s with
  | Some r => Some (VFloat SpecFloat.S754_nan, r)
  | None =>
  match after (py "Infinity") s with
  | Some r => Some (VFloat (SpecFloat.S754_infinity false), r)
  | None =>
  match after (py "-Infinity") s with
  | Some r => Some (VFloat (SpecFloat.S754_infinity true), r)
  | None => None
  end end end end end end end.

(** One value at the head of [s], and what follows it. *)
Fixpoint scan_once (fuel : nat) (s : str) : option (value * str) :=
  match fuel with
  | O => None
  | S fuel' =>
      match s with
      | [] => None
      | c :: rest =>
          if (c =? 34)%N then
            match scan_string (S (length rest)) rest [] with
            | Some (x, r) => Some (VStr x, r)
            | None => None
            end
          else if (c =? 123)%N then
            match skip_ws rest with
            | 125%N :: r => Some (VDict [], r)
            | 34%N :: r => scan_members fuel' r []
            | _ => None
            end
          else if (c =? 91)%N then
            match skip_ws rest with
            | 93%N :: r => Some (VList [], r)
            | r => scan_items fuel' r []
            end
          else constant s
      end
  end

(** The items of an array from the head of an item on. *)
with scan_items (fuel : nat) (s : str) (acc : list value)
  : option (value * str) :=
  match fuel with
  | O => None
  | S fuel' =>
      match scan_once fuel' s with
      | None => None
      | Some (v, r) =>
          match skip_ws r with
          | 93%N :: r' => Some (VList (rev (v :: acc)), r')
          | 44%N :: r' => scan_items fuel' (skip_ws r') (v :: acc)
          | _ => None
          end
      end
  end

(** The members of an object from after the opening quote of a key on. *)
with scan_members (fuel : nat) (s : str) (acc : list (str * value))
  : option (value * str) :=
  match fuel with
  | O => None
  | S fuel' =>
      match scan_string (S (length s)) s [] with
      | None => None
      | Some (k, r) =>
          match skip_ws r with
          | 58%N :: r1 =>
              match scan_once fuel' (skip_ws r1) with
              | None => None
              | Some (v, r2) =>
                  let acc' := dict_put acc k v in
                  match skip_ws r2 with
                  | 125%N :: r3 => Some (VDict acc', r3)
                  | 44%N :: r3 =>
                      match skip_ws r3 with
                      | 34%N :: r4 => scan_members fuel' r4 acc'
                      | _ => None
                      end
                  | _ => None
                  end
              end
          | _ => None
          end
      end
  end.

(** json.loads(s) *)
Definition loads (s : str) : option value :=
  match s with
  | 65279%N :: _ => None
  | _ =>
      match scan_once (2 * length s + 2) (skip_ws s) with
      | Some (v, r) => match skip_ws r with [] => Some v | _ => None end
      | None => None
      end
  end.

(** *** repr *)

Fixpoint uint_chars (u : Decimal.uint) : str :=
  match u with
  | Decimal.Nil => []
  | Decimal.D0 u' => 48%N :: uint_chars u'
  | Decimal.D1 u' => 49%N :: uint_chars u'
  | Decimal.D2 u' => 50%N :: uint_chars u'
  | Decimal.D3 u' => 51%N :: uint_chars u'
  | Decimal.D4 u' => 52%N :: uint_chars u'
  | Decimal.D5 u' => 53%N :: uint_chars u'
  | Decimal.D6 u' => 54%N :: uint_chars u'
  | Decimal.D7 u' => 55%N :: uint_chars u'
  | Decimal.D8 u' => 56%N :: uint_chars u'
  | Decimal.D9 u' => 57%N :: uint_chars u'
  end.

(** The decimal digits of a natural number. *)
Definition decimal (n : N) : str := uint_chars (N.to_uint n).

Definition repr_int (z : Z) : str :=
  if (z <? 0)%Z then 45%N :: decimal (Z.abs_N z) else decimal (Z.abs_N z).

(** The shortest decimal [digits * 10^k] that reads back as the double
    [m * 2^e], nearest to it among those of its length. *)
Definition shortest (m : positive) (e : Z) : Z * Z :=
  let n := (if 0 <=? e then Z.pos m * 2 ^ e else Z.pos m)%Z in
  let d := (if 0 <=? e then 1 else 2 ^ (- e))%Z in
  let ge_pow10 (p : Z) : bool :=
    (if 0 <=? p then 10 ^ p * d <=? n else d <=? n * 10 ^ (- p))%Z in
  let p0 := (((Z.log2 n - Z.log2 d) * 30103) / 100000)%Z in
  let up (p : Z) := if ge_pow10 (p + 1)%Z then (p + 1)%Z else p in
  let down (p : Z) := if ge_pow10 p then p else (p - 1)%Z in
  let p := Nat.iter 3 down (Nat.iter 3 up p0) in
  let reads_back (c k : Z) : bool :=
    match float_of_decimal false c k with
    | SpecFloat.S754_finite _ m' e' =>
        num_eqb (Finite (Z.pos m') e') (Finite (Z.pos m) e)
    | _ => false
    end in
  let try (len : Z) : option (Z * Z) :=
    let k := (p - len + 1)%Z in
    let num := (if 0 <=? k then n else n * 10 ^ (- k))%Z in
    let den := (if 0 <=? k then d * 10 ^ k else d)%Z in
    let lo := (num / den)%Z in
    let hi := (lo + 1)%Z in
    let lo_first := (2 * (num mod den) <=? den)%Z in
    match reads_back lo k, reads_back hi k with
    | true, true => Some (if lo_first then lo else hi, k)
    | true, false => Some (lo, k)
    | false, true => Some (hi, k)
    | false, false => None
    end in
  let fix search (fuel : nat) (len : Z) : Z * Z :=
    match fuel with
    | O => (Z.pos m, 0%Z)
    | S fuel' =>
        match try len with
        | Some r => r
        | None => search fuel' (len + 1)%Z
        end
    end in
  search 17%nat 1%Z.

Fixpoint strip_zeros (fuel : nat) (c k : Z) : Z * Z :=
  match fuel with
  | O => (c, k)
  | S fuel' =>
      if ((c mod 10 =? 0) && negb (c =? 0))%Z
      then strip_zeros fuel' (c / 10)%Z (k + 1)%Z
      else (c, k)
  end.

Definition zeros (n : Z) : str := repeat 48%N (Z.to_nat n).

(** [repr] of a positive finite double: fixed notation when the decimal
    point falls within the digits or close to them, an exponent
    otherwise. *)
Definition repr_finite (m : positive) (e : Z) : str :=
  let (c0, k0) := shortest m e in
  let (c, k) := strip_zeros 20 c0 k0 in
  let ds := decimal (Z.to_N c) in
  let len := Z.of_nat (length ds) in
  let decpt := (k + len)%Z in
  if ((decpt <=? -4) || (16 <? decpt))%Z then
    let x := (decpt - 1)%Z in
    let xs := decimal (Z.abs_N x) in
    let xs2 := match xs with [_] => 48%N :: xs | _ => xs end in
    let mant := match ds with
                | [] => []
                | [a] => [a]
                | a :: rest => a :: 46%N :: rest
                end in
    mant ++ [101%N] ++ [if (x <? 0)%Z then 45%N else 43%N] ++ xs2
  else if (decpt <=? 0)%Z then
    py "0." ++ zeros (- decpt) ++ ds
  else if (len <=? decpt)%Z then
    ds ++ zeros (decpt - len) ++ py ".0"
  else
    firstn (Z.to_nat decpt) ds ++ [46%N] ++ skipn (Z.to_nat decpt) ds.

Definition repr_float (f : float) : str :=
  match f with
  | SpecFloat.S754_zero s => if s then py "-0.0" else py "0.0"
  | SpecFloat.S754_infinity s => if s then py "-inf" else py "inf"
  | SpecFloat.S754_nan => py "nan"
  | SpecFloat.S754_finite s m e =>
      (if s then [45%N] else []) ++ repr_finite m e
  end.

(** [str.isprintable] below 256; a character from 256 on is taken as
    printable (CPython escapes those that are not). *)
Definition printable (c : char) : bool :=
  negb ((c <? 32) || ((127 <=? c) && (c <=? 160)) || (c =? 173))%N.

Definition hex_char (d : N) : char :=
  if (d <? 10)%N then (48 + d)%N else (87 + d)%N.

Definition escape (quote c : char) : str :=
  if (c =? 92)%N then [92%N; 92%N]
  else if (c =? quote)%N then [92%N; c]
  else if (c =? 9)%N then [92%N; 116%N]
  else if (c =? 10)%N then [92%N; 110%N]
  else if (c =? 13)%N then [92%N; 114%N]
  else if printable c then [c]
  else [92%N; 120%N; hex_char (c / 16); hex_char (c mod 16)].

Definition has (c : char) (s : str) : bool := existsb (N.eqb c) s.

Definition repr_str (s : str) : str :=
  let quote := if has 39%N s && negb (has 34%N s) then 34%N else 39%N in
  [quote] ++ flat_map (escape quote) s ++ [quote].

(** repr(v) *)
Fixpoint repr (v : value) : str :=
  match v with
  | VNone => py "None"
  | VBool b => if b then py "True" else py "False"
  | VInt z => repr_int z
  | VFloat f => repr_float f
  | VStr s => repr_str s
  | VList l => [91%N] ++ join (py ", ") (map repr l) ++ [93%N]
  | VDict d =>
      [123%N]
      ++ join (py ", ")
           (map (fun kv => repr_str (fst kv) ++ py ": " ++ repr (snd kv)) d)
      ++ [125%N]
  end.

#[export] Instance python : Python := {
  json_loads := loads;
  repr := repr
}.

End Ref.

(** ** Example inputs *)

(** JSON text written with apostrophes for its double quotes. *)
Definition json_text (s : string) : str :=
  map (fun c => if (c =? 39)%N then 34%N else c) (py s).

Definition dune_line : str :=
  json_text "{'title': 'Dune', 'summary_short': 'A desert planet saga.', 'themes': ['scifi']}".

Definition dune_books : BooksDict :=
  [(VStr (py "Dune"),
    (VStr (py "A desert planet saga."), [VStr (py "scifi")]))].

Definition dune_hit : value :=
  query_result [VStr (py "A desert planet saga.")]
               [VDict [(py "title", VStr (py "Dune"));
                       (py "themes", VStr (py "scifi"))]].

(** A title of 61 characters whose 60th is an underscore. *)
Definition long_title : str := repeat 97%N 59 ++ py "_b".

(** A catalog of two entries, the second without summary and themes. *)
Definition two_books : BooksDict :=
  dune_books ++ [(VStr (py "Emma"), (VNone, []))].

(** A reply with two hits, the second without a title in its metadata. *)
Definition two_hits : list (str * value) :=
  [(py "ids", VList [VList [VStr (py "Dune"); VStr (py "Emma")]]);
   (py "documents",
    VList [VList [VStr (py "A desert planet saga."); VStr []]]);
   (py "metadatas",
    VList [VList [VDict [(py "title", VStr (py "Dune"));
                         (py "themes", VStr (py "scifi"))];
                  VDict [(py "themes", VStr [])]]])].

(** A reply with two documents and one metadata record, which has no
    title. *)
Definition uneven_docs : list value :=
  [VStr (py "A desert planet saga."); VStr (py "lost")].

Definition uneven_metas : list value :=
  [VDict [(py "themes", VStr (py "scifi"))]].

Definition uneven_hits : list (str * value) :=
  [(py "documents", VList [VList uneven_docs]);
   (py "metadatas", VList [VList uneven_metas])].

(** A catalog file whose second line decodes to a list. *)
Definition list_line_catalog : str := dune_line ++ nl ++ py "[]" ++ nl.

(** A record whose themes are the empty string. *)
Definition empty_themes_line : str :=
  json_text "{'title': 'Dune', 'themes': ''}".

(** A record whose themes are one string. *)
Definition one_theme_record : list (str * value) :=
  [(py "title", VStr (py "Dune")); (py "themes", VStr (py "scifi"))].

(** The tool call of a first reply, with its JSON arguments. *)
Definition tool_call (arguments : string) : list (str * value) :=
  [(py "type", VStr (py "function_call"));
   (py "call_id", VStr (py "call_1"));
   (py "name", VStr SUMMARY_TOOL_name);
   (py "arguments", VStr (json_text arguments))].

Definition first_reply : response :=
  {| resp_id := VStr (py "resp_1");
     output_text := [];
     model_dump :=
       VDict [(py "output", VList [VDict (tool_call "{'title': 'Dune'}")])] |}.

Definition final_reply (text : string) : response :=
  {| resp_id := VStr (py "resp_2");
     output_text := json_text text;
     model_dump := VDict [] |}.

(** A run over the one-line catalog that retrieves its record, with the
    given final text and the given answer to both questions. *)
Definition world_of (final : string) (answer : string) : world :=
  {| w_client := Ok tt;
     w_catalog := Ok (dune_line ++ nl);
     w_collection := Ok tt;
     w_query := py "space opera";
     w_results := Ok dune_hit;
     w_first := Ok first_reply;
     w_final := Ok (final_reply final);
     w_yn_img := py answer;
     w_yn_tts := py answer;
     w_image := Ok (py "Images and TTS/cover_Dune.png");
     w_speech := Raise ServiceError;
     w_exn_text := fun _ => py "Connection error." |}.

(** Two final answers with status ok: a title of the catalog with a
    blurb, and a title that is not in the catalog with a verbal text. *)
Definition ok_dune : list (str * value) :=
  [(py "status", VStr (py "ok")); (py "title", VStr (py "Dune"));
   (py "blurb", VStr (py "A classic."))].



Definition ok_final : string :=
  "{'status': 'ok', 'title': 'Dune', 'verbal': 'I recommend Dune.'}".

(** ** More of LLM_Aditional.py *)

(** f"cover_{_safe_slug(title)}.png", the name of the file that
    [generate_cover_image] writes under its output directory. *)
Definition cover_file_name (title : str) : str :=
  py "cover_" ++ Slug._safe_slug title ++ py ".png".

(** f"tts_{_safe_slug(title)}.mp3", the name of the file that
    [speak_text] writes under its output directory. *)
Definition tts_file_name (title : str) : str :=
  py "tts_" ++ Slug._safe_slug title ++ py ".mp3".

(** ** Vocabulary of the further properties *)

Section Further.

Context {P : Python}.

Notation "x <~ m ;; k" := (io_bind m (fun x => k))
  (at level 61, m at next level, right associativity) : py_scope.
Notation "m ;;; k" := (io_bind m (fun _ => k))
  (at level 61, right associativity) : py_scope.

(** A line on which [parse_json] raises: it is not blank and decodes,
    to something that is not a record, or to a record whose title is
    not empty and cannot be a dict key. *)
Definition fatal (line : str) : bool :=
  negb (blank line) &&
  match json_loads line with
  | Some (VDict d) =>
      match dict_get d (py "title") with
      | Some t => truthy t && negb (hashable t)
      | None => false
      end
  | Some _ => true
  | None => false
  end.

(** The entry [parse_json] stores for a record. *)
Definition entry_of (d : list (str * value)) : entry :=
  (field d (py "summary_short"), themes_of (field d (py "themes"))).

(** No two keys of the list are the same dict key. *)
Fixpoint distinct_keys (keys : list value) : bool :=
  match keys with
  | [] => true
  | k :: rest =>
      negb (existsb (fun k' => key_eqb k k') rest) && distinct_keys rest
  end.

(** The catalog is a dict: its keys are hashable and no two of them are
    the same key. *)
Definition well_keyed (books : BooksDict) : Prop :=
  Forall (fun kv => hashable (fst kv) = true) books /\
  distinct_keys (map fst books) = true.

(** A line of a text file with its newline: the newline is its last
    character and its only one. *)
Definition is_line (l : str) : bool :=
  match rev l with
  | c :: body => (c =? 10)%N && negb (existsb (N.eqb 10) body)
  | [] => false
  end.

(** Every theme of the entry is a string, as [", ".join] needs. *)
Definition themes_are_strings (kv : value * entry) : bool :=
  forallb is_str (snd (snd kv)).

(** The document [build_chroma_payload] makes of an entry:
    [summary or ""]. *)
Definition doc_or_empty (kv : value * entry) : value :=
  py_or (fst (snd kv)) (VStr []).

(** A retained pair whose metadata is not a record. *)
Definition not_a_record (pair : value * value) : bool :=
  negb (is_dict (snd pair)).

(** The first call to the model. *)
Definition is_model_call (e : event) : bool :=
  match e with
  | ModelCall _ => true
  | _ => false
  end.

(** Lines 84-134 of [main] when every step of them returns: the events
    up to the first call to the model. *)
Definition opening (w : world) (books : BooksDict)
  (ids docs metas : list value) (context : str) : list event :=
  [Print (print_text
            [VStr (py "[load] Books: "
                   ++ str_of (VInt (Z.of_nat (length books))))]);
   CollectionAdd ids docs metas;
   Ask query_prompt;
   Query (w_query w) TOP_K;
   Print (print_text
            [VStr (nl ++ py "Context:" ++ nl ++ py "---" ++ nl
                   ++ context ++ nl ++ py "---")]);
   ModelCall (user_content (w_query w) context)].

(** Lines 128-201 of [main]: from the first reply of the model to the
    final answer, as [resolve] ends. *)
Definition answer (w : world) (books : BooksDict) (only_title : value)
  : io (option (BooksDict * value)) :=
  first <~ lift (w_first w) ;;
  match direct_answer (output_text first) with
  | Some final_data => io_ret (Some (books, final_data))
  | None =>
      call <~ lift (extract_call (model_dump first)) ;;
      match call with
      | None =>
          print [raw_line;
                 VStr (str_or (output_text first)
                         (py "(no text and no tool call)"))] ;;;
          io_ret None
      | Some c =>
          final_data <~ finalize w books only_title c ;;
          io_ret match final_data with
                 | Some fd => Some (books, fd)
                 | None => None
                 end
      end
  end.

(** [blurb_or_summary] of line 209, for a title that can be a key. *)
Definition blurb_or_summary (d : list (str * value)) (books : BooksDict)
  (title : value) : value :=
  if truthy (field d (py "blurb")) then field d (py "blurb")
  else match books_get books title with
       | Some (summary, _) => py_or summary (VStr [])
       | None => VStr []
       end.

(** [verbal_text] of line 210. *)
Definition verbal_text (d : list (str * value)) (title : value) : value :=
  py_or (field d (py "verbal"))
    (py_or (field d (py "blurb"))
       (VStr (py "Recommendation: " ++ str_of title))).

(** The item is a record whose type is [function_call]. *)
Definition is_function_call (item : value) : bool :=
  match item with
  | VDict d => eq_str (field d (py "type")) (py "function_call")
  | _ => false
  end.

(** An item of the output that is a record of another type than
    [function_call] and [message], such as a reasoning item. *)
Definition is_other_item (item : value) : bool :=
  match item with
  | VDict d =>
      negb (eq_str (field d (py "type")) (py "function_call")) &&
      negb (eq_str (field d (py "type")) (py "message"))
  | _ => false
  end.

End Further.

(** ** More example inputs *)

(** The world with another first reply of the model. *)
Definition with_first (w : world) (first : response) : world :=
  {| w_client := w_client w;
     w_catalog := w_catalog w;
     w_collection := w_collection w;
     w_query := w_query w;
     w_results := w_results w;
     w_first := Ok first;
     w_final := w_final w;
     w_yn_img := w_yn_img w;
     w_yn_tts := w_yn_tts w;
     w_image := w_image w;
     w_speech := w_speech w;
     w_exn_text := w_exn_text w |}.


(** A first reply that is text only, without a tool call. *)
Definition text_reply (text : string) : response :=
  {| resp_id := VStr (py "resp_1");
     output_text := json_text text;
     model_dump := VDict [(py "output", VList [])] |}.

(** The run of [world_of] in which the first reply is the final answer
    already, and the one in which it is empty. *)
Definition direct_world : world :=
  with_first (world_of ok_final "no") (text_reply ok_final).

Definition mute_world : world :=
  with_first (world_of ok_final "no") (text_reply "").

Definition ok_final_record : value :=
  VDict [(py "status", VStr (py "ok"));
         (py "title", VStr (py "Dune"));
         (py "verbal", VStr (py "I recommend Dune."))].

Unset Implicit Arguments.

(** * Properties *)

(** ** Lists *)

Lemma Forall_firstn {A : Type} (Q : A -> Prop) (n : nat) (l : list A) :
  Forall Q l -> Forall Q (firstn n l).
Proof.
  intros H. revert n. induction H; intros [|n]; simpl; auto.
Qed.

(** ** Stripping *)

Section Strip.

Variable p : char -> bool.

Lemma drop_while_idem s : drop_while p (drop_while p s) = drop_while p s.
Proof.
  induction s as [|c t IH]; simpl; auto.
  destruct (p c) eqn:E; auto. simpl. now rewrite E.
Qed.

Lemma drop_while_head s c r : drop_while p s = c :: r -> p c = false.
Proof.
  induction s as [|a t IH]; simpl; [discriminate|].
  destruct (p a) eqn:E; auto. intros [= <- _]. exact E.
Qed.

Lemma drop_while_keeps c r : p c = false -> drop_while p (c :: r) = c :: r.
Proof. intros E. simpl. now rewrite E. Qed.

(** What [drop_while] leaves is a suffix; what it removes satisfies [p]. *)
Lemma drop_while_split s :
  exists z, s = z ++ drop_while p s /\ forallb p z = true.
Proof.
  induction s as [|a t (z & Hz & Hp)]; simpl.
  - now exists [].
  - destruct (p a) eqn:E.
    + exists (a :: z). simpl. rewrite E, Hp. split; [now f_equal|reflexivity].
    + now exists [].
Qed.

(** [rstrip] keeps a prefix. *)
Lemma rstrip_prefix s :
  exists z, s = rstrip_by p s ++ z /\ forallb p z = true.
Proof.
  unfold rstrip_by.
  destruct (drop_while_split (rev s)) as (z & Hz & Hp).
  exists (rev z). split.
  - rewrite <- rev_app_distr, <- Hz. now rewrite rev_involutive.
  - rewrite forallb_forall in *. intros x Hx. apply Hp. now apply in_rev.
Qed.

Lemma rstrip_idem s : rstrip_by p (rstrip_by p s) = rstrip_by p s.
Proof.
  unfold rstrip_by. now rewrite rev_involutive, drop_while_idem.
Qed.

Lemma rstrip_length s : length (rstrip_by p s) <= length s.
Proof.
  destruct (rstrip_prefix s) as (z & Hz & _).
  rewrite Hz at 2. rewrite length_app. lia.
Qed.

Lemma rstrip_head c r :
  p c = false -> exists r', rstrip_by p (c :: r) = c :: r'.
Proof.
  intros E. destruct (rstrip_prefix (c :: r)) as (z & Hz & Hp).
  destruct (rstrip_by p (c :: r)) as [|a r'] eqn:R.
  - simpl in Hz. subst z. simpl in Hp. now rewrite E in Hp.
  - simpl in Hz. injection Hz as <- _. now exists r'.
Qed.

Lemma strip_head s c r : strip_by p s = c :: r -> p c = false.
Proof.
  unfold strip_by, lstrip_by. intros H.
  destruct (drop_while p s) as [|a t] eqn:D.
  - discriminate H.
  - pose proof (drop_while_head _ _ _ D) as Ha.
    destruct (rstrip_head _ t Ha) as (r' & Hr). rewrite Hr in H.
    now injection H as <- _.
Qed.

Lemma strip_rstrip s : rstrip_by p (strip_by p s) = strip_by p s.
Proof. unfold strip_by. apply rstrip_idem. Qed.

Lemma strip_of_head c r :
  p c = false -> strip_by p (c :: r) = rstrip_by p (c :: r).
Proof. intros E. unfold strip_by, lstrip_by. now rewrite drop_while_keeps. Qed.

Lemma drop_while_all s : forallb p s = true -> drop_while p s = [].
Proof.
  induction s as [|a t IH]; simpl; auto.
  destruct (p a); simpl; auto. discriminate.
Qed.

Lemma strip_all s : forallb p s = true -> strip_by p s = [].
Proof.
  intros H. unfold strip_by, lstrip_by. now rewrite drop_while_all.
Qed.

Lemma drop_while_Forall (Q : char -> Prop) s :
  Forall Q s -> Forall Q (drop_while p s).
Proof.
  induction 1 as [|a t Ha Ht IH]; simpl; auto.
  destruct (p a); auto.
Qed.

Lemma strip_Forall (Q : char -> Prop) s :
  Forall Q s -> Forall Q (strip_by p s).
Proof.
  intros H. unfold strip_by, rstrip_by, lstrip_by.
  apply Forall_rev, drop_while_Forall, Forall_rev, drop_while_Forall, H.
Qed.

End Strip.

(** ** _safe_slug *)

Module SlugFacts.
Import Slug.

Lemma sub_from_kept b s : Forall kept (sub_from b s).
Proof.
  revert b. induction s as [|c t IH]; intros b; simpl; auto.
  destruct (keep c) eqn:E; [now constructor|].
  destruct b; auto. constructor; auto. reflexivity.
Qed.

Lemma sub_from_fixed b s : Forall kept s -> sub_from b s = s.
Proof.
  intros H. revert b. induction H as [|c t Hc Ht IH]; intros b; simpl; auto.
  rewrite Hc. now rewrite IH.
Qed.

Lemma sub_from_forbidden s :
  forallb (fun c => negb (keep c)) s = true -> sub_from true s = [].
Proof.
  induction s as [|c t IH]; simpl; auto.
  destruct (keep c); simpl; [discriminate|auto].
Qed.

Lemma cut_kept s : Forall kept (cut s).
Proof. apply Forall_firstn, strip_Forall, sub_from_kept. Qed.

Lemma cut_head s c r : cut s = c :: r -> is_underscore c = false.
Proof.
  unfold cut. intros H.
  destruct (strip_by is_underscore (re_sub s)) as [|a t] eqn:E;
    [discriminate|].
  simpl in H. injection H as <- _. eapply strip_head, E.
Qed.

Lemma cut_length s : length (cut s) <= 60.
Proof. unfold cut. apply firstn_le_length. Qed.

(** On a slug that is not the fallback, a second pass only strips on
    the right. *)
Lemma slug_of_cut t c r :
  t = c :: r -> Forall kept t -> is_underscore c = false -> length t <= 60 ->
  _safe_slug t = rstrip_by is_underscore t.
Proof.
  intros -> Hk Hc Hl. unfold _safe_slug, re_sub.
  rewrite (sub_from_fixed false _ Hk), (strip_of_head is_underscore c r Hc).
  pose proof (rstrip_length is_underscore (c :: r)) as Hlen.
  destruct (rstrip_head is_underscore c r Hc) as (r' & Hr).
  rewrite firstn_all2 by lia. now rewrite Hr.
Qed.

Lemma safe_slug_rstrip s :
  _safe_slug (_safe_slug s) = rstrip_by is_underscore (_safe_slug s).
Proof.
  unfold _safe_slug at 2 3. fold (cut s).
  destruct (cut s) as [|c r] eqn:E.
  - reflexivity.
  - simpl or_output. eapply slug_of_cut; eauto.
    + rewrite <- E. apply cut_kept.
    + eapply cut_head, E.
    + rewrite <- E. apply cut_length.
Qed.

Lemma safe_slug_length s : length (_safe_slug s) <= 60.
Proof.
  unfold _safe_slug. fold (cut s). pose proof (cut_length s).
  destruct (cut s); simpl in *; lia.
Qed.

Lemma safe_slug_forbidden s :
  forallb (fun c => negb (keep c)) s = true -> _safe_slug s = py "output".
Proof.
  intros H. unfold _safe_slug, re_sub.
  destruct s as [|c t]; [reflexivity|].
  simpl in *. apply andb_prop in H as [Hc Ht].
  destruct (keep c); [discriminate|].
  now rewrite (sub_from_forbidden _ Ht).
Qed.

Lemma safe_slug_short s :
  length (strip_by is_underscore (re_sub s)) <= 60 ->
  _safe_slug (_safe_slug s) = _safe_slug s.
Proof.
  intros H. rewrite safe_slug_rstrip. unfold _safe_slug.
  rewrite firstn_all2 by exact H.
  destruct (strip_by is_underscore (re_sub s)) eqn:E.
  - reflexivity.
  - simpl or_output. rewrite <- E. apply strip_rstrip.
Qed.

End SlugFacts.

(** ** Dict keys *)

Lemma str_eqb_refl s : str_eqb s s = true.
Proof. unfold str_eqb. now destruct (list_eq_dec N.eq_dec s s). Qed.

Lemma str_eqb_eq a b : str_eqb a b = true <-> a = b.
Proof.
  unfold str_eqb. destruct (list_eq_dec N.eq_dec a b); split; congruence.
Qed.

Lemma num_eqb_refl n : num_eqb n n = true.
Proof.
  destruct n as [m e|s|]; simpl; auto.
  - apply Z.eqb_refl.
  - now destruct s.
Qed.

Lemma key_eqb_refl k : hashable k = true -> key_eqb k k = true.
Proof.
  destruct k; simpl; intros H; try discriminate H;
    auto using num_eqb_refl, str_eqb_refl, Z.eqb_refl.
Qed.

(** ** parse_json *)

Section ParseFacts.

Context {P : Python}.

Lemma books_set_length books k e :
  length (books_set books k e) <= S (length books).
Proof.
  induction books as [|[k' e'] rest IH]; simpl; [lia|].
  destruct (key_eqb k' k); simpl; lia.
Qed.

Lemma books_set_titled books k e :
  Forall titled books -> truthy k = true -> Forall titled (books_set books k e).
Proof.
  induction 1 as [|[k' e'] rest Hk Hr IH]; intros Ht; simpl.
  - repeat constructor. exact Ht.
  - destruct (key_eqb k' k); constructor; auto.
Qed.

Lemma books_get_set books k e :
  hashable k = true -> books_get (books_set books k e) k = Some e.
Proof.
  intros H. induction books as [|[k' e'] rest IH]; simpl.
  - now rewrite key_eqb_refl.
  - destruct (key_eqb k' k) eqn:E; simpl; now rewrite E.
Qed.

(** What the loop body does with a decoded line. *)
Lemma parse_row_cases books row books' :
  parse_row books row = Ok books' ->
  exists d, row = VDict d /\
    match dict_get d (py "title") with
    | None => books' = books
    | Some title =>
        if truthy title then
          hashable title = true /\
          books' = books_set books title
                     (match dict_get d (py "summary_short") with
                      | Some v => v
                      | None => VNone
                      end,
                      themes_of match dict_get d (py "themes") with
                                | Some v => v
                                | None => VNone
                                end)
        else books' = books
    end.
Proof.
  unfold parse_row. destruct row; simpl; try discriminate.
  intros H. exists d. split; [reflexivity|].
  destruct (dict_get d (py "title")) as [title|]; simpl in H.
  - destruct (truthy title); simpl in H; [|congruence].
    unfold books_setitem in H. destruct (hashable title); [|discriminate].
    split; congruence.
  - congruence.
Qed.

Lemma parse_row_sound books row books' :
  parse_row books row = Ok books' -> Forall titled books ->
  Forall titled books' /\ length books' <= S (length books).
Proof.
  intros H Hb. destruct (parse_row_cases _ _ _ H) as (d & -> & Hd).
  destruct (dict_get d (py "title")) as [title|].
  - destruct (truthy title) eqn:T.
    + destruct Hd as (_ & ->). split.
      * now apply books_set_titled.
      * apply books_set_length.
    + subst. split; auto.
  - subst. split; auto.
Qed.

Lemma parse_lines_sound lines : forall books books',
  parse_lines lines books = Ok books' -> Forall titled books ->
  Forall titled books' /\
  length books' <= length books + length (nonblank lines).
Proof.
  induction lines as [|line rest IH]; intros books books' H Hb; simpl in *.
  - injection H as <-. split; [auto|lia].
  - destruct (blank line); simpl.
    + now apply IH.
    + destruct (json_loads line) as [row|].
      * destruct (parse_row books row) as [b1|] eqn:R; simpl in H;
          [|discriminate].
        destruct (parse_row_sound _ _ _ R Hb) as (H1 & H2).
        destruct (IH _ _ H H1) as (H3 & H4). split; [auto|lia].
      * destruct (IH _ _ H Hb) as (H3 & H4). split; [auto|lia].
Qed.

(** When [parse_json] returns, every entry has a non-empty title and
    there are no more entries than non-blank lines. *)
Lemma parse_json_sound text books :
  parse_json text = Ok books ->
  Forall titled books /\
  length books <= length (nonblank (readlines text)).
Proof.
  intros H. apply parse_lines_sound in H as (H1 & H2); auto.
Qed.

Lemma parse_lines_skip line rest books :
  skipped line -> parse_lines (line :: rest) books = parse_lines rest books.
Proof.
  intros [H|[H|(d & H & Ht)]]; simpl.
  - now rewrite H.
  - rewrite H. now destruct (blank line).
  - rewrite H. destruct (blank line); auto.
    unfold parse_row. simpl.
    destruct (dict_get d (py "title")) as [t|]; simpl; auto.
    now rewrite Ht.
Qed.

Lemma parse_lines_total lines : forall books,
  Forall harmless lines -> exists books', parse_lines lines books = Ok books'.
Proof.
  induction lines as [|line rest IH]; intros books Hall.
  - now exists books.
  - inversion Hall as [|? ? Hl Hr]; subst.
    destruct Hl as [Hs|(d & t & Hd & Ht & Hh)].
    + rewrite (parse_lines_skip line rest books Hs). now apply IH.
    + simpl. destruct (blank line); [now apply IH|].
      rewrite Hd. unfold parse_row. simpl. rewrite Ht.
      destruct (truthy t); simpl; [|now apply IH].
      unfold books_setitem. rewrite Hh. simpl. now apply IH.
Qed.

End ParseFacts.

(** ** build_chroma_payload *)

Section PayloadFacts.

Lemma is_str_inv v : is_str v = true -> exists s, v = VStr s.
Proof. destruct v; simpl; try discriminate. now eexists. Qed.

Lemma all_str_inv l : forallb is_str l = true -> exists ss, l = map VStr ss.
Proof.
  induction l as [|v t IH]; simpl; intros H.
  - now exists [].
  - apply andb_prop in H as [Hv Ht].
    destruct (is_str_inv _ Hv) as (s & ->), (IH Ht) as (ss & ->).
    now exists (s :: ss).
Qed.

Lemma strs_of_strs ss : strs_of (map VStr ss) = Ok ss.
Proof. induction ss as [|s t IH]; simpl; auto. now rewrite IH. Qed.

Lemma str_join_strs sep ss : str_join sep (map VStr ss) = Ok (join sep ss).
Proof. unfold str_join. now rewrite strs_of_strs. Qed.

Lemma py_or_doc summary :
  is_opt_str summary = true -> py_or summary (VStr []) = doc_of summary.
Proof. destruct summary as [| | | |[|c s]| |]; simpl; try discriminate; auto. Qed.

Lemma tags_of_strs ss : tags_of (map VStr ss) = ss.
Proof. induction ss as [|s t IH]; simpl; auto. now rewrite IH. Qed.

Lemma payload_loop_spec items : forall ids docs metas,
  is_BooksDict items = true ->
  payload_loop items ids docs metas =
    Ok (ids ++ map id_at items, docs ++ map doc_at items,
        metas ++ map meta_at items).
Proof.
  induction items as [|[title [summary themes]] rest IH];
    intros ids docs metas H; simpl.
  - now rewrite !app_nil_r.
  - simpl in H. apply andb_prop in H as [Ht Hr].
    apply andb_prop in Ht as [Ht Hth]. apply andb_prop in Ht as [_ Hs].
    destruct (all_str_inv _ Hth) as (ss & ->).
    rewrite str_join_strs. simpl. rewrite IH by exact Hr.
    rewrite py_or_doc by exact Hs.
    unfold id_at, doc_at, meta_at. simpl. rewrite tags_of_strs.
    now rewrite <- !app_assoc.
Qed.

Lemma build_chroma_payload_maps books :
  is_BooksDict books = true ->
  build_chroma_payload books =
    Ok (map id_at books, map doc_at books, map meta_at books).
Proof. intros H. unfold build_chroma_payload. now rewrite payload_loop_spec. Qed.

End PayloadFacts.

(** ** build_context_from_results *)

Section ContextFacts.

Context {P : Python}.

Lemma stanzas_spec pairs : forall parts,
  records pairs -> stanzas pairs parts = Ok (parts ++ map render pairs).
Proof.
  induction pairs as [|[d m] rest IH]; intros parts H; simpl.
  - now rewrite app_nil_r.
  - inversion H as [|? ? Hm Hr]; subst. simpl in Hm.
    destruct m; try discriminate Hm. simpl.
    rewrite IH by exact Hr. unfold render at 2. simpl.
    now rewrite <- app_assoc.
Qed.

Lemma first_list_hits r key l :
  hit_list r key = Some l -> first_list (VDict r) key = Ok (VList l).
Proof.
  unfold hit_list, first_list. simpl.
  destruct (dict_get r key) as [[| | | | |[|[| | | | |x|] rest]|]|];
    simpl; intros H; try discriminate H; now injection H as <-.
Qed.

(** The context is the stanzas of the first [k] pairs, a blank line
    between them. *)
Lemma build_context_spec r k ds ms :
  hit_list r (py "documents") = Some ds ->
  hit_list r (py "metadatas") = Some ms ->
  records (slice_to k (combine ds ms)) ->
  build_context_from_results (VDict r) k =
    Ok (join (nl ++ nl) (map render (slice_to k (combine ds ms)))).
Proof.
  intros Hd Hm Hr. unfold build_context_from_results.
  rewrite (first_list_hits _ _ _ Hd), (first_list_hits _ _ _ Hm). simpl.
  now rewrite stanzas_spec.
Qed.

Lemma slice_to_all {A : Type} (k : Z) (l : list A) :
  (Z.of_nat (length l) <= k)%Z -> slice_to k l = l.
Proof.
  intros H. unfold slice_to.
  destruct (0 <=? k)%Z eqn:E; [|lia].
  apply firstn_all2. lia.
Qed.

Lemma slice_to_nil {A : Type} (k : Z) : slice_to k (@nil A) = [].
Proof.
  unfold slice_to. destruct (0 <=? k)%Z; simpl; now rewrite ?firstn_nil.
Qed.

Lemma records_slice k pairs : records pairs -> records (slice_to k pairs).
Proof.
  unfold records, slice_to. intros H.
  destruct (0 <=? k)%Z; apply Forall_firstn; exact H.
Qed.

Lemma records_combine ds ms :
  Forall (fun m => is_dict m = true) ms -> records (combine ds ms).
Proof.
  intros H. revert ds. induction H as [|m t Hm Ht IH]; intros [|d ds]; simpl;
    try constructor; auto. apply IH.
Qed.

End ContextFacts.

(** ** The summary tool *)

Section ToolFacts.

Lemma books_get_In books k e :
  books_get books k = Some e ->
  exists k', In (k', e) books /\ key_eqb k' k = true.
Proof.
  induction books as [|[k0 e0] rest IH]; simpl; [discriminate|].
  destruct (key_eqb k0 k) eqn:E.
  - intros [= ->]. exists k0. auto.
  - intros H. destruct (IH H) as (k' & Hin & Hk). exists k'. auto.
Qed.

Lemma books_get_typed books k summary themes :
  is_BooksDict books = true ->
  books_get books k = Some (summary, themes) ->
  is_opt_str summary = true.
Proof.
  intros Ht Hg. destruct (books_get_In _ _ _ Hg) as (k' & Hin & _).
  unfold is_BooksDict in Ht. rewrite forallb_forall in Ht.
  specialize (Ht _ Hin). simpl in Ht.
  apply andb_prop in Ht as [Ht _]. now apply andb_prop in Ht as [_ Ht].
Qed.

End ToolFacts.

(** ** print_result *)

Section ReportFacts.

Context {P : Python}.

Lemma py_get_field d key default :
  py_get (VDict d) key default = Ok (field_or d key default).
Proof. reflexivity. Qed.







End ReportFacts.

(** ** The tool call *)

Section ToolCallFacts.

Context {P : Python}.

Lemma valid_titles_spec ms : forall acc,
  forallb str_titled ms = true ->
  valid_titles ms acc = Ok (fold_left add_title (titles_in ms) acc).
Proof.
  induction ms as [|m rest IH]; intros acc H; simpl in *; [reflexivity|].
  apply andb_prop in H as [Hm Hr].
  destruct m as [| | | | | |md]; try discriminate Hm. simpl in *.
  destruct (dict_get md (py "title")) as [t|]; simpl.
  - destruct t as [| | | |[|c s]| |]; try discriminate Hm; simpl.
    + now apply IH.
    + rewrite IH by exact Hr. reflexivity.
  - now apply IH.
Qed.

Lemma add_title_keeps acc t x : In x acc -> In x (add_title acc t).
Proof.
  unfold add_title. destruct (existsb _ acc); auto.
  intros H. apply in_or_app. auto.
Qed.

Lemma fold_add_keeps ts : forall acc x,
  In x acc -> In x (fold_left add_title ts acc).
Proof.
  induction ts as [|t rest IH]; intros acc x H; simpl; auto.
  apply IH, add_title_keeps, H.
Qed.

Lemma add_title_has acc t : In (VStr t) (add_title acc t).
Proof.
  unfold add_title. destruct (existsb _ acc) eqn:E.
  - apply existsb_exists in E as (x & Hx & Hk).
    destruct x; simpl in Hk; try discriminate Hk.
    apply str_eqb_eq in Hk. now subst.
  - apply in_or_app. right. now left.
Qed.

Lemma fold_add_has ts : forall acc t,
  In t ts -> In (VStr t) (fold_left add_title ts acc).
Proof.
  induction ts as [|t0 rest IH]; intros acc t H; simpl; [contradiction|].
  destruct H as [->|H].
  - apply fold_add_keeps, add_title_has.
  - now apply IH.
Qed.

Lemma fold_add_same u ts : forall acc,
  (forall t, In t ts -> t = u) -> acc = [] \/ acc = [VStr u] ->
  fold_left add_title ts acc = [] /\ ts = [] /\ acc = [] \/
  fold_left add_title ts acc = [VStr u].
Proof.
  induction ts as [|t rest IH]; intros acc Hall Hacc; simpl.
  - destruct Hacc as [->| ->]; auto.
  - assert (t = u) as -> by (apply Hall; now left).
    right.
    assert (add_title acc u = [VStr u]) as E.
    { destruct Hacc as [->| ->]; unfold add_title; simpl; auto.
      now rewrite str_eqb_refl. }
    rewrite E.
    destruct (IH [VStr u]) as [(_ & _ & Hbad)|H]; auto.
    + intros t Ht. apply Hall. now right.
    + discriminate Hbad.
Qed.

(** One distinct title among the retrieved records: it is kept. *)
Lemma only_title_one r ms u :
  hit_list r (py "metadatas") = Some ms ->
  forallb str_titled ms = true ->
  In u (titles_in ms) -> (forall t, In t (titles_in ms) -> t = u) ->
  only_title_of (VDict r) = Ok (VStr u).
Proof.
  intros Hm Hs Hin Hall. unfold only_title_of.
  rewrite (first_list_hits _ _ _ Hm). simpl.
  rewrite valid_titles_spec by exact Hs. simpl.
  destruct (fold_add_same u (titles_in ms) [] Hall (or_introl eq_refl))
    as [(_ & Hnil & _)|E].
  - rewrite Hnil in Hin. contradiction.
  - now rewrite E.
Qed.

(** No title among the retrieved records: nothing is kept. *)
Lemma only_title_zero r ms :
  hit_list r (py "metadatas") = Some ms ->
  forallb str_titled ms = true ->
  titles_in ms = [] ->
  only_title_of (VDict r) = Ok VNone.
Proof.
  intros Hm Hs Hnil. unfold only_title_of.
  rewrite (first_list_hits _ _ _ Hm). simpl.
  rewrite valid_titles_spec by exact Hs. now rewrite Hnil.
Qed.

(** Two distinct titles among the retrieved records: nothing is kept. *)
Lemma only_title_many r ms t1 t2 :
  hit_list r (py "metadatas") = Some ms ->
  forallb str_titled ms = true ->
  In t1 (titles_in ms) -> In t2 (titles_in ms) -> t1 <> t2 ->
  only_title_of (VDict r) = Ok VNone.
Proof.
  intros Hm Hs H1 H2 Hne. unfold only_title_of.
  rewrite (first_list_hits _ _ _ Hm). simpl.
  rewrite valid_titles_spec by exact Hs. simpl.
  pose proof (fold_add_has (titles_in ms) [] t1 H1) as I1.
  pose proof (fold_add_has (titles_in ms) [] t2 H2) as I2.
  destruct (fold_left add_title (titles_in ms) []) as [|a [|b l]];
    try reflexivity.
  destruct I1 as [E1|[]], I2 as [E2|[]]. congruence.
Qed.

(** The title argument as a string: [args.get("title") or ""]. *)
Lemma title_argument_spec d only_title t :
  py_or (field d (py "title")) (VStr []) = VStr t ->
  title_argument (VDict d) only_title = Ok (resolved_title t only_title).
Proof.
  intros H. unfold title_argument, resolved_title. rewrite py_get_field.
  fold (field d (py "title")). simpl. rewrite H. simpl.
  destruct (strip t); reflexivity.
Qed.

Lemma run_tool_summary books title_arg :
  run_tool books (VStr SUMMARY_TOOL_name) title_arg =
    (r <- make_get_summary_tool books title_arg ;; Ok (py_or r (VStr []))).
Proof. reflexivity. Qed.

(** The whole step for a call of the summary tool whose arguments are
    a record, the empty one when their text does not decode. *)
Lemma resolve_tool_call_spec books only_title c d t :
  eq_str (field c (py "name")) SUMMARY_TOOL_name = true ->
  loads_or_empty (py_or (field c (py "arguments")) (VStr (py "{}")))
    = Ok (VDict d) ->
  py_or (field d (py "title")) (VStr []) = VStr t ->
  resolve_tool_call books only_title (VDict c) =
    (r <- make_get_summary_tool books (resolved_title t only_title) ;;
     Ok (py_or (field c (py "call_id")) (field c (py "id")),
         py_or r (VStr []))).
Proof.
  intros Hn Ha Ht. unfold resolve_tool_call.
  rewrite !py_get_field. unfold bind at 1 2 3 4.
  fold (field c (py "arguments")). rewrite Ha. unfold bind at 1.
  rewrite (title_argument_spec _ _ _ Ht). unfold bind at 1.
  unfold run_tool. fold (field c (py "name")). rewrite Hn.
  destruct (make_get_summary_tool books (resolved_title t only_title));
    reflexivity.
Qed.

End ToolCallFacts.

(** ** Runs of main *)

Section RunFacts.

Context {P : Python}.

Lemma fst_bind {A B : Type} (m : io A) (k : A -> io B) :
  fst (io_bind m k) =
    fst m ++ match snd m with Ok a => fst (k a) | Raise _ => [] end.
Proof.
  destruct m as [t [a|e]]; simpl.
  - now destruct (k a).
  - now rewrite app_nil_r.
Qed.

Lemma snd_bind {A B : Type} (m : io A) (k : A -> io B) :
  snd (io_bind m k) =
    match snd m with Ok a => snd (k a) | Raise e => Raise e end.
Proof.
  destruct m as [t [a|e]]; simpl; auto. now destruct (k a).
Qed.

Lemma silent_bind {A B : Type} p (m : io A) (k : A -> io B) :
  silent p m -> (forall a, silent p (k a)) -> silent p (io_bind m k).
Proof.
  unfold silent. intros Hm Hk. rewrite fst_bind, existsb_app, Hm.
  destruct (snd m); simpl; auto.
Qed.

Lemma silent_lift {A : Type} p (r : result A) : silent p (lift r).
Proof. reflexivity. Qed.

Lemma silent_ret {A : Type} p (a : A) : silent p (io_ret a).
Proof. reflexivity. Qed.

Lemma silent_emit p e : p e = false -> silent p (emit e).
Proof. unfold silent. simpl. now intros ->. Qed.

Lemma silent_print p args :
  p (Print (print_text args)) = false -> silent p (print args).
Proof. apply silent_emit. Qed.

Lemma media_skips_prints : skips_prints is_media.
Proof. intros text. reflexivity. Qed.

Ltac silence :=
  repeat first
    [ solve [auto]
    | progress cbv zeta
    | apply silent_lift
    | apply silent_ret
    | apply silent_print; solve [auto]
    | apply silent_emit; reflexivity
    | apply silent_bind; [|intros ?]
    | match goal with
      | |- silent _ (if ?c then _ else _) => destruct c
      | |- silent _ (match ?x with _ => _ end) => destruct x
      end ].

Lemma print_result_silent p data books :
  skips_prints p -> silent p (print_result data books).
Proof.
  intros Hp. unfold print_result, print_summary. silence.
Qed.

Lemma media_no_tool_output w fd books :
  silent is_tool_output (media w fd books).
Proof.
  unfold media. assert (skips_prints is_tool_output) by (intros ?; reflexivity).
  silence.
Qed.

Lemma report_no_tool_output w fd books :
  silent is_tool_output (report w fd books).
Proof.
  unfold report. apply silent_bind.
  - apply print_result_silent. intros ?; reflexivity.
  - intros _. apply media_no_tool_output.
Qed.

Lemma finalize_quiet w books only_title call :
  silent is_media (finalize w books only_title call).
Proof.
  unfold finalize. pose proof media_skips_prints. silence.
Qed.

Lemma resolve_quiet w : silent is_media (resolve w).
Proof.
  unfold resolve. pose proof media_skips_prints.
  pose proof (finalize_quiet w).
  silence.
Qed.

Lemma media_guard w fd books :
  existsb is_media (fst (media w fd books)) = true -> has_ok_title fd.
Proof.
  unfold media. destruct (truthy fd) eqn:T; [|discriminate].
  destruct fd as [| | | | | |d]; try discriminate.
  rewrite !py_get_field. fold (field d (py "status")).
  unfold lift at 1. unfold io_bind at 1.
  destruct (eq_str (field d (py "status")) (py "ok")) eqn:S;
    [|discriminate].
  simpl andb. cbv iota.
  unfold lift at 1. unfold io_bind at 1.
  unfold field_or at 1.
  destruct (dict_get d (py "title")) as [title|] eqn:Ht; [|discriminate].
  destruct (truthy title) eqn:Tt; [|discriminate].
  intros _. exists d, title. auto.
Qed.

Lemma ends_silent {A : Type} e (r : result A) (m : io A) :
  silent is_tool_output m -> ends_with e r m.
Proof. unfold ends_with, silent. intros ->. discriminate. Qed.

Lemma ends_bind {A B : Type} e (r : result B) (m : io A) (k : A -> io B) :
  silent is_tool_output m -> (forall a, ends_with e r (k a)) ->
  ends_with e r (io_bind m k).
Proof.
  unfold ends_with, silent. intros Hm Hk.
  rewrite fst_bind, snd_bind, existsb_app, Hm. simpl.
  destruct (snd m) as [a|x]; [|discriminate].
  intros H. destruct (Hk a H) as (pre & Hp & Hr).
  exists (fst m ++ pre). rewrite Hp, app_assoc. auto.
Qed.

Lemma ends_then_ret {A B : Type} e (a0 : A) (m : io A) (f : A -> B) :
  ends_with e (Ok a0) m ->
  ends_with e (Ok (f a0)) (io_bind m (fun a => io_ret (f a))).
Proof.
  unfold ends_with. rewrite fst_bind, snd_bind, existsb_app.
  intros Hm H.
  assert (existsb is_tool_output (fst m) = true) as Hin.
  { destruct (snd m); simpl in H; now rewrite orb_false_r in H. }
  destruct (Hm Hin) as (pre & Hp & Hr). rewrite Hr. simpl.
  exists pre. now rewrite app_nil_r.
Qed.

(** The raw final text, as line 200 prints it. *)
Lemma finalize_raw w books only_title call final :
  w_final w = Ok final ->
  json_loads (str_or (output_text final) (py "{}")) = None ->
  ends_with (Print (print_text [raw_line; VStr (output_text final)]))
    (Ok None) (finalize w books only_title call).
Proof.
  intros Hf Hj. unfold finalize.
  destruct (resolve_tool_call books only_title call) as [[cid out]|x].
  - intros _. simpl. rewrite Hf. simpl. rewrite Hj. simpl.
    now exists [ToolOutput cid out].
  - apply ends_silent. reflexivity.
Qed.

Lemma resolve_raw w final :
  w_final w = Ok final ->
  json_loads (str_or (output_text final) (py "{}")) = None ->
  ends_with (Print (print_text [raw_line; VStr (output_text final)]))
    (Ok None) (resolve w).
Proof.
  intros Hf Hj. unfold resolve.
  assert (skips_prints is_tool_output) as Hp by (intros ?; reflexivity).
  repeat first
    [ apply ends_bind; [solve [silence]|intros ?]
    | match goal with
      | |- ends_with _ _ (let '(_, _) := ?x in _) => destruct x as [[? ?] ?]
      end ].
  destruct (direct_answer _).
  - apply ends_silent. silence.
  - apply ends_bind; [silence|]. intros [c|].
    + refine (ends_then_ret _ None _ _ _). now apply finalize_raw.
    + apply ends_silent. silence.
Qed.

(** Media events happen only after a final answer that recommends a
    title. *)
Lemma main_media_guard w :
  existsb is_media (fst (main w)) = true ->
  exists books fd,
    snd (resolve w) = Ok (Some (books, fd)) /\ has_ok_title fd.
Proof.
  unfold main. rewrite fst_bind, existsb_app, (resolve_quiet w). simpl.
  destruct (snd (resolve w)) as [[[books fd]|]|]; try discriminate.
  intros H. exists books, fd. split; [reflexivity|].
  unfold report in H. rewrite fst_bind, existsb_app in H.
  rewrite (print_result_silent is_media fd books media_skips_prints) in H.
  simpl in H. destruct (snd (print_result fd books)); [|discriminate].
  eapply media_guard, H.
Qed.

(** A final text that does not decode: the run prints it and ends. *)
Lemma main_raw w final :
  w_final w = Ok final ->
  json_loads (str_or (output_text final) (py "{}")) = None ->
  existsb is_tool_output (fst (main w)) = true ->
  exists pre,
    fst (main w) =
      pre ++ [Print (print_text [raw_line; VStr (output_text final)])] /\
    snd (main w) = Ok tt /\
    existsb is_media (fst (main w)) = false.
Proof.
  intros Hf Hj H. pose proof (resolve_raw w final Hf Hj) as R.
  unfold main in *. rewrite fst_bind, snd_bind in *.
  rewrite existsb_app in *.
  destruct (existsb is_tool_output (fst (resolve w))) eqn:E.
  - destruct (R E) as (pre & Hp & Hr). rewrite Hr. simpl.
    exists pre. rewrite app_nil_r, orb_false_r. repeat split; auto.
    apply resolve_quiet.
  - simpl in H.
    destruct (snd (resolve w)) as [[[books fd]|]|]; try discriminate H.
    now rewrite (report_no_tool_output w fd books) in H.
Qed.

Lemma main_no_match w books d :
  snd (resolve w) = Ok (Some (books, VDict d)) ->
  eq_str (field d (py "status")) (py "no_match") = true ->
  existsb is_media (fst (main w)) = false.
Proof.
  intros Hr Hs. destruct (existsb is_media (fst (main w))) eqn:E; auto.
  apply main_media_guard in E as (b & fd & Hr' & d' & t & -> & Hok & _).
  rewrite Hr in Hr'. injection Hr' as _ <-.
  destruct (field d (py "status")); try discriminate Hs.
  simpl in Hs, Hok. apply str_eqb_eq in Hs, Hok. subst. discriminate Hok.
Qed.

End RunFacts.

(** * The properties of the specification *)

(** ** Catalog loader *)

(** C1.  The specification says that [parse_json] returns a catalog for
    every file that can be opened.  On the file whose second line is
    the JSON text [[]], the line decodes, to a list, and [row.get]
    raises AttributeError, which the handler of json.JSONDecodeError
    does not catch: the call raises instead of skipping the line. *)
Theorem parse_json_raises_on_list_line :
  @parse_json Ref.python list_line_catalog = Raise AttributeError.
Proof. vm_compute. reflexivity. Qed.

(** C9, as the specification states it, fails on the record whose themes
    are the empty string: it is not a list, its string form is the
    empty string, and the loaded themes are the empty list, not the
    list of that one string. *)
Lemma themes_empty_string_not_wrapped :
  @json_loads Ref.python empty_themes_line
    = Some (VDict [(py "title", VStr (py "Dune")); (py "themes", VStr [])])
  /\ @parse_json Ref.python empty_themes_line
       = Ok [(VStr (py "Dune"), (VNone, []))]
  /\ @parse_json Ref.python empty_themes_line
       <> Ok [(VStr (py "Dune"),
               (VNone, [VStr (@str_of Ref.python (VStr []))]))].
Proof.
  split; [|split]; try (vm_compute; reflexivity).
  vm_compute. discriminate.
Qed.

(** C9, amended.  For every record with a title that can be a key, the
    entry loaded under that title has these themes: the list itself
    when the themes field is a list; the one-element list of the string
    form of the field when it is a non-list value that is true (a
    non-empty string, a non-zero number, true, a non-empty object); the
    empty list when the field is absent or false (null, false, zero,
    the empty string, the empty object). *)
Theorem themes_of_record {P : Python}
  (books : BooksDict) (d : list (str * value)) (title : value) :
  dict_get d (py "title") = Some title ->
  truthy title = true ->
  hashable title = true ->
  exists (summary : value) (themes : list value) (books' : BooksDict),
    parse_row books (VDict d) = Ok books' /\
    books_get books' title = Some (summary, themes) /\
    match dict_get d (py "themes") with
    | None => themes = []
    | Some (VList l) => themes = l
    | Some v => themes = if truthy v then [VStr (str_of v)] else []
    end.
Proof.
  intros Ht Htr Hh.
  exists (field d (py "summary_short")),
         (themes_of (field d (py "themes"))),
         (books_set books title
            (field d (py "summary_short"),
             themes_of (field d (py "themes")))).
  split; [|split].
  - assert (field_or d (py "title") VNone = title) as E
      by (unfold field_or; now rewrite Ht).
    unfold parse_row. rewrite !py_get_field. unfold bind.
    rewrite !E, Htr. simpl negb. cbv iota.
    unfold books_setitem. now rewrite Hh.
  - now apply books_get_set.
  - unfold field, field_or, themes_of, py_or.
    destruct (dict_get d (py "themes")) as [v|]; [|reflexivity].
    destruct v as [|[|]|z|f|[|c s]|[|x l]|[|kv l]]; simpl; auto.
    + now destruct (z =? 0)%Z.
    + now destruct f.
Qed.

Lemma themes_of_record_witness :
  exists (summary : value) (themes : list value) (books' : BooksDict),
    @parse_row Ref.python [] (VDict one_theme_record) = Ok books' /\
    books_get books' (VStr (py "Dune")) = Some (summary, themes) /\
    themes = [VStr (py "scifi")].
Proof.
  destruct (@themes_of_record Ref.python [] one_theme_record
              (VStr (py "Dune")) eq_refl eq_refl eq_refl)
    as (summary & themes & books' & H1 & H2 & H3).
  exists summary, themes, books'. repeat split; assumption.
Defined.

(** ** Vector payload builder *)

(** C2.  For every catalog of the annotated type, build_chroma_payload
    returns three lists as long as the catalog, and at every index the
    id is the title of the entry at that index, the document is its
    summary, or the empty string when it has none, and the metadata is
    the record of that title and of the themes joined by a comma and a
    space. *)
Theorem build_chroma_payload_spec (books : BooksDict) :
  is_BooksDict books = true ->
  exists ids docs metas : list value,
    build_chroma_payload books = Ok (ids, docs, metas) /\
    length ids = length books /\
    length docs = length books /\
    length metas = length books /\
    forall (i : nat) (title summary : value) (themes : list value),
      nth_error books i = Some (title, (summary, themes)) ->
      nth_error ids i = Some title /\
      nth_error docs i = Some (doc_of summary) /\
      themes = map VStr (tags_of themes) /\
      nth_error metas i =
        Some (VDict [(py "title", title);
                     (py "themes", VStr (join (py ", ") (tags_of themes)))]).
Proof.
  intros H.
  exists (map id_at books), (map doc_at books), (map meta_at books).
  split; [now apply build_chroma_payload_maps|].
  rewrite !length_map. do 3 (split; [reflexivity|]).
  intros i title summary themes Hi. repeat split.
  - now apply (map_nth_error id_at) in Hi.
  - now apply (map_nth_error doc_at) in Hi.
  - apply nth_error_In in Hi. unfold is_BooksDict in H.
    rewrite forallb_forall in H. specialize (H _ Hi). simpl in H.
    apply andb_prop in H as [_ H].
    destruct (all_str_inv _ H) as (ss & ->). now rewrite tags_of_strs.
  - now apply (map_nth_error meta_at) in Hi.
Qed.

Lemma build_chroma_payload_witness :
  is_BooksDict two_books = true /\
  exists ids docs metas : list value,
    build_chroma_payload two_books = Ok (ids, docs, metas) /\
    length ids = 2 /\ length docs = 2 /\ length metas = 2.
Proof.
  split; [reflexivity|].
  destruct (build_chroma_payload_spec two_books eq_refl)
    as (ids & docs & metas & H & H1 & H2 & H3 & _).
  exists ids, docs, metas. repeat split; assumption.
Defined.

(** C3.  For every reply of the vector store and every [k]: with [k = 1]
    and one hit the context is the one stanza of its title and its
    document; with no hit it is the empty string; with [k] above the
    number of hits nothing is raised and the context has the stanza of
    every hit, a blank line between two stanzas.  For the hit titled
    Dune it is the text of the specification. *)
Theorem build_context_hits {P : Python}
  (r : list (str * value)) (k : Z) (ds ms : list value) :
  hit_list r (py "documents") = Some ds ->
  hit_list r (py "metadatas") = Some ms ->
  (forall (d title : value) (md : list (str * value)),
     k = 1%Z -> ds = [d] -> ms = [VDict md] ->
     dict_get md (py "title") = Some title ->
     build_context_from_results (VDict r) k =
       Ok (py "Title: " ++ str_of title ++ nl ++ py "Summary: " ++ str_of d))
  /\ (ds = [] -> ms = [] -> build_context_from_results (VDict r) k = Ok [])
  /\ (length ds = length ms -> (Z.of_nat (length ds) < k)%Z ->
      Forall (fun m => is_dict m = true) ms ->
      build_context_from_results (VDict r) k =
        Ok (join (nl ++ nl) (map render (combine ds ms)))
      /\ length (map render (combine ds ms)) = length ds)
  /\ build_context_from_results dune_hit 1 =
       Ok (py "Title: Dune" ++ nl ++ py "Summary: A desert planet saga.").
Proof.
  intros Hd Hm. split; [|split; [|split]].
  - intros d title md -> -> -> Ht.
    rewrite (build_context_spec r 1 [d] [VDict md] Hd Hm).
    + unfold render, shown_title, field_or, slice_to. simpl. now rewrite Ht.
    + repeat constructor.
  - intros -> ->. rewrite (build_context_spec r k [] [] Hd Hm).
    + simpl. now rewrite slice_to_nil.
    + simpl. rewrite slice_to_nil. constructor.
  - intros Hl Hk Hr.
    assert (length (combine ds ms) = length ds) as Hc
      by (rewrite length_combine; lia).
    split; [|now rewrite length_map].
    rewrite (build_context_spec r k ds ms Hd Hm).
    + rewrite slice_to_all by lia. reflexivity.
    + apply records_slice, records_combine, Hr.
  - reflexivity.
Qed.

Lemma build_context_hits_witness :
  @build_context_from_results Ref.python (VDict two_hits) 5 =
    Ok (py "Title: Dune" ++ nl ++ py "Summary: A desert planet saga."
        ++ nl ++ nl ++ py "Title: Unknown" ++ nl ++ py "Summary: ")
  /\ @build_context_from_results Ref.python (VDict two_hits) 5 =
       Ok (join (nl ++ nl)
             (map (@render Ref.python)
                (combine [VStr (py "A desert planet saga."); VStr []]
                   [VDict [(py "title", VStr (py "Dune"));
                           (py "themes", VStr (py "scifi"))];
                    VDict [(py "themes", VStr [])]]))).
Proof.
  split; [reflexivity|].
  apply (@build_context_hits Ref.python two_hits 5 _ _ eq_refl eq_refl).
  - reflexivity.
  - simpl. lia.
  - repeat constructor.
Defined.

(** C10.  For every reply whose retained metadata are records, whatever
    the lengths of its two lists: build_context_from_results raises
    nothing, pairs documents and metadata by position up to the shorter
    list, the rest of the longer one being dropped, and shows the title
    Unknown for a record without a title key. *)
Theorem build_context_total {P : Python}
  (r : list (str * value)) (k : Z) (ds ms : list value) :
  hit_list r (py "documents") = Some ds ->
  hit_list r (py "metadatas") = Some ms ->
  records (slice_to k (combine ds ms)) ->
  let n := Nat.min (length ds) (length ms) in
  build_context_from_results (VDict r) k =
    Ok (join (nl ++ nl) (map render (slice_to k (combine ds ms))))
  /\ build_context_from_results (VDict r) k =
       build_context_from_results
         (query_result (firstn n ds) (firstn n ms)) k
  /\ length (combine ds ms) = n
  /\ forall (d : value) (md : list (str * value)),
       dict_get md (py "title") = None ->
       render (d, VDict md) =
         py "Title: Unknown" ++ nl ++ py "Summary: " ++ str_of d.
Proof.
  intros Hd Hm Hr n.
  assert (combine (firstn n ds) (firstn n ms) = combine ds ms) as Hc.
  { subst n. clear. revert ms.
    induction ds as [|d ds IH]; intros [|m ms]; simpl; auto.
    now rewrite IH. }
  split; [|split; [|split]].
  - now apply build_context_spec.
  - rewrite (build_context_spec r k ds ms Hd Hm Hr).
    unfold query_result.
    rewrite (build_context_spec
               [(py "documents", VList [VList (firstn n ds)]);
                (py "metadatas", VList [VList (firstn n ms)])]
               k (firstn n ds) (firstn n ms) eq_refl eq_refl).
    + now rewrite Hc.
    + now rewrite Hc.
  - apply length_combine.
  - intros d md H. unfold render, shown_title, field_or. simpl.
    now rewrite H.
Qed.

Lemma build_context_total_witness :
  @build_context_from_results Ref.python (VDict uneven_hits) 1 =
    Ok (py "Title: Unknown" ++ nl ++ py "Summary: A desert planet saga.").
Proof.
  destruct (@build_context_total Ref.python uneven_hits 1
              uneven_docs uneven_metas eq_refl eq_refl)
    as (H & _).
  - repeat constructor.
  - exact H.
Defined.

(** ** Summary tool *)

(** C4.  For every catalog of the annotated type and every title: the
    tool returns the empty string when the title is not a key of the
    catalog; for a key it returns the stored summary, or the empty
    string when none is stored; and it returns a non-empty summary only
    for a title that is, character for character, a key of the catalog,
    so that dune, which differs from the key Dune in case only, gets
    the empty string. *)
Theorem summary_tool_lookup (books : BooksDict) (title : str) :
  is_BooksDict books = true ->
  (books_get books (VStr title) = None ->
   make_get_summary_tool books (VStr title) = Ok (VStr []))
  /\ (forall (summary : value) (themes : list value),
        books_get books (VStr title) = Some (summary, themes) ->
        make_get_summary_tool books (VStr title) = Ok (doc_of summary))
  /\ (forall answer : value,
        make_get_summary_tool books (VStr title) = Ok answer ->
        answer <> VStr [] ->
        exists e : entry, In (VStr title, e) books)
  /\ make_get_summary_tool dune_books (VStr (py "dune")) = Ok (VStr [])
  /\ make_get_summary_tool dune_books (VStr (py "Dune")) =
       Ok (VStr (py "A desert planet saga.")).
Proof.
  intros Hb. unfold make_get_summary_tool. simpl hashable. cbv iota.
  split; [|split; [|split; [|split]]]; try reflexivity.
  - now intros ->.
  - intros summary themes H. rewrite H.
    rewrite py_or_doc; [reflexivity|].
    eapply books_get_typed; eauto.
  - intros answer H Hne.
    destruct (books_get books (VStr title)) as [[summary themes]|] eqn:G.
    + destruct (books_get_In _ _ _ G) as (k & Hin & Hk).
      unfold is_BooksDict in Hb. rewrite forallb_forall in Hb.
      pose proof (Hb _ Hin) as Ht. simpl in Ht.
      apply andb_prop in Ht as [Ht _]. apply andb_prop in Ht as [Ht _].
      destruct (is_str_inv _ Ht) as (s & ->). simpl in Hk.
      apply str_eqb_eq in Hk. subst s. now exists (summary, themes).
    + congruence.
Qed.

Lemma summary_tool_lookup_witness :
  is_BooksDict two_books = true
  /\ make_get_summary_tool two_books (VStr (py "Emma")) = Ok (VStr [])
  /\ make_get_summary_tool two_books (VStr (py "emma")) = Ok (VStr []).
Proof.
  destruct (summary_tool_lookup two_books (py "Emma") eq_refl)
    as (_ & H & _).
  destruct (summary_tool_lookup two_books (py "emma") eq_refl)
    as (H' & _).
  split; [reflexivity|]. split.
  - exact (H VNone [] eq_refl).
  - exact (H' eq_refl).
Defined.

(** ** Slug *)

(** C5, as the specification states it, fails on a title whose 60th
    character is an underscore inside the text: the cut at 60
    characters leaves the underscore at the end, and a second pass
    strips it. *)
Lemma safe_slug_not_idempotent :
  Slug._safe_slug (Slug._safe_slug long_title) <> Slug._safe_slug long_title.
Proof. vm_compute. discriminate. Qed.

(** C5, amended.  For every string, a second application of _safe_slug
    gives the first result without its trailing underscores; it gives
    the first result itself whenever the substituted and stripped text
    has at most 60 characters.  A string of forbidden characters only
    gives the fallback output, and no result is longer than 60
    characters. *)
Theorem safe_slug_second_pass (s : str) :
  Slug._safe_slug (Slug._safe_slug s)
    = rstrip_by Slug.is_underscore (Slug._safe_slug s)
  /\ (length (strip_by Slug.is_underscore (Slug.re_sub s)) <= 60 ->
      Slug._safe_slug (Slug._safe_slug s) = Slug._safe_slug s)
  /\ (forallb (fun c => negb (Slug.keep c)) s = true ->
      Slug._safe_slug s = py "output")
  /\ length (Slug._safe_slug s) <= 60.
Proof.
  split; [|split; [|split]].
  - apply SlugFacts.safe_slug_rstrip.
  - apply SlugFacts.safe_slug_short.
  - apply SlugFacts.safe_slug_forbidden.
  - apply SlugFacts.safe_slug_length.
Qed.

Lemma safe_slug_second_pass_witness :
  Slug._safe_slug (Slug._safe_slug (py "War & Peace!"))
    = Slug._safe_slug (py "War & Peace!")
  /\ Slug._safe_slug (py "?!") = py "output".
Proof.
  split.
  - apply (safe_slug_second_pass (py "War & Peace!")). vm_compute.
    repeat constructor.
  - apply (safe_slug_second_pass (py "?!")). reflexivity.
Defined.

(** ** Orchestrator *)




(** C7.  In every run the events of the media step, its two questions
    and its two calls, occur only after a final answer whose status is
    ok and whose title is not empty.  When the text of the final reply
    does not decode, the run prints that text after the words Raw
    response, ends normally, and has no media event.  A final answer
    with status no_match leads to no media event. *)
Theorem media_only_after_ok {P : Python} (w : world) :
  (existsb is_media (fst (main w)) = true ->
   exists (books : BooksDict) (fd : value),
     snd (resolve w) = Ok (Some (books, fd)) /\ has_ok_title fd)
  /\ (forall final : response,
        w_final w = Ok final ->
        json_loads (str_or (output_text final) (py "{}")) = None ->
        existsb is_tool_output (fst (main w)) = true ->
        exists pre : list event,
          fst (main w) =
            pre ++ [Print (nl ++ py "Raw response:" ++ nl ++ py " "
                           ++ output_text final ++ nl)] /\
          snd (main w) = Ok tt /\
          existsb is_media (fst (main w)) = false)
  /\ (forall (books : BooksDict) (d : list (str * value)),
        snd (resolve w) = Ok (Some (books, VDict d)) ->
        eq_str (field d (py "status")) (py "no_match") = true ->
        existsb is_media (fst (main w)) = false).
Proof.
  split; [|split].
  - apply main_media_guard.
  - intros final Hf Hj Ht.
    destruct (main_raw w final Hf Hj Ht) as (pre & H1 & H2 & H3).
    exists pre. repeat split; assumption.
  - apply main_no_match.
Qed.

Lemma media_only_after_ok_witness :
  (exists (books : BooksDict) (fd : value),
     snd (@resolve Ref.python (world_of ok_final "Yes"))
       = Ok (Some (books, fd)) /\ has_ok_title fd)
  /\ (exists pre : list event,
        fst (@main Ref.python (world_of "oops" "Yes")) =
          pre ++ [Print (nl ++ py "Raw response:" ++ nl ++ py " oops" ++ nl)])
  /\ existsb is_media
       (fst (@main Ref.python (world_of "{'status': 'no_match'}" "Yes")))
     = false.
Proof.
  split; [|split].
  - apply (@media_only_after_ok Ref.python (world_of ok_final "Yes")).
    vm_compute. reflexivity.
  - destruct (proj1 (proj2
                (@media_only_after_ok Ref.python (world_of "oops" "Yes")))
                (final_reply "oops") eq_refl eq_refl eq_refl)
      as (pre & H & _).
    exists pre. exact H.
  - apply (proj2 (proj2
             (@media_only_after_ok Ref.python
                (world_of "{'status': 'no_match'}" "Yes")))
             dune_books [(py "status", VStr (py "no_match"))]).
    + vm_compute. reflexivity.
    + reflexivity.
Defined.

(** C8, as the specification states it, fails on a title argument made
    of blanks: it is not empty, yet the fallback is substituted and the
    tool answers for the fallback, where the tool called with the
    argument itself answers the empty string.  An argument with blanks
    around a title is used without them. *)
Lemma tool_title_blank_argument :
  @resolve_tool_call Ref.python dune_books (VStr (py "Dune"))
     (VDict (tool_call "{'title': '   '}"))
    = Ok (VStr (py "call_1"), VStr (py "A desert planet saga."))
  /\ make_get_summary_tool dune_books (VStr (py "   ")) = Ok (VStr [])
  /\ title_argument (VDict [(py "title", VStr (py " Dune "))]) VNone
       = Ok (VStr (py "Dune"))
  /\ VStr (py "Dune") <> VStr (py " Dune ").
Proof.
  repeat split; try reflexivity. discriminate.
Qed.

(** C8, amended.  In the step that resolves the tool call, for every
    argument record whose title is a string or missing: the summary
    tool is called with the title argument stripped of the whitespace
    around it; when the stripped argument is empty and the retrieval
    remembered a fallback, with the fallback; when no fallback was
    remembered an empty title stays empty.  A fallback is remembered
    exactly when the titles of the retrieved metadata are one distinct
    title: none, or two distinct ones, leave no fallback. *)
Theorem tool_title_resolution {P : Python}
  (books : BooksDict) (only_title : value)
  (c d : list (str * value)) (t : str) :
  eq_str (field c (py "name")) SUMMARY_TOOL_name = true ->
  loads_or_empty (py_or (field c (py "arguments")) (VStr (py "{}")))
    = Ok (VDict d) ->
  py_or (field d (py "title")) (VStr []) = VStr t ->
  (exists title_arg : value,
     title_argument (VDict d) only_title = Ok title_arg /\
     resolve_tool_call books only_title (VDict c) =
       (r <- make_get_summary_tool books title_arg ;;
        Ok (py_or (field c (py "call_id")) (field c (py "id")),
            py_or r (VStr []))) /\
     (strip t <> [] -> title_arg = VStr (strip t)) /\
     (strip t = [] -> truthy only_title = true -> title_arg = only_title) /\
     (strip t = [] -> only_title = VNone -> title_arg = VStr []))
  /\ (forall (r : list (str * value)) (ms : list value),
        hit_list r (py "metadatas") = Some ms ->
        forallb str_titled ms = true ->
        (forall u : str,
           In u (titles_in ms) ->
           (forall t', In t' (titles_in ms) -> t' = u) ->
           only_title_of (VDict r) = Ok (VStr u))
        /\ (titles_in ms = [] -> only_title_of (VDict r) = Ok VNone)
        /\ (forall t1 t2 : str,
              In t1 (titles_in ms) -> In t2 (titles_in ms) -> t1 <> t2 ->
              only_title_of (VDict r) = Ok VNone)).
Proof.
  intros Hn Ha Ht. split.
  - exists (resolved_title t only_title).
    split; [now apply title_argument_spec|].
    split; [now apply (resolve_tool_call_spec books only_title c d t)|].
    unfold resolved_title. repeat split.
    + destruct (strip t); congruence.
    + intros -> ->. reflexivity.
    + intros -> ->. reflexivity.
  - intros r ms Hm Hs. repeat split.
    + intros u. now apply only_title_one.
    + now apply only_title_zero.
    + intros t1 t2. now apply only_title_many.
Qed.

Lemma tool_title_resolution_witness :
  @resolve_tool_call Ref.python dune_books (VStr (py "Dune"))
     (VDict (tool_call "{'title': '  '}"))
    = Ok (VStr (py "call_1"), VStr (py "A desert planet saga."))
  /\ only_title_of dune_hit = Ok (VStr (py "Dune")).
Proof.
  destruct (@tool_title_resolution Ref.python dune_books (VStr (py "Dune"))
              (tool_call "{'title': '  '}")
              [(py "title", VStr (py "  "))] (py "  ")
              eq_refl eq_refl eq_refl)
    as ((title_arg & _ & Hcall & _ & Hfall & _) & Honly).
  split.
  - rewrite Hcall, (Hfall eq_refl eq_refl). reflexivity.
  - destruct (Honly
                [(py "documents", VList [VList [VStr (py "A desert planet saga.")]]);
                 (py "metadatas",
                  VList [VList [VDict [(py "title", VStr (py "Dune"));
                                       (py "themes", VStr (py "scifi"))]]])]
                [VDict [(py "title", VStr (py "Dune"));
                        (py "themes", VStr (py "scifi"))]]
                eq_refl eq_refl) as (Hone & _).
    apply (Hone (py "Dune")).
    + left. reflexivity.
    + intros t' [<-|[]]. reflexivity.
Defined.

(** * Further properties *)

(** ** Catalog loader *)

Section LoaderFacts.

Context {P : Python}.

Lemma parse_lines_app l1 : forall l2 books,
  parse_lines (l1 ++ l2) books =
    (b <- parse_lines l1 books ;; parse_lines l2 b).
Proof.
  induction l1 as [|line rest IH]; intros l2 books; simpl; [reflexivity|].
  destruct (blank line); [apply IH|].
  destruct (json_loads line) as [row|]; [|apply IH].
  destruct (parse_row books row); simpl; [apply IH|reflexivity].
Qed.

Lemma lines_from_line body : forall cur,
  existsb (N.eqb 10) body = false ->
  forall rest,
    lines_from cur (body ++ 10%N :: rest) =
      (rev cur ++ body ++ [10%N]) :: lines_from [] rest.
Proof.
  induction body as [|c t IH]; intros cur H rest.
  - reflexivity.
  - cbn [existsb] in H. apply orb_false_elim in H as [Hc Ht].
    rewrite N.eqb_sym in Hc. cbn [app lines_from]. rewrite Hc.
    rewrite (IH (c :: cur) Ht). cbn [rev]. now rewrite <- app_assoc.
Qed.

Lemma existsb_rev {A : Type} (f : A -> bool) (l : list A) :
  existsb f (rev l) = existsb f l.
Proof.
  induction l as [|a t IH]; [reflexivity|].
  cbn [rev existsb]. rewrite existsb_app, IH. cbn [existsb].
  rewrite orb_false_r. apply orb_comm.
Qed.

Lemma is_line_inv l :
  is_line l = true ->
  exists body, l = body ++ [10%N] /\ existsb (N.eqb 10) body = false.
Proof.
  unfold is_line. destruct (rev l) as [|c body] eqn:E; [discriminate|].
  intros H. apply andb_prop in H as [Hc Hb]. apply N.eqb_eq in Hc. subst c.
  exists (rev body). split.
  - rewrite <- (rev_involutive l), E. reflexivity.
  - apply negb_true_iff in Hb. rewrite <- Hb. apply existsb_rev.
Qed.

(** A file made of lines has these lines. *)
Lemma readlines_concat lines :
  forallb is_line lines = true -> readlines (concat lines) = lines.
Proof.
  unfold readlines. induction lines as [|l rest IH]; simpl; intros H.
  - reflexivity.
  - apply andb_prop in H as [Hl Hr].
    destruct (is_line_inv l Hl) as (body & -> & Hb).
    rewrite <- app_assoc. simpl.
    rewrite (lines_from_line body [] Hb). simpl. now rewrite IH.
Qed.

Lemma books_set_keys books k e :
  map fst (books_set books k e) = map fst books \/
  map fst (books_set books k e) = map fst books ++ [k].
Proof.
  induction books as [|[k' e'] rest IH]; simpl; [now right|].
  destruct (key_eqb k' k); simpl; [now left|].
  destruct IH as [-> | ->]; auto.
Qed.

Lemma books_set_known books k e :
  books_get books k <> None ->
  map fst (books_set books k e) = map fst books.
Proof.
  induction books as [|[k' e'] rest IH]; simpl; [congruence|].
  destruct (key_eqb k' k); simpl; [reflexivity|].
  intros H. now rewrite IH.
Qed.

Lemma books_set_distinct books k e :
  distinct_keys (map fst books) = true ->
  distinct_keys (map fst (books_set books k e)) = true.
Proof.
  induction books as [|[k' e'] rest IH]; simpl; [reflexivity|].
  intros H. apply andb_prop in H as [Hk Hr].
  destruct (key_eqb k' k) eqn:E; simpl.
  - now rewrite Hk, Hr.
  - rewrite (IH Hr), andb_true_r.
    destruct (books_set_keys rest k e) as [-> | ->]; [exact Hk|].
    rewrite existsb_app. simpl. rewrite E.
    apply negb_true_iff in Hk. now rewrite Hk.
Qed.

Lemma books_set_hashable books k e :
  Forall (fun kv => hashable (fst kv) = true) books -> hashable k = true ->
  Forall (fun kv => hashable (fst kv) = true) (books_set books k e).
Proof.
  induction 1 as [|[k' e'] rest Hk Hr IH]; intros Hh; simpl.
  - repeat constructor. exact Hh.
  - destruct (key_eqb k' k); constructor; auto.
Qed.

Lemma parse_row_keyed books row books' :
  parse_row books row = Ok books' -> well_keyed books -> well_keyed books'.
Proof.
  intros H [Hh Hd]. destruct (parse_row_cases _ _ _ H) as (d & -> & Hc).
  destruct (dict_get d (py "title")) as [t|]; [|subst; now split].
  destruct (truthy t); [|subst; now split].
  destruct Hc as (Ht & ->). split.
  - now apply books_set_hashable.
  - now apply books_set_distinct.
Qed.

Lemma parse_lines_keyed lines : forall books books',
  parse_lines lines books = Ok books' -> well_keyed books -> well_keyed books'.
Proof.
  induction lines as [|line rest IH]; intros books books' H Hw; simpl in H.
  - now injection H as <-.
  - destruct (blank line); [now apply (IH books)|].
    destruct (json_loads line) as [row|]; [|now apply (IH books)].
    destruct (parse_row books row) as [b1|] eqn:R; simpl in H;
      [|discriminate].
    apply (IH b1); [exact H|]. now apply (parse_row_keyed books row).
Qed.

Lemma books_get_of_In books k e :
  well_keyed books -> In (k, e) books -> books_get books k = Some e.
Proof.
  intros [Hh Hd]. induction books as [|[k0 e0] rest IH]; simpl;
    [contradiction|].
  inversion Hh as [|? ? Hk0 Hrest]; subst. simpl in Hd, Hk0.
  apply andb_prop in Hd as [Hn Hd].
  intros [[= -> ->]|Hin].
  - now rewrite key_eqb_refl.
  - assert (key_eqb k0 k = false) as E.
    { apply negb_true_iff in Hn.
      destruct (key_eqb k0 k) eqn:E; [|reflexivity].
      rewrite <- Hn. symmetry. apply existsb_exists. exists k. split; auto.
      apply (in_map fst) in Hin. exact Hin. }
    rewrite E. now apply IH.
Qed.

Lemma books_set_In books k e k1 e1 :
  hashable k = true ->
  In (k1, e1) (books_set books k e) ->
  In (k1, e1) books \/ (e1 = e /\ key_eqb k1 k = true).
Proof.
  intros Hh. induction books as [|[k' e'] rest IH]; simpl.
  - intros [[= <- <-]|[]]. right. split; [reflexivity|].
    now apply key_eqb_refl.
  - destruct (key_eqb k' k) eqn:E; simpl.
    + intros [[= <- <-]|Hin]; auto.
    + intros [Heq|Hin]; auto. destruct (IH Hin) as [H|H]; auto.
Qed.

(** Where an entry of the catalog comes from. *)
Lemma parse_lines_origin lines : forall books books' k e,
  parse_lines lines books = Ok books' -> In (k, e) books' ->
  In (k, e) books \/
  exists line d t,
    In line lines /\ blank line = false /\
    json_loads line = Some (VDict d) /\
    dict_get d (py "title") = Some t /\ truthy t = true /\
    key_eqb k t = true /\ e = entry_of d.
Proof.
  induction lines as [|line rest IH]; intros books books' k e H Hin;
    simpl in H.
  - injection H as <-. now left.
  - destruct (blank line) eqn:B.
    { destruct (IH _ _ _ _ H Hin) as [Hl|(l & d & t & Hl & Hr)]; auto.
      right. exists l, d, t. split; [now right|exact Hr]. }
    destruct (json_loads line) as [row|] eqn:J.
    2:{ destruct (IH _ _ _ _ H Hin) as [Hl|(l & d & t & Hl & Hr)]; auto.
        right. exists l, d, t. split; [now right|exact Hr]. }
    destruct (parse_row books row) as [b1|] eqn:R; simpl in H;
      [|discriminate].
    destruct (IH _ _ _ _ H Hin) as [Hl|(l & d & t & Hl & Hr)].
    2:{ right. exists l, d, t. split; [now right|exact Hr]. }
    destruct (parse_row_cases _ _ _ R) as (d & -> & Hc).
    destruct (dict_get d (py "title")) as [t|] eqn:T; [|subst; now left].
    destruct (truthy t) eqn:Tt; [|subst; now left].
    destruct Hc as (Hh & ->).
    destruct (books_set_In _ _ _ _ _ Hh Hl) as [Hb|(-> & Hk)]; [now left|].
    right. exists line, d, t. repeat split; auto. now left.
Qed.

Lemma parse_lines_fatal lines : forall books,
  (existsb fatal lines = false ->
   exists books', parse_lines lines books = Ok books') /\
  (existsb fatal lines = true ->
   parse_lines lines books = Raise AttributeError \/
   parse_lines lines books = Raise TypeError).
Proof.
  induction lines as [|line rest IH]; intros books; simpl.
  - split; [now exists books|discriminate].
  - unfold fatal at 1 3.
    destruct (blank line); simpl; [apply IH|].
    destruct (json_loads line) as [row|]; simpl; [|apply IH].
    destruct row as [| | | | | |d];
      try (split; [discriminate|intros _; now left]).
    unfold parse_row. simpl.
    destruct (dict_get d (py "title")) as [t|]; simpl; [|apply IH].
    destruct (truthy t); simpl; [|apply IH].
    unfold books_setitem.
    destruct (hashable t); simpl; [apply IH|].
    split; [discriminate|intros _; now right].
Qed.

(** What an exception of the loop says about the lines. *)
Lemma parse_lines_raise lines : forall books e,
  parse_lines lines books = Raise e ->
  (e = AttributeError /\
   exists line v,
     In line lines /\ blank line = false /\
     json_loads line = Some v /\ is_dict v = false)
  \/
  (e = TypeError /\
   exists line d t,
     In line lines /\ blank line = false /\
     json_loads line = Some (VDict d) /\
     dict_get d (py "title") = Some t /\
     truthy t = true /\ hashable t = false).
Proof.
  induction lines as [|line rest IH]; intros books e; simpl;
    [discriminate|].
  assert (forall b, parse_lines rest b = Raise e ->
            (e = AttributeError /\
             exists l v,
               In l (line :: rest) /\ blank l = false /\
               json_loads l = Some v /\ is_dict v = false)
            \/
            (e = TypeError /\
             exists l d t,
               In l (line :: rest) /\ blank l = false /\
               json_loads l = Some (VDict d) /\
               dict_get d (py "title") = Some t /\
               truthy t = true /\ hashable t = false)) as Hrest.
  { intros b Hb.
    destruct (IH b e Hb) as [(He & l & v & H1 & H)|(He & l & d & t & H1 & H)].
    - left. split; [exact He|]. exists l, v. split; [now right|exact H].
    - right. split; [exact He|]. exists l, d, t.
      split; [now right|exact H]. }
  destruct (blank line) eqn:B; [apply Hrest|].
  destruct (json_loads line) as [row|] eqn:J; [|apply Hrest].
  destruct row as [| | | | | |d];
    try (simpl; intros [= <-]; left; split; [reflexivity|];
         eexists line, _; split; [now left|];
         split; [exact B|]; split; [exact J|reflexivity]).
  unfold parse_row. simpl.
  destruct (dict_get d (py "title")) as [t|] eqn:T; simpl; [|apply Hrest].
  destruct (truthy t) eqn:Tt; simpl; [|apply Hrest].
  unfold books_setitem.
  destruct (hashable t) eqn:Hh; simpl; [apply Hrest|].
  intros [= <-]. right. split; [reflexivity|].
  exists line, d, t. split; [now left|]. repeat split; assumption.
Qed.

End LoaderFacts.

(** X1.  When parse_json returns, the catalog is a well-formed dict of
    titled entries: every key is a non-empty title that can be a dict
    key, no two keys are the same key, and there are no more entries
    than non-blank lines in the file. *)
Theorem parse_json_catalog {P : Python} (text : str) (books : BooksDict) :
  parse_json text = Ok books ->
  Forall (fun kv => truthy (fst kv) = true /\ hashable (fst kv) = true) books
  /\ distinct_keys (map fst books) = true
  /\ length books <= length (nonblank (readlines text)).
Proof.
  intros H. destruct (parse_json_sound text books H) as (Ht & Hl).
  assert (well_keyed books) as [Hh Hd].
  { apply (parse_lines_keyed (readlines text) [] books H).
    split; [constructor|reflexivity]. }
  repeat split; auto.
  rewrite Forall_forall in *. intros kv Hin. split; [apply Ht|apply Hh]; auto.
Qed.

Lemma parse_json_catalog_witness :
  @parse_json Ref.python (dune_line ++ nl ++ nl ++ dune_line ++ nl)
    = Ok dune_books
  /\ distinct_keys (map fst dune_books) = true
  /\ length dune_books <= 2.
Proof.
  assert (@parse_json Ref.python (dune_line ++ nl ++ nl ++ dune_line ++ nl)
          = Ok dune_books) as H by (vm_compute; reflexivity).
  destruct (@parse_json_catalog Ref.python _ _ H) as (_ & Hd & Hl).
  repeat split; assumption.
Defined.

(** X2.  parse_json and the fatal lines, the non-blank lines that
    decode to something other than a record or to a record whose
    non-empty title cannot be a dict key.  parse_json never returns on
    a file with a fatal line.  When it raises AttributeError, a
    non-blank line of the file decodes to something that is not a
    record; when it raises TypeError, a non-blank line decodes to a
    record whose title is not empty and cannot be a dict key. *)
Theorem parse_json_fatal_lines {P : Python} (text : str) :
  (forall books,
     parse_json text = Ok books -> existsb fatal (readlines text) = false)
  /\ (parse_json text = Raise AttributeError ->
      exists line v,
        In line (readlines text) /\ blank line = false /\
        json_loads line = Some v /\ is_dict v = false)
  /\ (parse_json text = Raise TypeError ->
      exists line d t,
        In line (readlines text) /\ blank line = false /\
        json_loads line = Some (VDict d) /\
        dict_get d (py "title") = Some t /\
        truthy t = true /\ hashable t = false).
Proof.
  split; [|split].
  - intros books H.
    destruct (existsb fatal (readlines text)) eqn:F; [|reflexivity].
    destruct (proj2 (parse_lines_fatal (readlines text) []) F) as [E|E];
      unfold parse_json in H; rewrite E in H; discriminate H.
  - intros H.
    destruct (parse_lines_raise (readlines text) [] _ H)
      as [(_ & line & v & H1 & H2 & H3 & H4)|(E & _)];
      [|discriminate E].
    now exists line, v.
  - intros H.
    destruct (parse_lines_raise (readlines text) [] _ H)
      as [(E & _)|(_ & line & d & t & H1 & H2 & H3 & H4 & H5 & H6)];
      [discriminate E|].
    now exists line, d, t.
Qed.

Lemma parse_json_fatal_lines_witness :
  existsb (@fatal Ref.python)
    (readlines (json_text "not json" ++ nl ++ dune_line ++ nl)) = false
  /\ (exists line v,
        In line (readlines list_line_catalog) /\ blank line = false /\
        @json_loads Ref.python line = Some v /\ is_dict v = false)
  /\ (exists line d t,
        In line (readlines (json_text "{'title': ['Dune']}")) /\
        blank line = false /\
        @json_loads Ref.python line = Some (VDict d) /\
        dict_get d (py "title") = Some t /\
        truthy t = true /\ hashable t = false).
Proof.
  split; [|split].
  - apply (proj1 (@parse_json_fatal_lines Ref.python
                    (json_text "not json" ++ nl ++ dune_line ++ nl))
             dune_books).
    vm_compute. reflexivity.
  - apply (@parse_json_fatal_lines Ref.python list_line_catalog).
    vm_compute. reflexivity.
  - apply (@parse_json_fatal_lines Ref.python
             (json_text "{'title': ['Dune']}")).
    vm_compute. reflexivity.
Defined.

(** X3.  A line that is blank, does not decode, or decodes to a record
    without a title contributes nothing: the file without that line
    gives the same result, whatever the other lines are. *)
Theorem parse_json_skips_line {P : Python} (before after : list str)
  (line : str) :
  forallb is_line (before ++ line :: after) = true ->
  skipped line ->
  parse_json (concat (before ++ line :: after)) =
    parse_json (concat (before ++ after)).
Proof.
  intros Hl Hs. unfold parse_json.
  rewrite (readlines_concat _ Hl).
  rewrite readlines_concat.
  - rewrite !parse_lines_app.
    destruct (parse_lines before []) as [b|e]; simpl; [|reflexivity].
    apply (parse_lines_skip line after b Hs).
  - rewrite forallb_app in *. simpl in Hl.
    apply andb_prop in Hl as [H1 H2]. apply andb_prop in H2 as [_ H2].
    now rewrite H1, H2.
Qed.

Lemma parse_json_skips_line_witness :
  @parse_json Ref.python
    (concat ([dune_line ++ nl] ++ (json_text "{'summary_short': 'x'}" ++ nl)
               :: [empty_themes_line ++ nl]))
  = @parse_json Ref.python
      (concat ([dune_line ++ nl] ++ [empty_themes_line ++ nl])).
Proof.
  apply (@parse_json_skips_line Ref.python).
  - vm_compute. reflexivity.
  - right. right. eexists. split; vm_compute; reflexivity.
Defined.

(** X4.  The last record of a title wins: a titled record at the end of
    the file sets the entry of its title to the summary and themes of
    that record; when the title was already a key, the catalog keeps
    its keys, their order and its size. *)
Theorem parse_json_last_record_wins {P : Python}
  (lines : list str) (line : str) (books : BooksDict)
  (d : list (str * value)) (t : value) :
  forallb is_line (lines ++ [line]) = true ->
  parse_json (concat lines) = Ok books ->
  blank line = false ->
  json_loads line = Some (VDict d) ->
  dict_get d (py "title") = Some t ->
  truthy t = true ->
  hashable t = true ->
  exists books',
    parse_json (concat (lines ++ [line])) = Ok books' /\
    books_get books' t = Some (entry_of d) /\
    (books_get books t <> None ->
     map fst books' = map fst books /\ length books' = length books).
Proof.
  intros Hl Hb Hnb Hj Ht Htr Hh.
  exists (books_set books t (entry_of d)).
  assert (forallb is_line lines = true) as Hl'.
  { rewrite forallb_app in Hl. now apply andb_prop in Hl as [H _]. }
  unfold parse_json in *. rewrite (readlines_concat _ Hl') in Hb.
  rewrite (readlines_concat _ Hl), parse_lines_app, Hb. simpl.
  rewrite Hnb, Hj. unfold parse_row. simpl. rewrite Ht. simpl.
  rewrite Htr. simpl. unfold books_setitem. rewrite Hh. simpl.
  split; [reflexivity|]. split; [now apply books_get_set|].
  intros Hk. pose proof (books_set_known books t (entry_of d) Hk) as E.
  split; [exact E|].
  rewrite <- (length_map fst), E. apply length_map.
Qed.

Lemma parse_json_last_record_wins_witness :
  exists books',
    @parse_json Ref.python (concat ([dune_line ++ nl]
                                    ++ [empty_themes_line ++ nl]))
      = Ok books' /\
    books_get books' (VStr (py "Dune")) = Some (VNone, []) /\
    length books' = 1.
Proof.
  destruct (@parse_json_last_record_wins Ref.python
              [dune_line ++ nl] (empty_themes_line ++ nl) dune_books
              [(py "title", VStr (py "Dune")); (py "themes", VStr [])]
              (VStr (py "Dune")))
    as (b & H1 & H2 & H3); try (vm_compute; reflexivity).
  exists b. split; [exact H1|]. split; [exact H2|].
  apply H3. discriminate.
Defined.

(** X5.  Loading and looking up agree: when parse_json returns, the
    summary tool called with the key of any entry of the catalog
    returns the summary of that entry, or the empty string when the
    summary is absent or empty. *)
Theorem tool_finds_every_entry {P : Python} (text : str) (books : BooksDict)
  (k summary : value) (themes : list value) :
  parse_json text = Ok books ->
  In (k, (summary, themes)) books ->
  make_get_summary_tool books k = Ok (py_or summary (VStr [])).
Proof.
  intros H Hin.
  assert (well_keyed books) as Hw.
  { apply (parse_lines_keyed (readlines text) [] books H).
    split; [constructor|reflexivity]. }
  pose proof Hw as [Hh _]. rewrite Forall_forall in Hh.
  pose proof (Hh _ Hin) as Hk. simpl in Hk.
  unfold make_get_summary_tool. rewrite Hk.
  now rewrite (books_get_of_In books k (summary, themes) Hw Hin).
Qed.

Lemma tool_finds_every_entry_witness :
  make_get_summary_tool dune_books (VStr (py "Dune"))
    = Ok (VStr (py "A desert planet saga.")).
Proof.
  apply (@tool_finds_every_entry Ref.python (dune_line ++ nl) dune_books
           (VStr (py "Dune")) (VStr (py "A desert planet saga."))
           [VStr (py "scifi")]).
  - vm_compute. reflexivity.
  - left. reflexivity.
Defined.

(** X6.  parse_json invents nothing: every entry of the catalog it
    returns is the summary and themes of a non-blank line of the file
    that decodes to a record whose non-empty title is the key of the
    entry. *)
Theorem parse_json_entries_come_from_lines {P : Python}
  (text : str) (books : BooksDict) (k : value) (e : entry) :
  parse_json text = Ok books ->
  In (k, e) books ->
  exists line d t,
    In line (readlines text) /\ blank line = false /\
    json_loads line = Some (VDict d) /\
    dict_get d (py "title") = Some t /\ truthy t = true /\
    key_eqb k t = true /\
    e = (field d (py "summary_short"), themes_of (field d (py "themes"))).
Proof.
  intros H Hin.
  destruct (parse_lines_origin _ _ _ _ _ H Hin) as [[]|Hr]. exact Hr.
Qed.

Lemma parse_json_entries_come_from_lines_witness :
  exists line d t,
    In line (readlines (dune_line ++ nl)) /\ blank line = false /\
    @json_loads Ref.python line = Some (VDict d) /\
    dict_get d (py "title") = Some t /\ truthy t = true /\
    key_eqb (VStr (py "Dune")) t = true /\
    (VStr (py "A desert planet saga."), [VStr (py "scifi")])
      = (field d (py "summary_short"),
         @themes_of Ref.python (field d (py "themes"))).
Proof.
  apply (@parse_json_entries_come_from_lines Ref.python (dune_line ++ nl)
           dune_books).
  - vm_compute. reflexivity.
  - left. reflexivity.
Defined.

(** ** Vector payload builder *)

Section PayloadMore.

Lemma strs_of_bad items :
  forallb is_str items = false -> strs_of items = Raise TypeError.
Proof.
  induction items as [|v t IH]; simpl; [discriminate|].
  destruct v; simpl; try reflexivity. intros H. now rewrite (IH H).
Qed.

Lemma strs_of_tags items :
  forallb is_str items = true -> strs_of items = Ok (tags_of items).
Proof.
  intros H. destruct (all_str_inv _ H) as (ss & ->).
  now rewrite strs_of_strs, tags_of_strs.
Qed.

Lemma payload_loop_any items : forall ids docs metas,
  (forallb themes_are_strings items = true ->
   payload_loop items ids docs metas =
     Ok (ids ++ map fst items, docs ++ map doc_or_empty items,
         metas ++ map meta_at items))
  /\ (forallb themes_are_strings items = false ->
      payload_loop items ids docs metas = Raise TypeError).
Proof.
  induction items as [|[title [summary themes]] rest IH];
    intros ids docs metas; simpl.
  - split; [now rewrite !app_nil_r|discriminate].
  - unfold themes_are_strings at 1 3. simpl. unfold str_join.
    destruct (forallb is_str themes) eqn:T; simpl.
    + rewrite (strs_of_tags _ T). simpl.
      destruct (IH (ids ++ [title])
                  (docs ++ [py_or summary (VStr [])])
                  (metas ++ [meta_of title (join (py ", ") (tags_of themes))]))
        as (H1 & H2).
      split; intros H; [|now apply H2].
      rewrite (H1 H). unfold meta_at, doc_or_empty. simpl.
      now rewrite <- !app_assoc.
    + rewrite (strs_of_bad _ T). split; [discriminate|reflexivity].
Qed.

End PayloadMore.

(** X7.  build_chroma_payload raises exactly when the themes of some
    entry hold something that is not a string, and then it raises
    TypeError.  Otherwise it returns, whatever the titles and summaries
    are: the ids are the keys in order, the documents the summaries, a
    false one replaced by the empty string, and the three lists are as
    long as the catalog. *)
Theorem build_chroma_payload_raises_iff (books : BooksDict) :
  (forallb themes_are_strings books = true ->
   build_chroma_payload books =
     Ok (map fst books, map doc_or_empty books, map meta_at books)
   /\ length (map fst books) = length books
   /\ length (map doc_or_empty books) = length books
   /\ length (map meta_at books) = length books)
  /\ (forallb themes_are_strings books = false ->
      build_chroma_payload books = Raise TypeError).
Proof.
  destruct (payload_loop_any books [] [] []) as (H1 & H2).
  split; [|exact H2]. intros H. rewrite !length_map.
  split; [now apply H1|auto].
Qed.

Lemma build_chroma_payload_raises_iff_witness :
  build_chroma_payload two_books =
    Ok (map fst two_books, map doc_or_empty two_books, map meta_at two_books)
  /\ build_chroma_payload
       [(VStr (py "Dune"), (VNone, [VInt 1; VStr (py "scifi")]))]
     = Raise TypeError.
Proof.
  split.
  - apply (build_chroma_payload_raises_iff two_books). reflexivity.
  - apply (build_chroma_payload_raises_iff
             [(VStr (py "Dune"), (VNone, [VInt 1; VStr (py "scifi")]))]).
    reflexivity.
Defined.

(** X8.  Loading and building compose: when parse_json returns a
    catalog and build_chroma_payload returns a payload for it, the ids
    are the titles of the catalog in order, no two ids are the same
    key, and there are no more ids than non-blank lines in the file. *)
Theorem payload_ids_of_loaded_catalog {P : Python}
  (text : str) (books : BooksDict) (ids docs metas : list value) :
  parse_json text = Ok books ->
  build_chroma_payload books = Ok (ids, docs, metas) ->
  ids = map fst books
  /\ distinct_keys ids = true
  /\ length ids <= length (nonblank (readlines text)).
Proof.
  intros Hp Hb.
  destruct (payload_loop_any books [] [] []) as (H1 & H2).
  destruct (forallb themes_are_strings books) eqn:T.
  - unfold build_chroma_payload in Hb. rewrite (H1 eq_refl) in Hb.
    injection Hb as <- _ _. simpl.
    destruct (parse_json_sound text books Hp) as (_ & Hl).
    assert (well_keyed books) as [_ Hd].
    { apply (parse_lines_keyed (readlines text) [] books Hp).
      split; [constructor|reflexivity]. }
    rewrite length_map. auto.
  - unfold build_chroma_payload in Hb. rewrite (H2 eq_refl) in Hb.
    discriminate Hb.
Qed.

Lemma payload_ids_of_loaded_catalog_witness :
  [VStr (py "Dune")] = map fst dune_books
  /\ distinct_keys [VStr (py "Dune")] = true
  /\ length [VStr (py "Dune")]
       <= length (@nonblank (readlines (dune_line ++ nl ++ dune_line ++ nl))).
Proof.
  apply (@payload_ids_of_loaded_catalog Ref.python
           (dune_line ++ nl ++ dune_line ++ nl) dune_books
           [VStr (py "Dune")]
           [VStr (py "A desert planet saga.")]
           [VDict [(py "title", VStr (py "Dune"));
                   (py "themes", VStr (py "scifi"))]]).
  - vm_compute. reflexivity.
  - vm_compute. reflexivity.
Defined.

(** X9.  What is indexed is what is shown: for a catalog of the
    annotated type, when the vector store returns the document and the
    metadata that build_chroma_payload made of an entry as its one hit,
    the context is the stanza of the title and the summary of that
    entry, the empty string standing for an absent summary, and the
    title remembered as fallback is the title of the entry when it is
    not empty. *)
Theorem payload_hit_context {P : Python} (books : BooksDict) (i : nat)
  (t : str) (summary : value) (themes : list value) :
  is_BooksDict books = true ->
  nth_error books i = Some (VStr t, (summary, themes)) ->
  exists (ids docs metas : list value) (doc meta : value),
    build_chroma_payload books = Ok (ids, docs, metas) /\
    nth_error docs i = Some doc /\
    nth_error metas i = Some meta /\
    build_context_from_results (query_result [doc] [meta]) 1 =
      Ok (py "Title: " ++ t ++ nl ++ py "Summary: "
          ++ match summary with VStr s => s | _ => [] end) /\
    (t <> [] -> only_title_of (query_result [doc] [meta]) = Ok (VStr t)).
Proof.
  intros Hb Hi.
  exists (map id_at books), (map doc_at books), (map meta_at books),
         (doc_at (VStr t, (summary, themes))),
         (meta_at (VStr t, (summary, themes))).
  split; [now apply build_chroma_payload_maps|].
  split; [now apply (map_nth_error doc_at)|].
  split; [now apply (map_nth_error meta_at)|].
  assert (is_opt_str summary = true) as Hs.
  { apply nth_error_In in Hi. unfold is_BooksDict in Hb.
    rewrite forallb_forall in Hb. specialize (Hb _ Hi). simpl in Hb.
    apply andb_prop in Hb as [Hb _]. exact Hb. }
  split.
  - destruct summary; try discriminate Hs; reflexivity.
  - intros Hne. destruct t as [|c t]; [congruence|]. reflexivity.
Qed.

Lemma payload_hit_context_witness :
  exists (ids docs metas : list value) (doc meta : value),
    build_chroma_payload two_books = Ok (ids, docs, metas) /\
    nth_error docs 1 = Some doc /\
    nth_error metas 1 = Some meta /\
    @build_context_from_results Ref.python (query_result [doc] [meta]) 1 =
      Ok (py "Title: Emma" ++ nl ++ py "Summary: ") /\
    only_title_of (query_result [doc] [meta]) = Ok (VStr (py "Emma")).
Proof.
  destruct (@payload_hit_context Ref.python two_books 1 (py "Emma") VNone []
              eq_refl eq_refl)
    as (ids & docs & metas & doc & meta & H1 & H2 & H3 & H4 & H5).
  exists ids, docs, metas, doc, meta.
  repeat split; try assumption. apply H5. discriminate.
Defined.

(** ** The context *)

Section ContextMore.

Context {P : Python}.

Lemma stanzas_raise pairs : forall parts,
  existsb not_a_record pairs = true ->
  stanzas pairs parts = Raise AttributeError.
Proof.
  induction pairs as [|[d m] rest IH]; intros parts; simpl; [discriminate|].
  unfold not_a_record at 1. simpl.
  destruct m; simpl; try reflexivity. intros H. now apply IH.
Qed.

Lemma records_iff pairs :
  existsb not_a_record pairs = false <-> records pairs.
Proof.
  unfold records. induction pairs as [|pair rest IH]; simpl.
  - split; [constructor|reflexivity].
  - unfold not_a_record at 1. split.
    + intros H. apply orb_false_elim in H as [H1 H2].
      apply negb_false_iff in H1. constructor; [exact H1|now apply IH].
    + intros H. inversion H as [|? ? H1 H2]; subst.
      rewrite H1. simpl. now apply IH.
Qed.

End ContextMore.

(** X10.  build_context_from_results raises exactly when a retained
    metadata is not a record, for instance None: for every reply with
    its two lists and every [k], it raises AttributeError when one of
    the first [k] pairs has such a metadata, and returns the context of
    these pairs when none has.  A malformed metadata beyond the first
    [k] pairs is never looked at. *)
Theorem build_context_raises_iff {P : Python}
  (r : list (str * value)) (k : Z) (ds ms : list value) :
  hit_list r (py "documents") = Some ds ->
  hit_list r (py "metadatas") = Some ms ->
  (existsb not_a_record (slice_to k (combine ds ms)) = true ->
   build_context_from_results (VDict r) k = Raise AttributeError)
  /\ (existsb not_a_record (slice_to k (combine ds ms)) = false ->
      build_context_from_results (VDict r) k =
        Ok (join (nl ++ nl) (map render (slice_to k (combine ds ms))))).
Proof.
  intros Hd Hm. split; intros H.
  - unfold build_context_from_results.
    rewrite (first_list_hits _ _ _ Hd), (first_list_hits _ _ _ Hm). simpl.
    now rewrite stanzas_raise.
  - apply (build_context_spec r k ds ms Hd Hm). now apply records_iff.
Qed.

Lemma build_context_raises_iff_witness :
  @build_context_from_results Ref.python
     (query_result [VStr (py "a"); VStr (py "b")]
                   [VDict [(py "title", VStr (py "A"))]; VNone]) 2
    = Raise AttributeError
  /\ @build_context_from_results Ref.python
       (query_result [VStr (py "a"); VStr (py "b")]
                     [VDict [(py "title", VStr (py "A"))]; VNone]) 1
     = Ok (py "Title: A" ++ nl ++ py "Summary: a").
Proof.
  split.
  - apply (@build_context_raises_iff Ref.python
             [(py "documents", VList [VList [VStr (py "a"); VStr (py "b")]]);
              (py "metadatas",
               VList [VList [VDict [(py "title", VStr (py "A"))]; VNone]])]
             2 _ _ eq_refl eq_refl).
    reflexivity.
  - apply (@build_context_raises_iff Ref.python
             [(py "documents", VList [VList [VStr (py "a"); VStr (py "b")]]);
              (py "metadatas",
               VList [VList [VDict [(py "title", VStr (py "A"))]; VNone]])]
             1 _ _ eq_refl eq_refl).
    reflexivity.
Defined.

(** X11.  The bounds of [k]: with [k = 0], or with a negative [k] that
    reaches back beyond the first hit, the context is the empty string,
    whatever the metadata are; any other negative [k] leaves out the
    last hits, as many as [k] says. *)
Theorem build_context_small_k {P : Python}
  (r : list (str * value)) (k : Z) (ds ms : list value) :
  hit_list r (py "documents") = Some ds ->
  hit_list r (py "metadatas") = Some ms ->
  (k = 0%Z \/ (k < 0 /\ Z.of_nat (length (combine ds ms)) <= - k)%Z ->
   build_context_from_results (VDict r) k = Ok [])
  /\ ((k < 0)%Z -> records (combine ds ms) ->
      build_context_from_results (VDict r) k =
        Ok (join (nl ++ nl)
              (map render
                 (firstn (length (combine ds ms) - Z.to_nat (- k))
                    (combine ds ms))))).
Proof.
  intros Hd Hm. split.
  - intros Hk.
    assert (slice_to k (combine ds ms) = []) as E0.
    { unfold slice_to. destruct Hk as [-> | [Hk Hn]]; [reflexivity|].
      destruct (0 <=? k)%Z eqn:Z0; [lia|].
      replace (length (combine ds ms) - Z.to_nat (- k)) with 0 by lia.
      reflexivity. }
    rewrite (build_context_spec r k ds ms Hd Hm); rewrite E0;
      [reflexivity|constructor].
  - intros Hk Hr. rewrite (build_context_spec r k ds ms Hd Hm).
    + unfold slice_to. destruct (0 <=? k)%Z eqn:Z0; [lia|reflexivity].
    + now apply records_slice.
Qed.

Lemma build_context_small_k_witness :
  @build_context_from_results Ref.python (VDict two_hits) 0 = Ok []
  /\ @build_context_from_results Ref.python (VDict two_hits) (-1) =
       Ok (py "Title: Dune" ++ nl ++ py "Summary: A desert planet saga.").
Proof.
  split.
  - apply (@build_context_small_k Ref.python two_hits 0 _ _
             eq_refl eq_refl). now left.
  - destruct (@build_context_small_k Ref.python two_hits (-1) _ _
                eq_refl eq_refl) as (_ & H).
    apply H; [lia|repeat constructor].
Defined.

(** ** The slug and the file names *)

Section StripMore.

Variable p : char -> bool.

Lemma drop_while_app_all a : forall b,
  forallb p a = true -> drop_while p (a ++ b) = drop_while p b.
Proof.
  induction a as [|c t IH]; intros b H; simpl in *; [reflexivity|].
  apply andb_prop in H as [Hc Ht]. rewrite Hc. now apply IH.
Qed.

Lemma forallb_rev_all (z : str) : forallb p z = true -> forallb p (rev z) = true.
Proof.
  intros H. rewrite forallb_forall in *. intros x Hx. apply H.
  now apply in_rev.
Qed.

Lemma rstrip_app_all y z :
  forallb p z = true -> rstrip_by p (y ++ z) = rstrip_by p y.
Proof.
  intros H. unfold rstrip_by. rewrite rev_app_distr.
  now rewrite drop_while_app_all by now apply forallb_rev_all.
Qed.

Lemma drop_while_app x z :
  forallb p z = true ->
  drop_while p (x ++ z) = drop_while p x ++ z \/
  (drop_while p (x ++ z) = [] /\ drop_while p x = []).
Proof.
  intros H. induction x as [|c t IH]; simpl.
  - right. split; [|reflexivity]. rewrite <- (app_nil_r z).
    rewrite drop_while_app_all by exact H. reflexivity.
  - destruct (p c); [exact IH|now left].
Qed.

(** Characters of the stripped set at the end change nothing. *)
Lemma strip_app_all x z :
  forallb p z = true -> strip_by p (x ++ z) = strip_by p x.
Proof.
  intros H. unfold strip_by, lstrip_by.
  destruct (drop_while_app x z H) as [-> | [-> ->]].
  - now apply rstrip_app_all.
  - reflexivity.
Qed.

Lemma rstrip_fixed s c r :
  rev s = c :: r -> p c = false -> rstrip_by p s = s.
Proof.
  intros E Hc. unfold rstrip_by. rewrite E. simpl. rewrite Hc.
  rewrite <- E. apply rev_involutive.
Qed.

End StripMore.

Module SlugMore.
Import Slug.

Lemma sub_from_app_forbidden c s : forall b,
  keep c = false ->
  exists z, sub_from b (s ++ [c]) = sub_from b s ++ z /\
            forallb is_underscore z = true.
Proof.
  induction s as [|a t IH]; intros b Hc; simpl.
  - rewrite Hc. destruct b; [now exists []|now exists [underscore]].
  - destruct (keep a).
    + destruct (IH false Hc) as (z & -> & Hz). now exists z.
    + destruct b.
      * apply (IH true Hc).
      * destruct (IH true Hc) as (z & -> & Hz). now exists z.
Qed.

Lemma strip_sub_from s :
  strip_by is_underscore (sub_from true s) =
    strip_by is_underscore (sub_from false s).
Proof.
  destruct s as [|a t]; simpl; [reflexivity|].
  destruct (keep a); reflexivity.
Qed.

Lemma kept_not c x : keep c = false -> Forall kept x -> existsb (N.eqb c) x = false.
Proof.
  intros Hc H. induction H as [|a t Ha Ht IH]; simpl; [reflexivity|].
  rewrite IH, orb_false_r. apply N.eqb_neq. intros ->.
  unfold kept in Ha. congruence.
Qed.

Lemma safe_slug_kept s : Forall kept (_safe_slug s).
Proof.
  unfold _safe_slug. fold (cut s). pose proof (SlugFacts.cut_kept s) as H.
  destruct (cut s); [|exact H]. repeat constructor.
Qed.

End SlugMore.

(** X12.  Whatever the title, the slug is a usable file-name part: it is
    not empty, it holds only letters, digits, underscores and hyphens,
    and it does not begin with an underscore. *)
Theorem safe_slug_alphabet (s : str) :
  Slug._safe_slug s <> []
  /\ Forall (fun c => Slug.keep c = true) (Slug._safe_slug s)
  /\ forall c r, Slug._safe_slug s = c :: r -> Slug.is_underscore c = false.
Proof.
  split; [|split].
  - unfold Slug._safe_slug.
    destruct (firstn 60 _); simpl; discriminate.
  - apply SlugMore.safe_slug_kept.
  - unfold Slug._safe_slug. fold (Slug.cut s).
    destruct (Slug.cut s) as [|a t] eqn:E; simpl.
    + intros c r [= <- _]. reflexivity.
    + intros c r [= <- _]. apply (SlugFacts.cut_head s a t E).
Qed.

Lemma safe_slug_alphabet_witness :
  Slug._safe_slug (py "__a b__") <> []
  /\ Slug.is_underscore 97%N = false.
Proof.
  destruct (safe_slug_alphabet (py "__a b__")) as (H1 & _ & H3).
  split; [exact H1|]. exact (H3 97%N (py "_b") eq_refl).
Defined.

(** X13.  The slug settles at the second application: a third
    application gives the result of the second, for every string. *)
Theorem safe_slug_settles (s : str) :
  Slug._safe_slug (Slug._safe_slug (Slug._safe_slug s)) =
    Slug._safe_slug (Slug._safe_slug s).
Proof.
  rewrite (SlugFacts.safe_slug_rstrip (Slug._safe_slug s)).
  rewrite (SlugFacts.safe_slug_rstrip s). apply rstrip_idem.
Qed.

(** X14.  A character outside the class at either end of a title does
    not count: the title with one more such character at its end, or at
    its beginning, has the same slug, so that titles that differ only
    there share their file names. *)
Theorem safe_slug_ignores_ends (s : str) (c : char) :
  Slug.keep c = false ->
  Slug._safe_slug (s ++ [c]) = Slug._safe_slug s
  /\ Slug._safe_slug (c :: s) = Slug._safe_slug s.
Proof.
  intros Hc. unfold Slug._safe_slug, Slug.re_sub. split.
  - destruct (SlugMore.sub_from_app_forbidden c s false Hc) as (z & -> & Hz).
    now rewrite strip_app_all.
  - simpl. rewrite Hc.
    assert (strip_by Slug.is_underscore
              (Slug.underscore :: Slug.sub_from true s)
            = strip_by Slug.is_underscore (Slug.sub_from true s)) as E
      by reflexivity.
    now rewrite E, SlugMore.strip_sub_from.
Qed.

Lemma safe_slug_ignores_ends_witness :
  Slug._safe_slug (py "Dune" ++ [33%N]) = Slug._safe_slug (py "Dune")
  /\ Slug._safe_slug (33%N :: py "Dune") = Slug._safe_slug (py "Dune").
Proof.
  apply (safe_slug_ignores_ends (py "Dune") 33%N). reflexivity.
Defined.

(** X15.  A title that is already a slug is kept: a string of one to 60
    characters of the class that neither begins nor ends with an
    underscore is its own slug. *)
Theorem safe_slug_fixed (s : str) :
  Forall (fun c => Slug.keep c = true) s ->
  length s <= 60 ->
  hd Slug.underscore s <> Slug.underscore ->
  last s Slug.underscore <> Slug.underscore ->
  Slug._safe_slug s = s.
Proof.
  intros Hk Hl Hh Hlast.
  destruct s as [|c r]; [now simpl in Hh|].
  simpl in Hh.
  assert (Slug.is_underscore c = false) as Hc
    by (apply N.eqb_neq; exact Hh).
  rewrite (SlugFacts.slug_of_cut (c :: r) c r eq_refl Hk Hc Hl).
  destruct (rev (c :: r)) as [|a t] eqn:E.
  - apply (f_equal (@length char)) in E. rewrite length_rev in E.
    discriminate E.
  - apply (rstrip_fixed Slug.is_underscore (c :: r) a t E).
    apply N.eqb_neq. intros ->. apply Hlast.
    rewrite <- (rev_involutive (c :: r)), E. simpl. apply last_last.
Qed.

Lemma safe_slug_fixed_witness :
  Slug._safe_slug (py "War_and-Peace") = py "War_and-Peace".
Proof.
  apply (safe_slug_fixed (py "War_and-Peace")).
  - repeat constructor.
  - simpl. lia.
  - discriminate.
  - discriminate.
Defined.

(** X16.  The files of the media step stay in their directory: for
    every title, the names of the cover file and of the audio file hold
    no slash, no backslash and no NUL character, and have at most 70 and
    68 characters. *)
Theorem media_file_names_are_plain (title : str) (sep : char) :
  sep = 47%N \/ sep = 92%N \/ sep = 0%N ->
  existsb (N.eqb sep) (cover_file_name title) = false
  /\ existsb (N.eqb sep) (tts_file_name title) = false
  /\ length (cover_file_name title) <= 70
  /\ length (tts_file_name title) <= 68.
Proof.
  intros Hs.
  assert (Slug.keep sep = false) as Hk
    by (destruct Hs as [-> | [-> | ->]]; reflexivity).
  pose proof (SlugMore.kept_not sep _ Hk (SlugMore.safe_slug_kept title))
    as Hn.
  pose proof (SlugFacts.safe_slug_length title) as Hl.
  unfold cover_file_name, tts_file_name.
  rewrite !existsb_app, !length_app.
  change (@existsb char) with (@existsb N) in *. rewrite Hn.
  destruct Hs as [-> | [-> | ->]]; simpl; repeat split; lia.
Qed.

Lemma media_file_names_are_plain_witness :
  existsb (N.eqb 47%N) (cover_file_name (py "../../etc/passwd")) = false
  /\ cover_file_name (py "../../etc/passwd") = py "cover_etc_passwd.png".
Proof.
  split; [|reflexivity].
  apply (media_file_names_are_plain (py "../../etc/passwd") 47%N).
  now left.
Defined.

(** ** The run *)

Section RunMore.

Context {P : Python}.

Lemma lift_bind_ok {A B : Type} (a : A) (k : A -> io B) :
  io_bind (lift (Ok a)) k = k a.
Proof. unfold lift, io_bind. now destruct (k a). Qed.

Lemma emit_bind {B : Type} (e : event) (k : unit -> io B) :
  io_bind (emit e) k = (e :: fst (k tt), snd (k tt)).
Proof. unfold emit, io_bind. now destruct (k tt). Qed.

Lemma print_bind {B : Type} (args : list value) (k : unit -> io B) :
  io_bind (print args) k =
    (Print (print_text args) :: fst (k tt), snd (k tt)).
Proof. apply emit_bind. Qed.

Lemma ret_bind {A B : Type} (a : A) (k : A -> io B) :
  io_bind (io_ret a) k = k a.
Proof. unfold io_ret, io_bind. now destruct (k a). Qed.

(** The beginning of a run whose steps all return. *)
Lemma resolve_run w text books ids docs metas results context only_title :
  w_client w = Ok tt ->
  w_catalog w = Ok text ->
  parse_json text = Ok books ->
  w_collection w = Ok tt ->
  build_chroma_payload books = Ok (ids, docs, metas) ->
  w_results w = Ok results ->
  build_context_from_results results TOP_K = Ok context ->
  only_title_of results = Ok only_title ->
  resolve w =
    (opening w books ids docs metas context
       ++ fst (answer w books only_title),
     snd (answer w books only_title)).
Proof.
  intros H1 H2 H3 H4 H5 H6 H7 H8. unfold resolve.
  rewrite H1, lift_bind_ok, H2, lift_bind_ok, H3, lift_bind_ok.
  rewrite print_bind, H4, lift_bind_ok, H5, lift_bind_ok.
  rewrite emit_bind, emit_bind, emit_bind, H6, lift_bind_ok.
  rewrite H7, lift_bind_ok, print_bind, H8, lift_bind_ok, emit_bind.
  reflexivity.
Qed.

Lemma bind_prefix {A B : Type} pre (a : io A) (k : A -> io B) :
  io_bind (pre ++ fst a, snd a) k =
    (pre ++ fst (io_bind a k), snd (io_bind a k)).
Proof.
  destruct a as [t [x|e]]; simpl; [|reflexivity].
  destruct (k x). simpl. now rewrite app_assoc.
Qed.

(** What follows the final answer, as [main] ends. *)
Lemma main_run w text books ids docs metas results context only_title :
  w_client w = Ok tt ->
  w_catalog w = Ok text ->
  parse_json text = Ok books ->
  w_collection w = Ok tt ->
  build_chroma_payload books = Ok (ids, docs, metas) ->
  w_results w = Ok results ->
  build_context_from_results results TOP_K = Ok context ->
  only_title_of results = Ok only_title ->
  forall rest,
    rest = io_bind (answer w books only_title)
             (fun r => match r with
                       | Some (b, fd) => report w fd b
                       | None => io_ret tt
                       end) ->
    main w = (opening w books ids docs metas context ++ fst rest, snd rest).
Proof.
  intros H1 H2 H3 H4 H5 H6 H7 H8 rest ->. unfold main.
  rewrite (resolve_run w text books ids docs metas results context
             only_title H1 H2 H3 H4 H5 H6 H7 H8).
  apply bind_prefix.
Qed.

(** An event after the question of the run is there only when every
    step before returned. *)
Lemma resolve_inv p w :
  skips_prints p ->
  (forall ids docs metas, p (CollectionAdd ids docs metas) = false) ->
  p (Ask query_prompt) = false ->
  (forall q n, p (Query q n) = false) ->
  existsb p (fst (resolve w)) = true ->
  exists text books ids docs metas results context only_title,
    w_client w = Ok tt /\
    w_catalog w = Ok text /\
    parse_json text = Ok books /\
    w_collection w = Ok tt /\
    build_chroma_payload books = Ok (ids, docs, metas) /\
    w_results w = Ok results /\
    build_context_from_results results TOP_K = Ok context /\
    only_title_of results = Ok only_title.
Proof.
  intros Pp Pc Pa Pq H.
  destruct (w_client w) as [[]|e1] eqn:E1;
    [|unfold resolve in H; rewrite E1 in H; discriminate H].
  destruct (w_catalog w) as [text|e2] eqn:E2;
    [|unfold resolve in H; rewrite E1, E2 in H; discriminate H].
  destruct (parse_json text) as [books|e3] eqn:E3;
    [|unfold resolve in H; rewrite E1, E2 in H; cbn in H;
      rewrite E3 in H; discriminate H].
  unfold resolve in H.
  rewrite E1, lift_bind_ok, E2, lift_bind_ok, E3, lift_bind_ok in H.
  rewrite print_bind in H. cbn [fst snd existsb] in H.
  rewrite Pp in H. cbn [orb] in H.
  destruct (w_collection w) as [[]|e4] eqn:E4; [|discriminate H].
  rewrite lift_bind_ok in H.
  destruct (build_chroma_payload books) as [[[ids docs] metas]|e5] eqn:E5;
    [|discriminate H].
  rewrite lift_bind_ok, !emit_bind in H.
  cbn [fst snd existsb] in H. rewrite Pc, Pa, Pq in H. cbn [orb] in H.
  destruct (w_results w) as [results|e6] eqn:E6; [|discriminate H].
  rewrite lift_bind_ok in H.
  destruct (build_context_from_results results TOP_K) as [context|e7] eqn:E7;
    [|discriminate H].
  rewrite lift_bind_ok, print_bind in H.
  cbn [fst snd existsb] in H. rewrite Pp in H. cbn [orb] in H.
  destruct (only_title_of results) as [only_title|e8] eqn:E8;
    [|discriminate H].
  exists text, books, ids, docs, metas, results, context, only_title.
  repeat split; assumption.
Qed.

Ltac quiet :=
  repeat first
    [ solve [auto]
    | progress cbv zeta
    | apply silent_lift
    | apply silent_ret
    | apply silent_print; solve [auto]
    | apply silent_emit; reflexivity
    | apply silent_bind; [|intros ?]
    | match goal with
      | |- silent _ (if ?c then _ else _) => destruct c
      | |- silent _ (match ?x with _ => _ end) => destruct x
      end ].

Lemma model_skips_prints : skips_prints is_model_call.
Proof. intros ?. reflexivity. Qed.

Lemma tool_skips_prints : skips_prints is_tool_output.
Proof. intros ?. reflexivity. Qed.

Lemma report_no_model_call w fd books :
  silent is_model_call (report w fd books).
Proof.
  pose proof model_skips_prints.
  unfold report, print_result, print_summary, media. quiet.
Qed.

Lemma answer_no_model_call w books only_title :
  silent is_model_call (answer w books only_title).
Proof.
  pose proof model_skips_prints.
  unfold answer, finalize. quiet.
Qed.

Lemma opening_no_tool_output w books ids docs metas context :
  existsb is_tool_output (opening w books ids docs metas context) = false.
Proof. reflexivity. Qed.

(** An event of the run is an event of [resolve] when the report has
    none of its kind. *)
Lemma main_event_resolve p w :
  (forall fd books, silent p (report w fd books)) ->
  existsb p (fst (main w)) = true ->
  existsb p (fst (resolve w)) = true.
Proof.
  intros Hr. unfold main. rewrite fst_bind, existsb_app.
  destruct (existsb p (fst (resolve w))); [reflexivity|]. simpl.
  destruct (snd (resolve w)) as [[[books fd]|]|]; try discriminate.
  now rewrite (Hr fd books).
Qed.

(** The part of the run after the first reply, when the tool ran. *)
Lemma answer_tool_inv w books only_title :
  existsb is_tool_output (fst (answer w books only_title)) = true ->
  exists first c cid out,
    w_first w = Ok first /\
    direct_answer (output_text first) = None /\
    extract_call (model_dump first) = Ok (Some c) /\
    resolve_tool_call books only_title c = Ok (cid, out) /\
    answer w books only_title =
      match w_final w with
      | Ok final =>
          match json_loads (str_or (output_text final) (py "{}")) with
          | Some fd => ([ToolOutput cid out], Ok (Some (books, fd)))
          | None =>
              ([ToolOutput cid out;
                Print (print_text [raw_line; VStr (output_text final)])],
               Ok None)
          end
      | Raise e => ([ToolOutput cid out], Raise e)
      end.
Proof.
  unfold answer. intros H.
  destruct (w_first w) as [first|e1] eqn:E1; [|discriminate H].
  rewrite lift_bind_ok in *.
  destruct (direct_answer (output_text first)) as [fd0|] eqn:E2;
    [discriminate H|].
  destruct (extract_call (model_dump first)) as [[c|]|e3] eqn:E3;
    [|discriminate H|discriminate H].
  rewrite lift_bind_ok in *. unfold finalize in *.
  destruct (resolve_tool_call books only_title c) as [[cid out]|e4] eqn:E4;
    [|discriminate H].
  exists first, c, cid, out.
  do 4 (split; [first [reflexivity|assumption]|]).
  rewrite lift_bind_ok, emit_bind.
  destruct (w_final w) as [final|e5]; [|reflexivity].
  rewrite lift_bind_ok.
  destruct (json_loads (str_or (output_text final) (py "{}")));
    reflexivity.
Qed.

Lemma report_non_record w fd books :
  is_dict fd = false -> report w fd books = ([], Raise AttributeError).
Proof. destruct fd; try discriminate; reflexivity. Qed.

End RunMore.

Section CallFacts.

Context {P : Python}.

Lemma py_get_type_call part :
  match py_get part (py "type") VNone with
  | Ok ty => eq_str ty (py "function_call") = is_function_call part
  | Raise _ => is_function_call part = false
  end.
Proof. destruct part; reflexivity. Qed.

Lemma find_in_parts_sound parts : forall call c,
  (forall x, call = Some x -> is_function_call x = true) ->
  find_in_parts parts call = Ok (Some c) -> is_function_call c = true.
Proof.
  induction parts as [|part rest IH]; intros call c Hc; simpl.
  - intros [= ->]. now apply Hc.
  - pose proof (py_get_type_call part) as Hp.
    destruct (py_get part (py "type") VNone) as [ty|e]; simpl;
      [|discriminate].
    rewrite Hp. destruct (is_function_call part) eqn:E.
    + now intros [= <-].
    + now apply IH.
Qed.

Lemma find_call_sound items : forall call c,
  (forall x, call = Some x -> is_function_call x = true) ->
  find_call items call = Ok (Some c) -> is_function_call c = true.
Proof.
  induction items as [|item rest IH]; intros call c Hc; simpl.
  - intros [= ->]. now apply Hc.
  - pose proof (py_get_type_call item) as Hp.
    destruct (py_get item (py "type") VNone) as [ty|e]; simpl;
      [|discriminate].
    rewrite Hp. destruct (is_function_call item) eqn:E.
    + now intros [= <-].
    + destruct (eq_str ty (py "message")); [|now apply IH].
      destruct (py_get item (py "content") (VList [])) as [content|e];
        simpl; [|discriminate].
      destruct (py_iter content) as [parts|e]; simpl; [|discriminate].
      destruct (find_in_parts parts call) as [call'|e] eqn:F; simpl;
        [|discriminate].
      assert (forall x, call' = Some x -> is_function_call x = true) as Hc'.
      { intros x ->. eapply find_in_parts_sound; eauto. }
      destruct (truthy_opt call').
      * intros [= ->]. now apply Hc'.
      * now apply IH.
Qed.

Lemma find_call_none items : forall call,
  find_call items call = Ok None ->
  forallb (fun item => negb (is_function_call item)) items = true.
Proof.
  induction items as [|item rest IH]; intros call; simpl; [reflexivity|].
  pose proof (py_get_type_call item) as Hp.
  destruct (py_get item (py "type") VNone) as [ty|e]; simpl;
    [|discriminate].
  rewrite Hp. destruct (is_function_call item) eqn:E; [discriminate|].
  simpl. destruct (eq_str ty (py "message")); [|apply IH].
  destruct (py_get item (py "content") (VList [])) as [content|e];
    simpl; [|discriminate].
  destruct (py_iter content) as [parts|e]; simpl; [|discriminate].
  destruct (find_in_parts parts call) as [call'|e]; simpl; [|discriminate].
  destruct (truthy_opt call') eqn:T; [|apply IH].
  intros [= ->]. discriminate T.
Qed.

Lemma find_call_first pre : forall item rest call,
  forallb is_other_item pre = true ->
  is_function_call item = true ->
  find_call (pre ++ item :: rest) call = Ok (Some item).
Proof.
  induction pre as [|x pre IH]; intros item rest call Hp Hi; simpl.
  - destruct item as [| | | | | |d]; try discriminate Hi. simpl in *.
    unfold field, field_or in Hi. now rewrite Hi.
  - simpl in Hp. apply andb_prop in Hp as [Hx Hp].
    destruct x as [| | | | | |d]; try discriminate Hx. simpl in *.
    unfold field, field_or in Hx.
    apply andb_prop in Hx as [H1 H2].
    apply negb_true_iff in H1, H2. rewrite H1, H2. now apply IH.
Qed.

Lemma extract_call_is_call dump c :
  extract_call dump = Ok (Some c) -> is_function_call c = true.
Proof.
  unfold extract_call.
  destruct (py_get dump (py "output") (VList [])) as [output|e]; simpl;
    [|discriminate].
  destruct (py_iter output) as [items|e]; simpl; [|discriminate].
  apply find_call_sound. discriminate.
Qed.

End CallFacts.

Section MediaFacts.

Context {P : Python}.

Lemma image_prompt_is_media : is_media (Ask image_prompt) = true.
Proof. unfold is_media. now rewrite str_eqb_refl. Qed.

Lemma tts_prompt_is_media : is_media (Ask tts_prompt) = true.
Proof. unfold is_media. now rewrite str_eqb_refl, orb_true_r. Qed.

Lemma filter_none {A : Type} (p : A -> bool) (l : list A) :
  existsb p l = false -> filter p l = [].
Proof.
  induction l as [|a t IH]; simpl; [reflexivity|].
  destruct (p a); [discriminate|exact IH].
Qed.

(** The questions and the calls of a media step that went past its
    guard. *)
Lemma media_asks w title bos text :
  let m :=
    io_bind (emit (Ask image_prompt)) (fun _ =>
    io_bind (if says_yes (w_yn_img w) then
               io_bind (emit (ImageCall title bos)) (fun _ =>
                 match w_image w with
                 | Ok path => print [VStr (py "[image saved] " ++ path)]
                 | Raise e =>
                     print [VStr (py "[image error] " ++ w_exn_text w e)]
                 end)
             else io_ret tt) (fun _ =>
    io_bind (emit (Ask tts_prompt)) (fun _ =>
      if says_yes (w_yn_tts w) then
        io_bind (emit (SpeechCall title text)) (fun _ =>
          match w_speech w with
          | Ok path => print [VStr (py "[audio saved] " ++ path)]
          | Raise e => print [VStr (py "[tts error] " ++ w_exn_text w e)]
          end)
      else io_ret tt))) in
  snd m = Ok tt /\
  filter is_media (fst m) =
    Ask image_prompt
    :: (if says_yes (w_yn_img w) then [ImageCall title bos] else [])
    ++ Ask tts_prompt
    :: (if says_yes (w_yn_tts w) then [SpeechCall title text] else []).
Proof.
  intros m. subst m.
  destruct (says_yes (w_yn_img w)), (says_yes (w_yn_tts w)),
    (w_image w), (w_speech w);
    (split; [reflexivity|]);
    cbn [io_bind emit print io_ret fst snd app filter];
    rewrite ?image_prompt_is_media, ?tts_prompt_is_media; reflexivity.
Qed.

End MediaFacts.

(** X17.  The media step of a final answer with status ok and a title:
    it asks its two questions in order, the second whatever became of
    the image; it calls the image service exactly when the first answer
    begins with y or Y after its blanks, with the title and the blurb,
    or the stored summary when there is no blurb; it calls the speech
    service exactly when the second answer does, with the verbal text,
    else the blurb, else the word Recommendation and the title; and it
    ends normally whether the services return or raise. *)
Theorem media_step_survives {P : Python} (w : world)
  (d : list (str * value)) (books : BooksDict) (title : value) :
  eq_str (field d (py "status")) (py "ok") = true ->
  dict_get d (py "title") = Some title ->
  truthy title = true ->
  truthy (field d (py "blurb")) = true \/ hashable title = true ->
  snd (media w (VDict d) books) = Ok tt
  /\ filter is_media (fst (media w (VDict d) books)) =
       Ask image_prompt
       :: (if says_yes (w_yn_img w)
           then [ImageCall title (blurb_or_summary d books title)]
           else [])
       ++ Ask tts_prompt
       :: (if says_yes (w_yn_tts w)
           then [SpeechCall title (verbal_text d title)]
           else []).
Proof.
  intros Hs Ht Htt Hb. unfold media.
  assert (truthy (VDict d) = true) as T
    by (destruct d; [discriminate Ht|reflexivity]).
  rewrite T, !py_get_field, lift_bind_ok.
  fold (field d (py "status")). rewrite Hs. cbn [andb].
  rewrite lift_bind_ok.
  assert (field_or d (py "title") VNone = title) as Et
    by (unfold field_or; now rewrite Ht).
  rewrite Et, Htt, lift_bind_ok.
  fold (field d (py "blurb")) (field d (py "verbal")).
  unfold blurb_or_summary, verbal_text.
  destruct (truthy (field d (py "blurb"))) eqn:B.
  - rewrite lift_bind_ok, lift_bind_ok.
    assert (py_or (field d (py "blurb")) VNone = field d (py "blurb"))
      as -> by (unfold py_or; now rewrite B).
    apply media_asks.
  - destruct Hb as [Hb|Hh]; [discriminate Hb|].
    unfold stored_summary. rewrite Hh, lift_bind_ok, lift_bind_ok.
    assert (forall x, py_or (field d (py "blurb")) x = x) as Ep
      by (intros x; unfold py_or; now rewrite B).
    rewrite !Ep.
    destruct (books_get books title) as [[summary themes]|];
      apply media_asks.
Qed.

Lemma media_step_survives_witness :
  snd (@media Ref.python (world_of ok_final "yes")
         (VDict ok_dune) dune_books) = Ok tt
  /\ filter is_media
       (fst (@media Ref.python (world_of ok_final "yes")
               (VDict ok_dune) dune_books)) =
     [Ask image_prompt;
      ImageCall (VStr (py "Dune")) (VStr (py "A classic."));
      Ask tts_prompt;
      SpeechCall (VStr (py "Dune")) (VStr (py "A classic."))].
Proof.
  apply (@media_step_survives Ref.python (world_of ok_final "yes")
           ok_dune dune_books (VStr (py "Dune"))).
  - reflexivity.
  - reflexivity.
  - reflexivity.
  - left. reflexivity.
Defined.

(** X18.  extract_call returns only a record whose type is
    function_call.  When it returns None on a dump whose output is a
    list, no item of that list is a function call.  A function call
    that follows only items of other types than function_call and
    message is the one returned, whatever comes after it. *)
Theorem extract_call_sound (d : list (str * value)) :
  (forall c, extract_call (VDict d) = Ok (Some c) ->
             is_function_call c = true)
  /\ (forall items,
        field_or d (py "output") (VList []) = VList items ->
        extract_call (VDict d) = Ok None ->
        forallb (fun item => negb (is_function_call item)) items = true)
  /\ (forall pre item rest,
        field_or d (py "output") (VList []) = VList (pre ++ item :: rest) ->
        forallb is_other_item pre = true ->
        is_function_call item = true ->
        extract_call (VDict d) = Ok (Some item)).
Proof.
  unfold extract_call. rewrite py_get_field. simpl.
  split; [|split].
  - intros c.
    destruct (py_iter (field_or d (py "output") (VList []))) as [items|e];
      simpl; [|discriminate].
    apply find_call_sound. discriminate.
  - intros items ->. simpl. apply find_call_none.
  - intros pre item rest -> Hp Hi. simpl. now apply find_call_first.
Qed.

Lemma extract_call_sound_witness :
  extract_call
    (VDict [(py "output",
             VList [VDict [(py "type", VStr (py "reasoning"))];
                    VDict (tool_call "{}");
                    VDict (tool_call "{'title': 'Emma'}")])])
  = Ok (Some (VDict (tool_call "{}")))
  /\ forallb (fun item => negb (is_function_call item))
       [VDict [(py "type", VStr (py "reasoning"))]] = true.
Proof.
  split.
  - destruct (extract_call_sound
                [(py "output",
                  VList [VDict [(py "type", VStr (py "reasoning"))];
                         VDict (tool_call "{}");
                         VDict (tool_call "{'title': 'Emma'}")])])
      as (_ & _ & H).
    apply (H [VDict [(py "type", VStr (py "reasoning"))]]
             (VDict (tool_call "{}"))
             [VDict (tool_call "{'title': 'Emma'}")]); reflexivity.
  - destruct (extract_call_sound
                [(py "output",
                  VList [VDict [(py "type", VStr (py "reasoning"))]])])
      as (_ & H & _).
    apply H; reflexivity.
Defined.

Section RunCases.

Context {P : Python}.

(** A run with an event of the second half went through the first. *)
Lemma main_inv p w :
  skips_prints p ->
  (forall ids docs metas, p (CollectionAdd ids docs metas) = false) ->
  p (Ask query_prompt) = false ->
  (forall q n, p (Query q n) = false) ->
  (forall fd books, silent p (report w fd books)) ->
  existsb p (fst (main w)) = true ->
  exists text books ids docs metas results context only_title,
    (w_catalog w = Ok text /\
     parse_json text = Ok books /\
     build_chroma_payload books = Ok (ids, docs, metas) /\
     w_results w = Ok results /\
     build_context_from_results results TOP_K = Ok context /\
     only_title_of results = Ok only_title) /\
    existsb p (fst (resolve w)) = true /\
    resolve w =
      (opening w books ids docs metas context
         ++ fst (answer w books only_title),
       snd (answer w books only_title)) /\
    forall rest,
      rest = io_bind (answer w books only_title)
               (fun r => match r with
                         | Some (b, fd) => report w fd b
                         | None => io_ret tt
                         end) ->
      main w =
        (opening w books ids docs metas context ++ fst rest, snd rest).
Proof.
  intros Pp Pc Pa Pq Pr H.
  pose proof (main_event_resolve p w Pr H) as Hr.
  destruct (resolve_inv p w Pp Pc Pa Pq Hr)
    as (text & books & ids & docs & metas & results & context & only_title
        & H1 & H2 & H3 & H4 & H5 & H6 & H7 & H8).
  exists text, books, ids, docs, metas, results, context, only_title.
  split; [repeat split; assumption|]. split; [exact Hr|]. split.
  - now apply (resolve_run w text books ids docs metas results context
                 only_title).
  - now apply (main_run w text books ids docs metas results context
                 only_title).
Qed.

Lemma model_call_inv w :
  existsb is_model_call (fst (main w)) = true ->
  exists text books ids docs metas results context only_title,
    (w_catalog w = Ok text /\
     parse_json text = Ok books /\
     build_chroma_payload books = Ok (ids, docs, metas) /\
     w_results w = Ok results /\
     build_context_from_results results TOP_K = Ok context /\
     only_title_of results = Ok only_title) /\
    existsb is_model_call (fst (resolve w)) = true /\
    resolve w =
      (opening w books ids docs metas context
         ++ fst (answer w books only_title),
       snd (answer w books only_title)) /\
    forall rest,
      rest = io_bind (answer w books only_title)
               (fun r => match r with
                         | Some (b, fd) => report w fd b
                         | None => io_ret tt
                         end) ->
      main w =
        (opening w books ids docs metas context ++ fst rest, snd rest).
Proof.
  apply main_inv; try reflexivity.
  - exact model_skips_prints.
  - apply report_no_model_call.
Qed.

Lemma tool_output_inv w :
  existsb is_tool_output (fst (main w)) = true ->
  exists text books ids docs metas results context only_title,
    (w_catalog w = Ok text /\
     parse_json text = Ok books /\
     build_chroma_payload books = Ok (ids, docs, metas) /\
     w_results w = Ok results /\
     build_context_from_results results TOP_K = Ok context /\
     only_title_of results = Ok only_title) /\
    existsb is_tool_output (fst (answer w books only_title)) = true /\
    forall rest,
      rest = io_bind (answer w books only_title)
               (fun r => match r with
                         | Some (b, fd) => report w fd b
                         | None => io_ret tt
                         end) ->
      main w =
        (opening w books ids docs metas context ++ fst rest, snd rest).
Proof.
  intros H.
  destruct (main_inv is_tool_output w tool_skips_prints
              (fun _ _ _ => eq_refl) eq_refl (fun _ _ => eq_refl)
              (report_no_tool_output w) H)
    as (text & books & ids & docs & metas & results & context & only_title
        & Hs & Hr & He & Hm).
  exists text, books, ids, docs, metas, results, context, only_title.
  split; [exact Hs|]. split; [|exact Hm].
  rewrite He in Hr. cbn [fst] in Hr.
  rewrite existsb_app, opening_no_tool_output in Hr. exact Hr.
Qed.

End RunCases.

(** X19.  Every run that calls the model has loaded the catalog,
    built the payload and retrieved before: it begins with the line
    that counts the books, the ingestion of the payload of the loaded
    catalog, the question, one query with the typed text for one
    result, the printed context of the reply to that query, and the
    call of the model with the typed text and that context, in this
    order; and it calls the model with a question only this once. *)
Theorem model_call_follows_retrieval {P : Python} (w : world) :
  existsb is_model_call (fst (main w)) = true ->
  exists text books ids docs metas results context tail,
    w_catalog w = Ok text /\
    parse_json text = Ok books /\
    build_chroma_payload books = Ok (ids, docs, metas) /\
    w_results w = Ok results /\
    build_context_from_results results TOP_K = Ok context /\
    fst (main w) = opening w books ids docs metas context ++ tail /\
    existsb is_model_call tail = false.
Proof.
  intros H.
  destruct (model_call_inv w H)
    as (text & books & ids & docs & metas & results & context & only_title
        & (H1 & H2 & H3 & H4 & H5 & H6) & _ & _ & Hm).
  exists text, books, ids, docs, metas, results, context.
  eexists. do 5 (split; [eassumption|]).
  rewrite (Hm _ eq_refl). split; [reflexivity|].
  rewrite fst_bind, existsb_app.
  rewrite (answer_no_model_call w books only_title).
  destruct (snd (answer w books only_title)) as [[[b fd]|]|];
    try reflexivity.
  apply report_no_model_call.
Qed.

Lemma model_call_follows_retrieval_witness :
  exists tail,
    fst (@main Ref.python (world_of ok_final "no")) =
      [Print (py "[load] Books: 1" ++ nl);
       CollectionAdd [VStr (py "Dune")] [VStr (py "A desert planet saga.")]
         [VDict [(py "title", VStr (py "Dune"));
                 (py "themes", VStr (py "scifi"))]];
       Ask query_prompt;
       Query (py "space opera") 1;
       Print (nl ++ py "Context:" ++ nl ++ py "---" ++ nl
              ++ py "Title: Dune" ++ nl
              ++ py "Summary: A desert planet saga." ++ nl
              ++ py "---" ++ nl);
       ModelCall (user_content (py "space opera")
                    (py "Title: Dune" ++ nl
                     ++ py "Summary: A desert planet saga."))]
      ++ tail.
Proof.
  destruct (@model_call_follows_retrieval Ref.python
              (world_of ok_final "no") eq_refl)
    as (text & books & ids & docs & metas & results & context & tail
        & H1 & H2 & H3 & H4 & H5 & H6 & _).
  exists tail.
  injection H1 as <-. vm_compute in H2. injection H2 as <-.
  vm_compute in H3. injection H3 as <- <- <-.
  injection H4 as <-. vm_compute in H5. injection H5 as <-.
  exact H6.
Defined.

(** X20.  When the text of the first reply is a JSON record with a
    status that is not empty, it is the final answer: the run goes from
    the call of the model straight to the report of that record over
    the loaded catalog, the tool is not run and nothing is sent back to
    the model. *)
Theorem direct_answer_is_final {P : Python} (w : world) (first : response)
  (fd : value) :
  existsb is_model_call (fst (main w)) = true ->
  w_first w = Ok first ->
  direct_answer (output_text first) = Some fd ->
  exists text books ids docs metas context,
    w_catalog w = Ok text /\
    parse_json text = Ok books /\
    main w =
      (opening w books ids docs metas context ++ fst (report w fd books),
       snd (report w fd books)) /\
    existsb is_tool_output (fst (main w)) = false.
Proof.
  intros H Hf Hd.
  destruct (model_call_inv w H)
    as (text & books & ids & docs & metas & results & context & only_title
        & (H1 & H2 & H3 & H4 & H5 & H6) & _ & _ & Hm).
  exists text, books, ids, docs, metas, context.
  do 2 (split; [assumption|]).
  assert (main w =
            (opening w books ids docs metas context
               ++ fst (report w fd books), snd (report w fd books))) as E.
  { rewrite (Hm _ eq_refl). unfold answer.
    now rewrite Hf, lift_bind_ok, Hd, ret_bind. }
  split; [exact E|]. rewrite E. cbn [fst].
  rewrite existsb_app, opening_no_tool_output.
  apply report_no_tool_output.
Qed.

Lemma direct_answer_is_final_witness :
  exists text books ids docs metas context,
    w_catalog direct_world = Ok text /\
    @parse_json Ref.python text = Ok books /\
    @main Ref.python direct_world =
      (@opening Ref.python direct_world books ids docs metas context
         ++ fst (@report Ref.python direct_world ok_final_record books),
       snd (@report Ref.python direct_world ok_final_record books)) /\
    existsb is_tool_output (fst (@main Ref.python direct_world)) = false.
Proof.
  apply (@direct_answer_is_final Ref.python direct_world
           (text_reply ok_final)).
  - vm_compute. reflexivity.
  - reflexivity.
  - vm_compute. reflexivity.
Defined.

(** X21.  When the first reply is no final answer and holds no tool
    call, the run prints the words Raw response and the text of the
    reply, or the note that there is neither text nor tool call when
    the text is empty, and ends normally there: nothing is sent back
    to the model, nothing is reported, no media question is asked. *)
Theorem no_tool_call_prints_raw {P : Python} (w : world) (first : response) :
  existsb is_model_call (fst (main w)) = true ->
  w_first w = Ok first ->
  direct_answer (output_text first) = None ->
  extract_call (model_dump first) = Ok None ->
  exists books ids docs metas context,
    main w =
      (opening w books ids docs metas context
         ++ [Print (nl ++ py "Raw response:" ++ nl ++ py " "
                    ++ str_or (output_text first)
                         (py "(no text and no tool call)") ++ nl)],
       Ok tt).
Proof.
  intros H Hf Hd Hc.
  destruct (model_call_inv w H)
    as (text & books & ids & docs & metas & results & context & only_title
        & _ & _ & _ & Hm).
  exists books, ids, docs, metas, context.
  rewrite (Hm _ eq_refl). unfold answer.
  rewrite Hf, lift_bind_ok, Hd, Hc, lift_bind_ok.
  reflexivity.
Qed.

Lemma no_tool_call_prints_raw_witness :
  exists books ids docs metas context,
    @main Ref.python mute_world =
      (@opening Ref.python mute_world books ids docs metas context
         ++ [Print (nl ++ py "Raw response:" ++ nl
                    ++ py " (no text and no tool call)" ++ nl)],
       Ok tt).
Proof.
  apply (@no_tool_call_prints_raw Ref.python mute_world (text_reply "")).
  - vm_compute. reflexivity.
  - reflexivity.
  - reflexivity.
  - reflexivity.
Defined.

(** X22.  When the tool ran and the text of the final reply decodes to
    something that is not a record, a list or a number for instance,
    the run raises AttributeError in print_result: its last event is the
    output sent to the model, and nothing is printed after it. *)
Theorem non_record_answer_raises {P : Python} (w : world) (final : response)
  (fd : value) :
  existsb is_tool_output (fst (main w)) = true ->
  w_final w = Ok final ->
  json_loads (str_or (output_text final) (py "{}")) = Some fd ->
  is_dict fd = false ->
  snd (main w) = Raise AttributeError
  /\ exists pre cid out, fst (main w) = pre ++ [ToolOutput cid out].
Proof.
  intros H Hf Hj Hd.
  destruct (tool_output_inv w H)
    as (text & books & ids & docs & metas & results & context & only_title
        & _ & Ha & Hm).
  destruct (answer_tool_inv w books only_title Ha)
    as (first & c & cid & out & _ & _ & _ & _ & E).
  rewrite Hf, Hj in E.
  rewrite (Hm _ eq_refl), E. cbn [io_bind].
  rewrite (report_non_record w fd books Hd). cbn [fst snd].
  split; [reflexivity|].
  exists (opening w books ids docs metas context), cid, out.
  now rewrite app_nil_r.
Qed.

Lemma non_record_answer_raises_witness :
  snd (@main Ref.python (world_of "[1, 2]" "no")) = Raise AttributeError
  /\ exists pre cid out,
       fst (@main Ref.python (world_of "[1, 2]" "no"))
         = pre ++ [ToolOutput cid out].
Proof.
  apply (@non_record_answer_raises Ref.python (world_of "[1, 2]" "no")
           (final_reply "[1, 2]") (VList [VInt 1; VInt 2])).
  - vm_compute. reflexivity.
  - reflexivity.
  - vm_compute. reflexivity.
  - reflexivity.
Defined.

(** X23.  What is sent back to the model is what the local tool gave:
    in every run that sends an output, the first reply held a tool
    call, a record of type function_call, the output is the one the
    tool step computes for that call over the loaded catalog with the
    fallback title of the retrieval, and it is sent once. *)
Theorem tool_output_is_of_the_call {P : Python} (w : world) :
  existsb is_tool_output (fst (main w)) = true ->
  exists text books results only_title first c cid out,
    w_catalog w = Ok text /\
    parse_json text = Ok books /\
    w_results w = Ok results /\
    only_title_of results = Ok only_title /\
    w_first w = Ok first /\
    extract_call (model_dump first) = Ok (Some c) /\
    is_function_call c = true /\
    resolve_tool_call books only_title c = Ok (cid, out) /\
    filter is_tool_output (fst (main w)) = [ToolOutput cid out].
Proof.
  intros H.
  destruct (tool_output_inv w H)
    as (text & books & ids & docs & metas & results & context & only_title
        & (H1 & H2 & H3 & H4 & H5 & H6) & Ha & Hm).
  destruct (answer_tool_inv w books only_title Ha)
    as (first & c & cid & out & Hf & _ & Hc & Hr & E).
  exists text, books, results, only_title, first, c, cid, out.
  do 6 (split; [assumption|]).
  split.
  { exact (extract_call_is_call (model_dump first) c Hc). }
  split; [exact Hr|].
  rewrite (Hm _ eq_refl), E. cbn [fst].
  rewrite filter_app, (filter_none _ _ (opening_no_tool_output _ _ _ _ _ _)).
  assert (forall fd, filter is_tool_output (fst (report w fd books)) = [])
    as Hq by (intros fd; apply filter_none, report_no_tool_output).
  destruct (w_final w) as [final|e]; [|reflexivity].
  destruct (json_loads (str_or (output_text final) (py "{}"))) as [fd|];
    [|reflexivity].
  cbn [io_bind]. destruct (report w fd books) as [t r] eqn:R.
  specialize (Hq fd). rewrite R in Hq. cbn [fst app filter is_tool_output].
  cbn [fst] in Hq. now rewrite Hq.
Qed.

Lemma tool_output_is_of_the_call_witness :
  exists text books results only_title first c cid out,
    w_catalog (world_of ok_final "no") = Ok text /\
    @parse_json Ref.python text = Ok books /\
    w_results (world_of ok_final "no") = Ok results /\
    only_title_of results = Ok only_title /\
    w_first (world_of ok_final "no") = Ok first /\
    extract_call (model_dump first) = Ok (Some c) /\
    is_function_call c = true /\
    @resolve_tool_call Ref.python books only_title c = Ok (cid, out) /\
    filter is_tool_output (fst (@main Ref.python (world_of ok_final "no")))
      = [ToolOutput cid out].
Proof.
  apply (@tool_output_is_of_the_call Ref.python (world_of ok_final "no")).
  vm_compute. reflexivity.
Defined.



(** X25.  Retrieval, fallback and tool compose: for a catalog of the
    annotated type with distinct keys, when the vector store returns
    as its one hit what build_chroma_payload made of an entry with a
    non-empty title, and the model calls the summary tool with a title
    argument that is missing, empty or blank, the output of the tool
    step is the document of that hit, the summary of the entry. *)
Theorem blank_argument_gets_retrieved_summary {P : Python}
  (books : BooksDict) (t : str) (summary : value) (themes : list value)
  (c d : list (str * value)) (a : str) :
  is_BooksDict books = true ->
  well_keyed books ->
  In (VStr t, (summary, themes)) books ->
  t <> [] ->
  eq_str (field c (py "name")) SUMMARY_TOOL_name = true ->
  loads_or_empty (py_or (field c (py "arguments")) (VStr (py "{}")))
    = Ok (VDict d) ->
  py_or (field d (py "title")) (VStr []) = VStr a ->
  strip a = [] ->
  exists only_title,
    only_title_of (query_result [doc_at (VStr t, (summary, themes))]
                                [meta_at (VStr t, (summary, themes))])
      = Ok only_title /\
    resolve_tool_call books only_title (VDict c) =
      Ok (py_or (field c (py "call_id")) (field c (py "id")),
          doc_at (VStr t, (summary, themes))).
Proof.
  intros Hb Hw Hin Hne Hn Ha Hd Hs. exists (VStr t). split.
  - destruct t as [|x t]; [congruence|]. reflexivity.
  - rewrite (resolve_tool_call_spec books (VStr t) c d a Hn Ha Hd).
    unfold resolved_title. rewrite Hs.
    destruct t as [|x t]; [congruence|]. cbn [truthy].
    unfold make_get_summary_tool. cbn [hashable].
    rewrite (books_get_of_In books (VStr (x :: t)) (summary, themes) Hw Hin).
    cbn [bind]. unfold doc_at. cbn [fst snd].
    assert (is_opt_str summary = true) as Ho.
    { unfold is_BooksDict in Hb. rewrite forallb_forall in Hb.
      specialize (Hb _ Hin). simpl in Hb.
      apply andb_prop in Hb as [Hb _]. exact Hb. }
    destruct summary as [| | | |[|y s]| |]; try discriminate Ho; reflexivity.
Qed.

Lemma blank_argument_gets_retrieved_summary_witness :
  exists only_title,
    only_title_of dune_hit = Ok only_title /\
    @resolve_tool_call Ref.python dune_books only_title
       (VDict (tool_call "{'title': ' '}")) =
      Ok (VStr (py "call_1"), VStr (py "A desert planet saga.")).
Proof.
  apply (@blank_argument_gets_retrieved_summary Ref.python dune_books
           (py "Dune") (VStr (py "A desert planet saga."))
           [VStr (py "scifi")] (tool_call "{'title': ' '}")
           [(py "title", VStr (py " "))] (py " ")).
  - reflexivity.
  - split; [repeat constructor|reflexivity].
  - left. reflexivity.
  - discriminate.
  - reflexivity.
  - vm_compute. reflexivity.
  - reflexivity.
  - reflexivity.
Defined.

(** X26.  The tool step on the arguments of the call.  Arguments that
    decode to something that is not a record, or to a record whose
    title is not empty and not a string, make the step raise
    AttributeError, so that no output is computed.  A call of a
    function with another name than the summary tool is answered with
    the empty string, whatever the title and the catalog. *)
Theorem tool_step_on_arguments {P : Python} (books : BooksDict)
  (only_title : value) (c : list (str * value)) (args : value) :
  loads_or_empty (py_or (field c (py "arguments")) (VStr (py "{}")))
    = Ok args ->
  (is_dict args = false ->
   resolve_tool_call books only_title (VDict c) = Raise AttributeError)
  /\ (forall d t,
        args = VDict d ->
        dict_get d (py "title") = Some t ->
        truthy t = true -> is_str t = false ->
        resolve_tool_call books only_title (VDict c) = Raise AttributeError)
  /\ (forall d t,
        args = VDict d ->
        py_or (field d (py "title")) (VStr []) = VStr t ->
        eq_str (field c (py "name")) SUMMARY_TOOL_name = false ->
        resolve_tool_call books only_title (VDict c) =
          Ok (py_or (field c (py "call_id")) (field c (py "id")), VStr [])).
Proof.
  intros Ha.
  assert (resolve_tool_call books only_title (VDict c) =
            (title_arg <- title_argument args only_title ;;
             tool_result <- run_tool books (field c (py "name")) title_arg ;;
             Ok (py_or (field c (py "call_id")) (field c (py "id")),
                 tool_result))) as E.
  { unfold resolve_tool_call.
    rewrite !py_get_field. unfold bind at 1 2 3 4.
    fold (field c (py "arguments")). rewrite Ha. reflexivity. }
  rewrite E. clear E. split; [|split].
  - intros Hd. destruct args; try discriminate Hd; reflexivity.
  - intros d t -> Ht Htt Hs. unfold title_argument.
    rewrite py_get_field. unfold field_or. rewrite Ht. cbn [bind].
    unfold py_or. rewrite Htt.
    destruct t; try discriminate Hs; reflexivity.
  - intros d t -> Ht Hn.
    rewrite (title_argument_spec _ _ _ Ht). unfold bind at 1.
    unfold run_tool. now rewrite Hn.
Qed.

Lemma tool_step_on_arguments_witness :
  @resolve_tool_call Ref.python dune_books (VStr (py "Dune"))
     (VDict (tool_call "['Dune']")) = Raise AttributeError
  /\ @resolve_tool_call Ref.python dune_books (VStr (py "Dune"))
       (VDict (tool_call "{'title': 7}")) = Raise AttributeError
  /\ @resolve_tool_call Ref.python dune_books (VStr (py "Dune"))
       (VDict [(py "type", VStr (py "function_call"));
               (py "id", VStr (py "fc_1"));
               (py "name", VStr (py "get_weather"));
               (py "arguments", VStr (json_text "{'title': 'Dune'}"))])
     = Ok (VStr (py "fc_1"), VStr []).
Proof.
  split; [|split].
  - apply (@tool_step_on_arguments Ref.python dune_books (VStr (py "Dune"))
             (tool_call "['Dune']") (VList [VStr (py "Dune")]) eq_refl).
    reflexivity.
  - destruct (@tool_step_on_arguments Ref.python dune_books
                (VStr (py "Dune")) (tool_call "{'title': 7}")
                (VDict [(py "title", VInt 7)]) eq_refl) as (_ & H & _).
    apply (H [(py "title", VInt 7)] (VInt 7)); reflexivity.
  - destruct (@tool_step_on_arguments Ref.python dune_books
                (VStr (py "Dune"))
                [(py "type", VStr (py "function_call"));
                 (py "id", VStr (py "fc_1"));
                 (py "name", VStr (py "get_weather"));
                 (py "arguments", VStr (json_text "{'title': 'Dune'}"))]
                (VDict [(py "title", VStr (py "Dune"))]) eq_refl)
      as (_ & _ & H).
    apply (H [(py "title", VStr (py "Dune"))] (py "Dune")); reflexivity.
Defined.

(** X27.  An empty final text is read as the empty record: when the
    tool ran, the final reply has no text, and the decoder reads the
    text of two braces as the empty record, the run prints the bare
    prompt of the bot, asks no media question and ends normally. *)
Theorem empty_final_text_is_empty_record {P : Python} (w : world)
  (final : response) :
  existsb is_tool_output (fst (main w)) = true ->
  w_final w = Ok final ->
  output_text final = [] ->
  json_loads (py "{}") = Some (VDict []) ->
  snd (main w) = Ok tt
  /\ existsb is_media (fst (main w)) = false
  /\ exists pre cid out,
       fst (main w) =
         pre ++ [ToolOutput cid out; Print (nl ++ py "Bot> " ++ nl)].
Proof.
  intros H Hf He Hj.
  destruct (tool_output_inv w H)
    as (text & books & ids & docs & metas & results & context & only_title
        & _ & Ha & Hm).
  destruct (answer_tool_inv w books only_title Ha)
    as (first & c & cid & out & _ & _ & _ & _ & E).
  rewrite Hf, He in E. cbn [str_or] in E. rewrite Hj in E.
  assert (main w =
            (opening w books ids docs metas context
               ++ [ToolOutput cid out; Print (nl ++ py "Bot> " ++ nl)],
             Ok tt)) as Em.
  { rewrite (Hm _ eq_refl), E. reflexivity. }
  rewrite Em. cbn [fst snd]. split; [reflexivity|]. split.
  - rewrite existsb_app. reflexivity.
  - now exists (opening w books ids docs metas context), cid, out.
Qed.

Lemma empty_final_text_is_empty_record_witness :
  snd (@main Ref.python (world_of "" "yes")) = Ok tt
  /\ existsb is_media (fst (@main Ref.python (world_of "" "yes"))) = false
  /\ exists pre cid out,
       fst (@main Ref.python (world_of "" "yes")) =
         pre ++ [ToolOutput cid out; Print (nl ++ py "Bot> " ++ nl)].
Proof.
  apply (@empty_final_text_is_empty_record Ref.python (world_of "" "yes")
           (final_reply "")).
  - vm_compute. reflexivity.
  - reflexivity.
  - reflexivity.
  - reflexivity.
Defined.
